(** * ptvsd wrapper: the identifier maps, the pydevd socket shim and the
      VSCode message processor of [ptvsd/wrapper.py], embedded in Rocq.

    Python objects are modelled by explicit state passing.  A method that
    mutates [self] becomes a function from the state to a result and the new
    state; a raised exception keeps the mutations done before it, as in
    Python.  Dictionaries are [gmap]s; the order in which a dictionary is
    iterated is left unspecified (the code runs on Python 2.7 as well, where
    it is arbitrary), so nothing below depends on it. *)

From Stdlib Require Import ZArith Lia Ascii String.
From stdpp Require Import base option list strings gmap pretty sorting.

Local Open Scope Z_scope.
Set Warnings "-register-all".

(** ** Exceptions and the state-and-exception monad *)

Inductive exn :=
  | KeyError
  | ValueError
  | TypeError
  | AttributeError
  | SAXParseException
  | UnsupportedPyDevdCommandError (cmdid : Z).

Inductive res (A : Type) :=
  | Ok (a : A)
  | Raise (e : exn).
Arguments Ok {A} a.
Arguments Raise {A} e.

Definition M (S A : Type) : Type := S -> res A * S.

Definition ret {S A} (a : A) : M S A := fun s => (Ok a, s).
Definition raise {S A} (e : exn) : M S A := fun s => (Raise e, s).
(** A call that does not touch the state: its value or its exception. *)
Definition of_res {S A} (r : res A) : M S A := fun s => (r, s).
Definition bind {S A B} (m : M S A) (f : A -> M S B) : M S B :=
  fun s => match m s with
           | (Ok a, s') => f a s'
           | (Raise e, s') => (Raise e, s')
           end.
Definition get {S} : M S S := fun s => (Ok s, s).
Definition put {S} (s : S) : M S unit := fun _ => (Ok tt, s).
Definition modify {S} (f : S -> S) : M S unit := fun s => (Ok tt, f s).

(** [try: m except e => h]: run [m]; when it raises [e], run [h] in the
    state [m] left behind. *)
Definition try_except {S A} (m : M S A) (handles : exn -> bool) (h : M S A)
  : M S A :=
  fun s => match m s with
           | (Ok a, s') => (Ok a, s')
           | (Raise e, s') => if handles e then h s' else (Raise e, s')
           end.

(** Run a method of a component stored in a field of a larger object. *)
Definition zoom {S T A} (proj : S -> T) (upd : T -> S -> S) (m : M T A)
  : M S A :=
  fun s => let '(r, t) := m (proj s) in (r, upd t s).

Declare Scope py_scope.
Delimit Scope py_scope with py.
Notation "x <- c1 ;; c2" := (bind c1 (fun x => c2))
  (at level 100, c1 at next level, right associativity) : py_scope.
Notation "c1 ;;; c2" := (bind c1 (fun _ => c2))
  (at level 100, right associativity) : py_scope.

(** [for x in l: body x] *)
Fixpoint for_each {S A} (l : list A) (body : A -> M S unit) : M S unit :=
  match l with
  | [] => ret tt
  | x :: l' => bind (body x) (fun _ => for_each l' body)
  end.

Definition lookup_or_KeyError {S} `{Countable K} {V} (d : gmap K V) (k : K)
  : M S V :=
  match d !! k with
  | Some v => ret v
  | None => raise KeyError
  end.

Definition is_KeyError (e : exn) : bool :=
  match e with KeyError => true | _ => false end.

(** ** class IDMap *)

Module IDMap.
Section IDMap.
(** [K] is the type of the pydevd identifiers one map instance holds
    (thread ids, (thread, frame) tuples, ...).  [None] is not among them:
    [remove] reads it as "argument not given". *)
Context {K : Type} `{Countable K}.

Record t := mk {
  _vscode_to_pydevd : gmap Z K;
  _pydevd_to_vscode : gmap K Z;
  _next_id : Z;
}.

(** [__init__] *)
Definition init : t :=
  {| _vscode_to_pydevd := ∅; _pydevd_to_vscode := ∅; _next_id := 1 |}.

Definition pairs (self : t) : list (K * Z) :=
  map_to_list (_pydevd_to_vscode self).

(** The argument of [add]: a pydevd id, or a callable that computes it
    from the VSCode id being allocated. *)
Inductive id_arg :=
  | Key (k : K)
  | Factory (f : Z -> K).

Definition add (pydevd_id : id_arg) : M t Z := fun self =>
  let vscode_id := _next_id self in
  let pydevd_id := match pydevd_id with
                   | Factory f => f vscode_id
                   | Key k => k
                   end in
  (Ok vscode_id,
   {| _next_id := _next_id self + 1;
      _vscode_to_pydevd := <[vscode_id := pydevd_id]> (_vscode_to_pydevd self);
      _pydevd_to_vscode := <[pydevd_id := vscode_id]> (_pydevd_to_vscode self) |}).

Definition del_vscode (vscode_id : Z) : M t unit := fun self =>
  match _vscode_to_pydevd self !! vscode_id with
  | None => (Raise KeyError, self)
  | Some _ =>
      (Ok tt, {| _vscode_to_pydevd := delete vscode_id (_vscode_to_pydevd self);
                 _pydevd_to_vscode := _pydevd_to_vscode self;
                 _next_id := _next_id self |})
  end.

Definition del_pydevd (pydevd_id : K) : M t unit := fun self =>
  match _pydevd_to_vscode self !! pydevd_id with
  | None => (Raise KeyError, self)
  | Some _ =>
      (Ok tt, {| _vscode_to_pydevd := _vscode_to_pydevd self;
                 _pydevd_to_vscode := delete pydevd_id (_pydevd_to_vscode self);
                 _next_id := _next_id self |})
  end.

(** [remove(pydevd_id=None, vscode_id=None)].  With both arguments
    [None] the first branch looks [None] up in [_vscode_to_pydevd], whose
    keys are all integers: [KeyError]. *)
Definition remove (pydevd_id : option K) (vscode_id : option Z) : M t unit :=
  (ids <- (match pydevd_id, vscode_id with
           | None, None => raise KeyError
           | None, Some v =>
               self <- get ;;
               p <- lookup_or_KeyError (_vscode_to_pydevd self) v ;;
               ret (p, v)
           | Some p, None =>
               self <- get ;;
               v <- lookup_or_KeyError (_pydevd_to_vscode self) p ;;
               ret (p, v)
           | Some p, Some v => ret (p, v)
           end) ;;
   del_vscode ids.2 ;;;
   del_pydevd ids.1)%py.

Definition to_pydevd (vscode_id : Z) : M t K := fun self =>
  lookup_or_KeyError (_vscode_to_pydevd self) vscode_id self.

Definition to_vscode (pydevd_id : K) (autogen : bool) : M t Z :=
  try_except
    (self <- get ;; lookup_or_KeyError (_pydevd_to_vscode self) pydevd_id)%py
    is_KeyError
    (if autogen then add (Key pydevd_id) else raise KeyError).

Definition pydevd_ids (self : t) : list K :=
  (map_to_list (_pydevd_to_vscode self)).*1.

Definition vscode_ids (self : t) : list Z :=
  (map_to_list (_vscode_to_pydevd self)).*1.

(** The state [remove] leaves when it succeeds. *)
Definition unregister (k : K) (v : Z) (self : t) : t :=
  {| _vscode_to_pydevd := delete v (_vscode_to_pydevd self);
   _pydevd_to_vscode := delete k (_pydevd_to_vscode self);
   _next_id := _next_id self |}.

(** The map without the pairs of [l] whose key satisfies [P]. *)
Definition purge (P : K -> bool) (l : list (K * Z)) (self : t) : t :=
  foldl (fun m x => if P x.1 then unregister x.1 x.2 m else m) self l.

(** The pairs of [l] chosen by [P] are registered. *)
Definition registered_in (P : K -> bool) (self : t) (l : list (K * Z)) : Prop :=
  forall k v, (k, v) ∈ l -> P k = true -> _pydevd_to_vscode self !! k = Some v.

(** *** Sessions: sequences of calls on one instance *)

Inductive op :=
  | OpAdd (pydevd_id : id_arg)
  | OpRemove (pydevd_id : option K) (vscode_id : option Z)
  | OpToVscode (pydevd_id : K) (autogen : bool).

(** The state after a call; a call that raises leaves the state it had
    reached (the caller goes on with the same instance). *)
Definition exec (o : op) (self : t) : t :=
  match o with
  | OpAdd a => (add a self).2
  | OpRemove p v => (remove p v self).2
  | OpToVscode k g => (to_vscode k g self).2
  end.

Definition run (ops : list op) (self : t) : t :=
  foldl (fun s o => exec o s) self ops.

(** Does the call reach [add]?  [to_vscode] does only on a miss with
    [autogen]. *)
Definition calls_add (o : op) (self : t) : bool :=
  match o with
  | OpAdd _ => true
  | OpRemove _ _ => false
  | OpToVscode k g =>
      g && bool_decide (_pydevd_to_vscode self !! k = None)
  end.

(** The external ID a call returns, if it returns one. *)
Definition returned (o : op) (self : t) : option Z :=
  let value (r : res Z) := match r with Ok v => Some v | Raise _ => None end in
  match o with
  | OpAdd a => value (add a self).1
  | OpRemove p v => None
  | OpToVscode k g => value (to_vscode k g self).1
  end.

(** The external IDs handed out by the [add] calls of a session, in the
    order of the calls. *)
Fixpoint allocated (ops : list op) (self : t) : list Z :=
  match ops with
  | [] => []
  | o :: ops' =>
      (if calls_add o self
       then match returned o self with Some v => [v] | None => [] end
       else []) ++ allocated ops' (exec o self)
  end.

(** The number of calls of a session that reach [add]. *)
Fixpoint add_calls (ops : list op) (self : t) : nat :=
  match ops with
  | [] => 0%nat
  | o :: ops' =>
      ((if calls_add o self then 1 else 0) + add_calls ops' (exec o self))%nat
  end.

(** The two dictionaries are inverse to each other. *)
Definition mutual_inverse (self : t) : Prop :=
  forall (v : Z) (k : K),
    _vscode_to_pydevd self !! v = Some k <-> _pydevd_to_vscode self !! k = Some v.

(** Every VSCode id in use was handed out earlier. *)
Definition ids_below_next (self : t) : Prop :=
  forall (v : Z) (k : K),
    _vscode_to_pydevd self !! v = Some k -> v < _next_id self.

Definition arg_key (a : id_arg) (self : t) : K :=
  match a with Key k => k | Factory f => f (_next_id self) end.

(** The discipline under which the callers in this file use a map: [add]
    only for a key that is not registered, [remove] with both arguments
    only for a registered pair. *)
Definition op_ok (o : op) (self : t) : bool :=
  match o with
  | OpAdd a => bool_decide (_pydevd_to_vscode self !! arg_key a self = None)
  | OpRemove (Some p) (Some v) =>
      bool_decide (_vscode_to_pydevd self !! v = Some p)
  | OpRemove _ _ => true
  | OpToVscode _ _ => true
  end.

Fixpoint ops_ok (ops : list op) (self : t) : bool :=
  match ops with
  | [] => true
  | o :: ops' => op_ok o self && ops_ok ops' (exec o self)
  end.

End IDMap.
Arguments t K {_} {_}.
Arguments op K : clear implicits.
Arguments id_arg K : clear implicits.
End IDMap.

(** ** Python [str] methods and builtins used by the wrapper

    Strings are byte strings; the definitions follow Python 3 on ASCII
    text. *)

Module Str.
Local Open Scope string_scope.

Definition tab : ascii := "009"%char.
Definition newline : ascii := "010"%char.
Definition TAB : string := String tab "".

(** [str.isspace] on ASCII: TAB, LF, VT, FF, CR, FS, GS, RS, US, SPACE. *)
Definition isspace (c : ascii) : bool :=
  let n := N_of_ascii c in
  ((9 <=? n) && (n <=? 13) || (28 <=? n) && (n <=? 32))%N.

Definition isdigit (c : ascii) : bool :=
  let n := N_of_ascii c in ((48 <=? n) && (n <=? 57))%N.

Definition digit_value (c : ascii) : Z := Z.of_N (N_of_ascii c) - 48.

Fixpoint lstrip_by (p : ascii -> bool) (s : string) : string :=
  match s with
  | "" => ""
  | String c r => if p c then lstrip_by p r else s
  end.

Fixpoint rstrip_by (p : ascii -> bool) (s : string) : string :=
  match s with
  | "" => ""
  | String c r =>
      match rstrip_by p r with
      | "" => if p c then "" else String c ""
      | r' => String c r'
      end
  end.

Definition strip_by (p : ascii -> bool) (s : string) : string :=
  rstrip_by p (lstrip_by p s).

(** [s.strip()] *)
Definition strip : string -> string := strip_by isspace.

(** [s.strip(c)] for a one-character argument *)
Definition strip_char (c : ascii) : string -> string :=
  strip_by (Ascii.eqb c).

(** [s.startswith(p)] *)
Definition startswith (p s : string) : bool := String.prefix p s.

(** [s.endswith(p)] *)
Definition endswith (p s : string) : bool :=
  (String.length p <=? String.length s)%nat
  && String.eqb
       (String.substring (String.length s - String.length p) (String.length p) s)
       p.

Definition lower_char (c : ascii) : ascii :=
  let n := N_of_ascii c in
  if ((65 <=? n) && (n <=? 90))%N then ascii_of_N (n + 32) else c.

(** [s.lower()] *)
Fixpoint lower (s : string) : string :=
  match s with
  | "" => ""
  | String c r => String (lower_char c) (lower r)
  end.

(** [s.split(sep)] for a one-character separator: at least one part. *)
Fixpoint split (sep : ascii) (s : string) : list string :=
  match s with
  | "" => [""]
  | String c r =>
      if Ascii.eqb c sep then "" :: split sep r
      else match split sep r with
           | h :: t => String c h :: t
           | [] => [String c ""]
           end
  end.

(** [s.split(sep, maxsplit)] *)
Fixpoint split_max (maxsplit : nat) (sep : ascii) (s : string) : list string :=
  match maxsplit with
  | O => [s]
  | S n =>
      (fix go (s : string) : list string :=
         match s with
         | "" => [""]
         | String c r =>
             if Ascii.eqb c sep then "" :: split_max n sep r
             else match go r with
                  | h :: t => String c h :: t
                  | [] => [String c ""]
                  end
         end) s
  end.

(** [sep.join(l)] *)
Fixpoint join (sep : string) (l : list string) : string :=
  match l with
  | [] => ""
  | [x] => x
  | x :: l' => x ++ sep ++ join sep l'
  end.

(** [s.replace(old, new)] for a non-empty [old] (the wrapper never passes an
    empty one): occurrences are replaced from the left, without overlap.
    [skip] counts the characters of an occurrence still to be dropped. *)
Fixpoint replace_go (old new : string) (skip : nat) (s : string) : string :=
  match s with
  | "" => ""
  | String c r =>
      match skip with
      | S k => replace_go old new k r
      | O =>
          if String.prefix old s
          then new ++ replace_go old new (String.length old - 1) r
          else String c (replace_go old new 0 r)
      end
  end.

Definition replace (old new s : string) : string := replace_go old new 0 s.

(** The digits of an integer literal after the sign: decimal digits, single
    underscores allowed between two digits.  [seen] tells whether the previous
    character was a digit. *)
Fixpoint int_digits (s : string) (acc : Z) (seen : bool) : option Z :=
  match s with
  | "" => if seen then Some acc else None
  | String c r =>
      if isdigit c then int_digits r (10 * acc + digit_value c) true
      else if Ascii.eqb c "_" then
        if seen then int_digits r acc false else None
      else None
  end.

(** The white space [int()] skips around the number: TAB, LF, VT, FF, CR
    and SPACE.  The separators FS, GS, RS and US, which [str.strip] removes,
    are not among them: [int] raises [ValueError] on a string padded with
    one of those. *)
Definition isspace_int (c : ascii) : bool :=
  let n := N_of_ascii c in
  ((9 <=? n) && (n <=? 13) || (n =? 32))%N.

(** [int(s)] for a string [s]; [None] stands for [ValueError]. *)
Definition int (s : string) : option Z :=
  match strip_by isspace_int s with
  | String "-" r => Z.opp <$> int_digits r 0 false
  | String "+" r => int_digits r 0 false
  | r => int_digits r 0 false
  end.

(** [str(n)] for an integer *)
Definition of_Z (n : Z) : string := pretty n.

(** [str(x)] for a value that is a string or [None] *)
Definition of_option (o : option string) : string := default "None" o.

(** [re.findall] of the log-message pattern: the pieces that start at an
    opening brace and end at the next closing brace with no line break in
    between; the search resumes after
    each piece.  [cur] holds the piece being read, if any.  A line break
    ends the attempt: every later opening brace before it would meet the
    same line break. *)
Fixpoint findall_braces (s : string) (cur : option string) : list string :=
  match s with
  | "" => []
  | String c r =>
      match cur with
      | None =>
          if Ascii.eqb c "{" then findall_braces r (Some "{")
          else findall_braces r None
      | Some piece =>
          if Ascii.eqb c "}" then (piece ++ "}") :: findall_braces r None
          else if Ascii.eqb c newline then findall_braces r None
          else findall_braces r (Some (piece ++ String c ""))
      end
  end.

(** Does [s] continue with digits and a closing parenthesis?  Returns the
    digits. *)
Fixpoint digits_then_close (s : string) : option string :=
  match s with
  | "" => None
  | String c r =>
      if isdigit c then String c <$> digits_then_close r
      else if Ascii.eqb c ")" then Some "" else None
  end.

Definition key_suffix (s : string) : option string :=
  match s with
  | String " " (String "(" r) => digits_then_close r
  | _ => None
  end.

(** [re.match] of [s] against the pattern of [_get_index_or_key]: any text,
    a space, an opening parenthesis, digits, a closing parenthesis.  The
    text is matched greedily and does not cross a line break, so the match
    ends at the last place of the first line where the parenthesised digits
    start.  Returns groups 1 and 2. *)
Fixpoint match_key (s : string) : option (string * string) :=
  match s with
  | "" => None
  | String c r =>
      if Ascii.eqb c newline then None
      else match match_key r with
           | Some (g1, g2) => Some (String c g1, g2)
           | None => (fun g2 => ("", g2)) <$> key_suffix s
           end
  end.

Definition has_tab (s : string) : bool :=
  bool_decide (tab ∈ list_ascii_of_string s).

End Str.

(** ** The pydevd commands the wrapper names (their numbers live in
    [pydevd_comm], outside this file) *)

Inductive pydevd_cmd :=
  | CMD_RUN
  | CMD_LIST_THREADS
  | CMD_THREAD_CREATE
  | CMD_THREAD_KILL
  | CMD_THREAD_SUSPEND
  | CMD_THREAD_RUN
  | CMD_STEP_INTO
  | CMD_STEP_OVER
  | CMD_STEP_RETURN
  | CMD_GET_VARIABLE
  | CMD_SET_BREAK
  | CMD_REMOVE_BREAK
  | CMD_EVALUATE_EXPRESSION
  | CMD_GET_FRAME
  | CMD_EXEC_EXPRESSION.

(** ** class PydevdSocket: the request table and [send] *)

Module PydevdSocket.
Section PydevdSocket.
(** Event loops and futures are objects of [ptvsd.futures]; only their
    identity matters here. *)
Context {Loop Future : Type}.
(** [_decode_and_unquote]: UTF-8 decoding and [urllib.unquote]. *)
Variable _decode_and_unquote : string -> string.

(** What the socket does to the outside: the [handle_msg] callback, a
    [fut.set_result] scheduled on a loop, a write to the pipe. *)
Inductive effect :=
  | HandleMsg (cmd_id seq : Z) (args : string)
  | CallSoonThreadsafe (loop : Loop) (fut : Future) (result : Z * Z * string)
  | PipeWrite (s : string).

Record t := mk {
  seq : Z;
  requests : gmap Z (Loop * Future);
  effects : list effect;
}.

(** [__init__] *)
Definition init : t :=
  {| seq := 1000000000; requests := ∅; effects := [] |}.

Definition emit (e : effect) : M t unit :=
  modify (fun self => {| seq := seq self; requests := requests self;
                         effects := effects self ++ [e] |}).

Definition int_or_ValueError (s : string) : M t Z :=
  match Str.int s with
  | Some n => ret n
  | None => raise ValueError
  end.

(** [self.requests.pop(seq, (None, None))] *)
Definition pop_request (n : Z) : M t (option (Loop * Future)) := fun self =>
  (Ok (requests self !! n),
   {| seq := seq self; requests := delete n (requests self);
      effects := effects self |}).

Definition send (data : string) : M t Z :=
  (let result := Z.of_nat (String.length data) in
   let data := _decode_and_unquote data in
   match Str.split_max 2 Str.tab data with
   | [cmd_id; seq; args] =>
       cmd_id <- int_or_ValueError cmd_id ;;
       seq <- int_or_ValueError seq ;;
       entry <- pop_request seq ;;
       match entry with
       | None => emit (HandleMsg cmd_id seq args)
       | Some (loop, fut) => emit (CallSoonThreadsafe loop fut (cmd_id, seq, args))
       end ;;;
       ret result
   | _ => raise ValueError
   end)%py.

Definition make_packet (cmd_id : Z) (args : string) : M t (Z * string) :=
  fun self =>
    let seq0 := seq self in
    (Ok (seq0,
         (Str.of_Z cmd_id +:+ Str.TAB +:+ Str.of_Z seq0 +:+ Str.TAB +:+ args
          +:+ String Str.newline "")),
     {| seq := seq0 + 1; requests := requests self; effects := effects self |}).

Definition pydevd_notify (cmd_id : Z) (args : string) : M t unit :=
  (p <- make_packet cmd_id args ;; emit (PipeWrite p.2))%py.

(** [fut] is the future [loop.create_future()] returns. *)
Definition pydevd_request (loop : Loop) (fut : Future) (cmd_id : Z)
    (args : string) : M t Future :=
  (p <- make_packet cmd_id args ;;
   modify (fun self => {| seq := seq self;
                          requests := <[p.1 := (loop, fut)]> (requests self);
                          effects := effects self |}) ;;;
   emit (PipeWrite p.2) ;;;
   ret fut)%py.

End PydevdSocket.
Arguments t : clear implicits.
Arguments effect : clear implicits.
End PydevdSocket.

(** ** class VariablesSorter *)

Module VariablesSorter.

(** A variable as [on_variables] builds it: the dictionary with the keys
    [name], [type], [value] and, when present, [presentationHint] (always
    the raw-string hint), [variablesReference] and [evaluateName]. *)
Record variable := mk_variable {
  name : string;
  (** [None] when the reply has no such attribute *)
  type : option string;
  value : option string;
  presentationHint : bool;
  variablesReference : option Z;
  evaluateName : option string;
}.

Record t := mk {
  variables : list variable;
  single_underscore : list variable;
  double_underscore : list variable;
  dunder : list variable;
}.

(** [__init__] *)
Definition init : t :=
  {| variables := []; single_underscore := []; double_underscore := [];
     dunder := [] |}.

Definition append (var : variable) (self : t) : t :=
  let var_name := name var in
  if Str.startswith "__" var_name then
    if Str.endswith "__" var_name then
      {| variables := variables self;
         single_underscore := single_underscore self;
         double_underscore := double_underscore self;
         dunder := dunder self ++ [var] |}
    else
      {| variables := variables self;
         single_underscore := single_underscore self;
         double_underscore := double_underscore self ++ [var];
         dunder := dunder self |}
  else if Str.startswith "_" var_name then
    {| variables := variables self;
       single_underscore := single_underscore self ++ [var];
       double_underscore := double_underscore self;
       dunder := dunder self |}
  else
    {| variables := variables self ++ [var];
       single_underscore := single_underscore self;
       double_underscore := double_underscore self;
       dunder := dunder self |}.

(** [list.sort(key=get_sort_key)]: Python's sort is stable and compares the
    keys, here the names, as strings.  [insert] puts a variable in front of
    the first one whose name is not smaller. *)
Fixpoint insert (x : variable) (l : list variable) : list variable :=
  match l with
  | [] => [x]
  | y :: l' =>
      if String.leb (name x) (name y) then x :: l else y :: insert x l'
  end.

Definition sort (l : list variable) : list variable := foldr insert [] l.

Definition get_sorted_variables (self : t) : list variable * t :=
  let self' := {| variables := sort (variables self);
                  single_underscore := sort (single_underscore self);
                  double_underscore := sort (double_underscore self);
                  dunder := sort (dunder self) |} in
  (variables self' ++ single_underscore self' ++ double_underscore self'
     ++ dunder self', self').

(** The list [append] chooses for a name: 0 [variables],
    1 [single_underscore], 2 [double_underscore], 3 [dunder]. *)
Definition group (var_name : string) : nat :=
  if Str.startswith "__" var_name then
    if Str.endswith "__" var_name then 3%nat else 2%nat
  else if Str.startswith "_" var_name then 1%nat
  else 0%nat.

(** The number of underscores a name starts with. *)
Fixpoint leading_underscores (var_name : string) : nat :=
  match var_name with
  | String c rest =>
      if Ascii.eqb c "_" then S (leading_underscores rest) else 0%nat
  | EmptyString => 0%nat
  end.

(** The order of the names. *)
Definition name_le (v w : variable) : Prop :=
  String.leb (name v) (name w) = true.

(** The four groups of names: 0 no leading underscore, 1 exactly one,
    2 two or more without two trailing ones, 3 two or more with two
    trailing ones. *)
Definition group_of_name (var_name : string) : nat :=
  match leading_underscores var_name with
  | 0%nat => 0%nat
  | 1%nat => 1%nat
  | _ => if Str.endswith "__" var_name then 3%nat else 2%nat
  end.

Definition in_group (i : nat) (v : variable) : Prop :=
  group_of_name (name v) = i.

#[global] Instance in_group_dec (i : nat) (v : variable)
  : Decision (in_group i v) := decide (group_of_name (name v) = i).

(** [g] is group [i] of [vars]: it holds the variables of [vars] that are
    in the group, each once, in ascending order of their names, those of
    equal name in the order they have in [vars]. *)
Definition is_group (i : nat) (vars g : list variable) : Prop :=
  g ≡ₚ filter (in_group i) vars
  /\ StronglySorted name_le g
  /\ forall n : string,
       filter (fun v => name v = n) g
       = filter (fun v => name v = n) (filter (in_group i) vars).

Definition four_groups (vars out : list variable) : Prop :=
  exists g0 g1 g2 g3,
    out = g0 ++ g1 ++ g2 ++ g3
    /\ is_group 0 vars g0 /\ is_group 1 vars g1
    /\ is_group 2 vars g2 /\ is_group 3 vars g3.

End VariablesSorter.

(** ** class VSCodeMessageProcessor *)

Module VSCodeMessageProcessor.

(** Values of the editor protocol (keyword arguments of [send_response]
    and [send_event]). *)
Inductive value :=
  | VNone
  | VBool (b : bool)
  | VInt (n : Z)
  | VStr (s : string)
  | VList (l : list value)
  | VDict (d : list (string * value)).

(** A string or [None] as a value. *)
Definition str_or_None (o : option string) : value :=
  match o with
  | Some s => VStr s
  | None => VNone
  end.

(** A request of the editor, as far as the handlers pass it on. *)
Record request := mk_request {
  request_seq : Z;
  command : string;
}.

(** What the processor sends: [send_response] and [send_event] to the
    editor, [pydevd_notify] and [pydevd_request] to pydevd. *)
Inductive message :=
  | Response (req : request) (success : bool) (msg : option string)
      (body : list (string * value))
  | Event (event : string) (body : list (string * value))
  | PydevdNotify (cmd_id : pydevd_cmd) (args : string)
  | PydevdRequest (cmd_id : pydevd_cmd) (args : string).

Record ExceptionInfo := mk_ExceptionInfo {
  exc_name : string;
  exc_description : string;
  exc_stack : option string;
  exc_source : option string;
}.

(** A [frame] element of a suspend event. *)
Record xframe := mk_xframe {
  xframe_id : string;
  xframe_name : string;
  xframe_file : string;
  xframe_line : string;
}.

(** A [var] element of a pydevd reply.  [xvar['name']] and the like give
    [None] for an attribute the element does not have. *)
Record xvar := mk_xvar {
  xvar_name : option string;
  xvar_type : option string;
  xvar_value : option string;
  xvar_isContainer : option string;
  xvar_isErrorOnEval : option string;
}.

(** What [xml.var] evaluates to on a parsed reply: [AttributeError] without
    a [var] child, the element when there is one, a list when there are
    several. *)
Inductive xml_var :=
  | NoVar
  | OneVar (x : xvar)
  | ManyVars (l : list xvar).

Record xml := mk_xml { var : xml_var }.

(** The format options of a request ([hex], [rawString]). *)
Record format := mk_format {
  hex : bool;
  rawString : bool;
}.

Record debug_options_t := mk_debug_options {
  DJANGO_DEBUG : bool;
  FLASK_DEBUG : bool;
}.

(** One entry of the [breakpoints] argument of setBreakpoints. *)
Record source_breakpoint := mk_source_breakpoint {
  line : Z;
  condition : option string;
  hitCondition : option string;
  logMessage : option string;
}.

Record setBreakpoints_args := mk_setBreakpoints_args {
  source_path : string;
  breakpoints : list source_breakpoint;
}.

(** Keys of [frame_map] and [bp_map]: [(pyd_tid, frame id)] and
    [(path, vsc_bpid)].  Keys of [var_map]: the tuple
    [(pyd_tid, pyd_fid, 'FRAME', name, ...)] as thread, frame and the rest
    of the path; a name is [None] where [on_variables] read it off a [var]
    element without a [name] attribute. *)
Abbreviation frame_key := (string * Z)%type (only parsing).
Abbreviation bp_key := (string * Z)%type (only parsing).
Abbreviation var_key :=
  (string * Z * list (option string))%type (only parsing).

Record t := mk {
  bkpoints : option setBreakpoints_args;
  is_process_created : bool;
  stack_traces : gmap string (list xframe);
  active_exceptions : gmap string ExceptionInfo;
  thread_map : IDMap.t string;
  frame_map : IDMap.t frame_key;
  var_map : IDMap.t var_key;
  bp_map : IDMap.t bp_key;
  debug_options : debug_options_t;
  (** the paths given to [path_casing.track_file_path_case] *)
  tracked_paths : list string;
  (** [SafeReprPresentationProvider._lock] and the format in force *)
  provider_locked : bool;
  provider_format : format;
  (** everything sent so far, oldest first *)
  sent : list message;
}.

(** [__init__] *)
Definition init : t :=
  {| bkpoints := None; is_process_created := false; stack_traces := ∅;
     active_exceptions := ∅; thread_map := IDMap.init;
     frame_map := IDMap.init; var_map := IDMap.init; bp_map := IDMap.init;
     debug_options := mk_debug_options false false; tracked_paths := [];
     provider_locked := false; provider_format := mk_format false false;
     sent := [] |}.

Definition set_bkpoints (x : option setBreakpoints_args) (s : t) : t :=
  mk x (is_process_created s) (stack_traces s) (active_exceptions s)
     (thread_map s) (frame_map s) (var_map s) (bp_map s) (debug_options s)
     (tracked_paths s) (provider_locked s) (provider_format s) (sent s).
Definition set_stack_traces (x : gmap string (list xframe)) (s : t) : t :=
  mk (bkpoints s) (is_process_created s) x (active_exceptions s)
     (thread_map s) (frame_map s) (var_map s) (bp_map s) (debug_options s)
     (tracked_paths s) (provider_locked s) (provider_format s) (sent s).
Definition set_active_exceptions (x : gmap string ExceptionInfo) (s : t) : t :=
  mk (bkpoints s) (is_process_created s) (stack_traces s) x
     (thread_map s) (frame_map s) (var_map s) (bp_map s) (debug_options s)
     (tracked_paths s) (provider_locked s) (provider_format s) (sent s).
Definition set_thread_map (x : IDMap.t string) (s : t) : t :=
  mk (bkpoints s) (is_process_created s) (stack_traces s) (active_exceptions s)
     x (frame_map s) (var_map s) (bp_map s) (debug_options s)
     (tracked_paths s) (provider_locked s) (provider_format s) (sent s).
Definition set_frame_map (x : IDMap.t frame_key) (s : t) : t :=
  mk (bkpoints s) (is_process_created s) (stack_traces s) (active_exceptions s)
     (thread_map s) x (var_map s) (bp_map s) (debug_options s)
     (tracked_paths s) (provider_locked s) (provider_format s) (sent s).
Definition set_var_map (x : IDMap.t var_key) (s : t) : t :=
  mk (bkpoints s) (is_process_created s) (stack_traces s) (active_exceptions s)
     (thread_map s) (frame_map s) x (bp_map s) (debug_options s)
     (tracked_paths s) (provider_locked s) (provider_format s) (sent s).
Definition set_bp_map (x : IDMap.t bp_key) (s : t) : t :=
  mk (bkpoints s) (is_process_created s) (stack_traces s) (active_exceptions s)
     (thread_map s) (frame_map s) (var_map s) x (debug_options s)
     (tracked_paths s) (provider_locked s) (provider_format s) (sent s).
Definition set_tracked_paths (x : list string) (s : t) : t :=
  mk (bkpoints s) (is_process_created s) (stack_traces s) (active_exceptions s)
     (thread_map s) (frame_map s) (var_map s) (bp_map s) (debug_options s)
     x (provider_locked s) (provider_format s) (sent s).
Definition set_provider (locked : bool) (fmt : format) (s : t) : t :=
  mk (bkpoints s) (is_process_created s) (stack_traces s) (active_exceptions s)
     (thread_map s) (frame_map s) (var_map s) (bp_map s) (debug_options s)
     (tracked_paths s) locked fmt (sent s).
Definition set_sent (x : list message) (s : t) : t :=
  mk (bkpoints s) (is_process_created s) (stack_traces s) (active_exceptions s)
     (thread_map s) (frame_map s) (var_map s) (bp_map s) (debug_options s)
     (tracked_paths s) (provider_locked s) (provider_format s) x.

Definition send (m : message) : M t unit :=
  modify (fun s => set_sent (sent s ++ [m]) s).

(** [send_response(request, success=True, message=None, **kwargs)] *)
Definition send_response (req : request) (success : bool)
    (msg : option string) (kwargs : list (string * value)) : M t unit :=
  send (Response req success msg kwargs).

Definition send_event (event : string) (kwargs : list (string * value))
  : M t unit :=
  send (Event event kwargs).

Definition send_error_response (req : request) (msg : option string)
  : M t unit :=
  send_response req false msg [].

Definition pydevd_notify (cmd_id : pydevd_cmd) (args : string) : M t unit :=
  send (PydevdNotify cmd_id args).

Definition with_thread_map {A} : M (IDMap.t string) A -> M t A :=
  zoom thread_map set_thread_map.
Definition with_frame_map {A} : M (IDMap.t frame_key) A -> M t A :=
  zoom frame_map set_frame_map.
Definition with_var_map {A} : M (IDMap.t var_key) A -> M t A :=
  zoom var_map set_var_map.
Definition with_bp_map {A} : M (IDMap.t bp_key) A -> M t A :=
  zoom bp_map set_bp_map.

Definition on_pause (req : request) (threadId : Z) : M t unit :=
  (self <- get ;;
   if negb (is_process_created self) then
     send_response req false
       (Some "Cannot pause while debugger is initializing") []
   else
     let vsc_tid := threadId in
     (if vsc_tid =? 0 then
        for_each (IDMap.pydevd_ids (thread_map self))
          (fun pyd_tid => pydevd_notify CMD_THREAD_SUSPEND pyd_tid)
      else
        pyd_tid <- with_thread_map (IDMap.to_pydevd vsc_tid) ;;
        pydevd_notify CMD_THREAD_SUSPEND pyd_tid) ;;;
     send_response req true None [])%py.

Definition _get_hit_condition_expression (hit_condition : option string)
  : option string :=
  match hit_condition with
  | None => None
  | Some "" => None
  | Some hit_condition =>
      let expr := Str.strip hit_condition in
      match Str.int expr with
      | Some _ => Some ("@HIT@ == " +:+ expr)
      | None =>
          if Str.startswith "%" expr then
            Some ("@HIT@ " +:+ expr +:+ " == 0")
          else if Str.startswith "==" expr || Str.startswith ">" expr
                  || Str.startswith "<" expr then
            Some ("@HIT@ " +:+ expr)
          else Some hit_condition
      end
  end.

Definition on_pydevd_thread_run (seq : Z) (args : string) : M t unit :=
  (match Str.split Str.tab args with
   | [pyd_tid; _] =>
       let pyd_tid := Str.strip pyd_tid in
       modify (fun s => set_stack_traces (delete pyd_tid (stack_traces s)) s) ;;;
       modify (fun s =>
                 set_active_exceptions (delete pyd_tid (active_exceptions s)) s) ;;;
       self <- get ;;
       for_each (IDMap.pairs (frame_map self))
         (fun '(pyd_fid, vsc_fid) =>
            if decide (pyd_fid.1 = pyd_tid)
            then with_frame_map (IDMap.remove (Some pyd_fid) (Some vsc_fid))
            else ret tt) ;;;
       self <- get ;;
       for_each (IDMap.pairs (var_map self))
         (fun '(pyd_var, vsc_var) =>
            if decide (pyd_var.1.1 = pyd_tid)
            then with_var_map (IDMap.remove (Some pyd_var) (Some vsc_var))
            else ret tt) ;;;
       found <- try_except
                  (vsc_tid <- with_thread_map (IDMap.to_vscode pyd_tid false) ;;
                   ret (Some vsc_tid))
                  is_KeyError
                  (ret None) ;;
       match found with
       | None => ret tt
       | Some vsc_tid => send_event "continued" [("threadId", VInt vsc_tid)]
       end
   | _ => raise ValueError
   end)%py.

Section Handlers.
(** Builtins and library functions the handlers call: [repr] on a string,
    [urllib.unquote], and [parse_xml_response]: the [untangle] parser
    followed by [.xml].  It raises SAXParseException on text that is not
    well formed and AttributeError when the root element is not [xml]; the
    handlers catch the first only.  The [unquote] of the wrapper passes
    [None] through: [unquote <$> o] below. *)
Variable repr : string -> string.
Variable unquote : string -> string.
Variable parse_xml_response : string -> res xml.

Definition quote : string := String "034"%char "".

(** The print expression of a log point (the [else] branch on
    [len(logMessage)] in [on_setBreakpoints]). *)
Definition logpoint_expression (logMessage : string) : string :=
  let expressions := Str.findall_braces logMessage None in
  match expressions with
  | [] => "print(" +:+ repr logMessage +:+ ")"
  | _ =>
      let raw_text :=
        foldl (fun a b => Str.replace b "{}" a) logMessage expressions in
      let raw_text := Str.replace quote (String "092"%char quote) raw_text in
      let expression_list :=
        Str.join ", "
          (map (fun s => Str.strip (Str.strip_char "}" (Str.strip_char "{" s)))
               expressions) in
      "print(" +:+ quote +:+ raw_text +:+ quote +:+ ".format("
        +:+ expression_list +:+ "))"
  end.

Definition bp_type_of (path : string) (opts : debug_options_t) : string :=
  if negb (Str.endswith ".py" (Str.lower path)) then
    if DJANGO_DEBUG opts then "django-line"
    else if FLASK_DEBUG opts then "jinja2-line"
    else "python-line"
  else "python-line".

(** The three generated expressions of one breakpoint, as they go into the
    message: [condition], [expression], [hit_condition], and [is_logpoint]. *)
Definition breakpoint_fields (src_bp : source_breakpoint)
  : option string * option string * option string * bool :=
  let hit_condition := _get_hit_condition_expression (hitCondition src_bp) in
  let logMessage := default "" (logMessage src_bp) in
  if (String.length logMessage =? 0)%nat then
    (condition src_bp, None, hit_condition, false)
  else
    (None, Some (logpoint_expression logMessage), hit_condition, true).

(** [msgfmt.format(vsc_bpid, bp_type, path, line, condition, expression,
    hit_condition, is_logpoint)] *)
Definition set_break_message (vsc_bpid : Z) (bp_type path : string) (line : Z)
    (fields : option string * option string * option string * bool) : string :=
  let '(condition, expression, hit_condition, is_logpoint) := fields in
  Str.join Str.TAB
    [Str.of_Z vsc_bpid; bp_type; path; Str.of_Z line; "None";
     Str.of_option condition; Str.of_option expression;
     Str.of_option hit_condition;
     if is_logpoint then "True" else "None"].

Definition track_file_path_case (path : string) : M t unit :=
  modify (fun s => set_tracked_paths (tracked_paths s ++ [path]) s).

(** The body of the loop over [src_bps]; returns the entry appended to
    [bps]. *)
Definition set_one_breakpoint (bp_type path : string)
    (src_bp : source_breakpoint) : M t value :=
  (let line := line src_bp in
   vsc_bpid <- with_bp_map
                 (IDMap.add (IDMap.Factory (fun vsc_bpid => (path, vsc_bpid)))) ;;
   track_file_path_case path ;;;
   let msg := set_break_message vsc_bpid bp_type path line
                (breakpoint_fields src_bp) in
   pydevd_notify CMD_SET_BREAK msg ;;;
   ret (VDict [("id", VInt vsc_bpid); ("verified", VBool true);
               ("line", VInt line)]))%py.

Fixpoint set_each_breakpoint (bp_type path : string)
    (src_bps : list source_breakpoint) : M t (list value) :=
  match src_bps with
  | [] => ret []
  | src_bp :: rest =>
      (bp <- set_one_breakpoint bp_type path src_bp ;;
       bps <- set_each_breakpoint bp_type path rest ;;
       ret (bp :: bps))%py
  end.

(** The body of the loop that deletes the breakpoints of the source. *)
Definition remove_one_breakpoint (bp_type path : string)
    (pair : bp_key * Z) : M t unit :=
  let '(pyd_bpid, vsc_bpid) := pair in
  if decide (pyd_bpid.1 = path) then
    (let msg := Str.join Str.TAB [bp_type; path; Str.of_Z vsc_bpid] in
     pydevd_notify CMD_REMOVE_BREAK msg ;;;
     with_bp_map (IDMap.remove (Some pyd_bpid) (Some vsc_bpid)))%py
  else ret tt.

Definition on_setBreakpoints (req : option request) (args : setBreakpoints_args)
  : M t unit :=
  (modify (set_bkpoints (Some args)) ;;;
   let path := source_path args in
   track_file_path_case path ;;;
   let src_bps := breakpoints args in
   self <- get ;;
   let bp_type := bp_type_of path (debug_options self) in
   for_each (IDMap.pairs (bp_map self)) (remove_one_breakpoint bp_type path) ;;;
   bps <- set_each_breakpoint bp_type path src_bps ;;
   match req with
   | Some req => send_response req true None [("breakpoints", VList bps)]
   | None => ret tt
   end)%py.

(** *** Vocabulary for the breakpoint properties *)

(** The remove-break notification for the breakpoint [vsc_bpid]. *)
Definition remove_break_message (bp_type path : string) (vsc_bpid : Z)
  : message :=
  PydevdNotify CMD_REMOVE_BREAK
    (Str.join Str.TAB [bp_type; path; Str.of_Z vsc_bpid]).

(** The set-break notifications for [src_bps], the first of which gets the
    ID [n]. *)
Fixpoint set_break_messages (bp_type path : string) (n : Z)
    (src_bps : list source_breakpoint) : list message :=
  match src_bps with
  | [] => []
  | src_bp :: rest =>
      PydevdNotify CMD_SET_BREAK
        (set_break_message n bp_type path (line src_bp)
           (breakpoint_fields src_bp))
      :: set_break_messages bp_type path (n + 1) rest
  end.

(** The entries of the response for [src_bps], the first of which gets the
    ID [n]. *)
Fixpoint verified_breakpoints (n : Z) (src_bps : list source_breakpoint)
  : list value :=
  match src_bps with
  | [] => []
  | src_bp :: rest =>
      VDict [("id", VInt n); ("verified", VBool true);
             ("line", VInt (line src_bp))]
      :: verified_breakpoints (n + 1) rest
  end.

(** [bp_map] after one [add] per element of [src_bps]. *)
Definition register_breakpoints (path : string)
    (src_bps : list source_breakpoint) (m : IDMap.t bp_key) : IDMap.t bp_key :=
  foldl (fun m _ =>
           (IDMap.add (IDMap.Factory (fun vsc_bpid => (path, vsc_bpid))) m).2)
        m src_bps.

(** What holds of [bp_map] between calls: the two dictionaries are inverse,
    the IDs in use were handed out earlier, and every key carries its own
    ID. *)
Definition bp_map_wf (m : IDMap.t bp_key) : Prop :=
  IDMap.mutual_inverse m
  /\ IDMap.ids_below_next m
  /\ forall k v, IDMap._pydevd_to_vscode m !! k = Some v -> k.2 = v.

Definition re_build_breakpoints : M t unit :=
  (self <- get ;;
   match bkpoints self with
   | None => ret tt
   | Some args => on_setBreakpoints None args
   end)%py.

(** *** Handlers that wait for pydevd

    A generator handler runs until it yields a future and is resumed with
    the future's result.  [AwaitReply] is a yield of the future of a
    [pydevd_request]; [AwaitFormat] is a yield of [self.using_format(fmt)],
    which polls the provider lock, sleeping on the loop in between, and is
    resumed once it has taken the lock. *)

Inductive step (A : Type) :=
  | Done (r : res A)
  | AwaitReply (k : Z * Z * string -> t -> step A * t)
  | AwaitFormat (fmt : format) (k : t -> step A * t).
Arguments Done {A} r.
Arguments AwaitReply {A} k.
Arguments AwaitFormat {A} fmt k.

Definition C (A : Type) : Type := t -> step A * t.

Definition lift {A} (m : M t A) : C A :=
  fun s => let '(r, s') := m s in (Done r, s').

Fixpoint step_bind {A B} (x : step A) (f : A -> C B) : C B := fun s =>
  match x with
  | Done (Ok a) => f a s
  | Done (Raise e) => (Done (Raise e), s)
  | AwaitReply k =>
      (AwaitReply (fun r s' => let '(x', s'') := k r s' in step_bind x' f s''), s)
  | AwaitFormat fmt k =>
      (AwaitFormat fmt (fun s' => let '(x', s'') := k s' in step_bind x' f s''), s)
  end.

Definition cbind {A B} (c : C A) (f : A -> C B) : C B :=
  fun s => let '(x, s') := c s in step_bind x f s'.

Declare Scope co_scope.
Delimit Scope co_scope with co.
Notation "x <- c1 ;; c2" := (cbind c1 (fun x => c2))
  (at level 100, c1 at next level, right associativity) : co_scope.
Notation "c1 ;;; c2" := (cbind c1 (fun _ => c2))
  (at level 100, right associativity) : co_scope.

(** [yield self.pydevd_request(cmd_id, args)] *)
Definition pydevd_request (cmd_id : pydevd_cmd) (args : string)
  : C (Z * Z * string) :=
  fun s => (AwaitReply (fun r s' => (Done (Ok r), s')),
            set_sent (sent s ++ [PydevdRequest cmd_id args]) s).

(** [yield self.using_format(fmt)]: resumed holding the lock; the result is
    the context manager, which remembers the format in force. *)
Definition using_format (fmt : format) : C format :=
  fun s => (AwaitFormat fmt (fun s' => (Done (Ok (provider_format s')), s')), s).

(** [with (yield self.using_format(fmt)): resp = yield
    self.pydevd_request(cmd_id, args)].  Entering the context manager sets
    the format, leaving it restores the old one and releases the lock. *)
Definition request_using_format (fmt : format) (cmd_id : pydevd_cmd)
    (args : string) : C (Z * Z * string) :=
  (old_repr <- using_format fmt ;;
   lift (modify (set_provider true fmt)) ;;;
   resp <- pydevd_request cmd_id args ;;
   lift (modify (set_provider false old_repr)) ;;;
   lift (ret resp))%co.

(** Run one handler alone on the loop: every [pydevd_request] is answered
    by the next of [replies], the provider lock is taken when it is free.
    [None] when the handler is left waiting. *)
Fixpoint drive {A} (x : step A) (replies : list (Z * Z * string)) (s : t)
  : option (res A * t) :=
  match x with
  | Done r => Some (r, s)
  | AwaitReply k =>
      match replies with
      | [] => None
      | r :: replies' => let '(x', s') := k r s in drive x' replies' s'
      end
  | AwaitFormat fmt k =>
      if provider_locked s then None
      else let '(x', s') := k (set_provider true (provider_format s) s) in
           drive x' replies s'
  end.

Definition run_handler {A} (c : C A) (replies : list (Z * Z * string)) (s : t)
  : option (res A * t) :=
  let '(x, s') := c s in drive x replies s'.

Record evaluate_args := mk_evaluate_args {
  expression : string;
  evaluate_format : format;
  frameId : Z;
  context : string;
}.

(** [bool(x)] for an attribute value *)
Definition truthy (o : option string) : bool :=
  match o with
  | None | Some "" => false
  | Some _ => true
  end.

Definition is_True (o : option string) : bool :=
  bool_decide (o = Some "True").

Definition on_evaluate (req : request) (args : evaluate_args) : C unit :=
  (let expr := Str.replace Str.TAB " " (expression args) in
   let fmt := evaluate_format args in
   let vsc_fid := frameId args in
   pyd <- lift (with_frame_map (IDMap.to_pydevd vsc_fid)) ;;
   let '(pyd_tid, pyd_fid) := (pyd : frame_key) in
   let msg := Str.join Str.TAB
                [pyd_tid; Str.of_Z pyd_fid; "LOCAL"; expr; "1"] in
   resp <- request_using_format fmt CMD_EVALUATE_EXPRESSION msg ;;
   let resp_args := resp.2 in
   match parse_xml_response resp_args with
   | Raise SAXParseException => lift (send_error_response req None)
   | Raise e => lift (raise e)
   | Ok xml =>
       match var xml with
       | NoVar => lift (send_response req false None [])
       | ManyVars _ => lift (raise TypeError)
       | OneVar xvar =>
           let context := context args in
           let is_eval_error := xvar_isErrorOnEval xvar in
           if String.eqb context "hover" && is_True is_eval_error then
             lift (send_response req true None
                     [("result", VNone); ("variablesReference", VInt 0)])
           else if String.eqb context "repl" && is_True is_eval_error then
             resp <- request_using_format fmt CMD_EXEC_EXPRESSION msg ;;
             let resp_args := resp.2 in
             let '(result_type, result) :=
               match parse_xml_response resp_args with
               | Ok {| var := OneVar xvar2 |} =>
                   (unquote <$> xvar_type xvar2, unquote <$> xvar_value xvar2)
               | _ => (unquote <$> xvar_type xvar, unquote <$> xvar_value xvar)
               end in
             lift (send_response req true None
                     [("result",
                       if bool_decide (result = Some "None")
                          && bool_decide (result_type = Some "NoneType")
                       then VNone else str_or_None result);
                      ("type", str_or_None result_type);
                      ("variablesReference", VInt 0)])
           else
             let pyd_var : var_key :=
               (pyd_tid, pyd_fid, [Some "EXPRESSION"; Some expr]) in
             vsc_var <- lift (with_var_map (IDMap.to_vscode pyd_var true)) ;;
             lift (send_response req true None
                     ([("type", str_or_None (unquote <$> xvar_type xvar));
                       ("result", str_or_None (unquote <$> xvar_value xvar))]
                      ++ if truthy (xvar_isContainer xvar)
                         then [("variablesReference", VInt vsc_var)] else []))
       end
   end)%co.

Record variables_args := mk_variables_args {
  variablesReference : Z;
  variables_format : format;
}.

(** Returns the text that goes between the brackets; [None] stands for the
    exception of the final [int(text)]. *)
Definition _get_index_or_key (text : string) : option string :=
  match Str.match_key text with
  | Some (group1, group2) =>
      match Str.int group2 with
      | Some _ => Some group1
      | None => Str.of_Z <$> Str.int text
      end
  | None => Str.of_Z <$> Str.int text
  end.

(** One round of the loop of [_get_variable_evaluate_name].  Both the
    [try] part and the [except Exception] part end in [eval_name += ...]:
    with [eval_name] or the name [s] being [None] the second one raises
    TypeError, which nothing catches. *)
Definition evaluate_name_step (eval_name : res (option string))
    (s : option string) : res (option string) :=
  match eval_name, s with
  | Ok (Some eval_name), Some s =>
      Ok (Some match _get_index_or_key s with
               | Some i => eval_name +:+ "[" +:+ i +:+ "]"
               | None => eval_name +:+ "." +:+ s
               end)
  | Ok _, _ => Raise TypeError
  | Raise e, _ => Raise e
  end.

Definition _get_variable_evaluate_name (pyd_var_parent : var_key)
    (var_name : option string) : res (option string) :=
  if (3 <? 2 + length pyd_var_parent.2)%nat then
    match pyd_var_parent.2 ++ [var_name] with
    | _ :: var3 :: rest => foldl evaluate_name_step (Ok var3) rest
    | _ => Ok None
    end
  else Ok None.

(** The body of the loop over [xvars], with the reading of the name at the
    start of [variables.append(var)]: [var_name.startswith] raises
    AttributeError when the name is [None]. *)
Definition build_variable (pyd_var : var_key) (xvar : xvar)
  : M t VariablesSorter.variable :=
  (let var_name := unquote <$> xvar_name xvar in
   let var_type := unquote <$> xvar_type xvar in
   let var_value := unquote <$> xvar_value xvar in
   let hint :=
     bool_decide (var_type ∈ [Some "str"; Some "unicode"; Some "bytes";
                              Some "bytearray"]) in
   ref <- (if truthy (xvar_isContainer xvar) then
             let pyd_child : var_key := (pyd_var.1, pyd_var.2 ++ [var_name]) in
             v <- with_var_map (IDMap.to_vscode pyd_child true) ;;
             ret (Some v)
           else ret None) ;;
   eval_name <- of_res (_get_variable_evaluate_name pyd_var var_name) ;;
   let eval_name :=
     match eval_name with
     | Some "" => None
     | r => r
     end in
   match var_name with
   | None => raise AttributeError
   | Some var_name =>
       ret (VariablesSorter.mk_variable var_name var_type var_value hint ref
              eval_name)
   end)%py.

Fixpoint collect_variables (pyd_var : var_key) (xvars : list xvar)
    (variables : VariablesSorter.t) : M t VariablesSorter.t :=
  match xvars with
  | [] => ret variables
  | xvar :: rest =>
      (var <- build_variable pyd_var xvar ;;
       collect_variables pyd_var rest (VariablesSorter.append var variables))%py
  end.

(** The dictionary sent for a variable. *)
Definition variable_value (v : VariablesSorter.variable) : value :=
  VDict ([("name", VStr (VariablesSorter.name v));
          ("type", str_or_None (VariablesSorter.type v));
          ("value", str_or_None (VariablesSorter.value v))]
         ++ (if VariablesSorter.presentationHint v
             then [("presentationHint",
                    VDict [("attributes", VList [VStr "rawString"])])]
             else [])
         ++ match VariablesSorter.variablesReference v with
            | Some r => [("variablesReference", VInt r)]
            | None => []
            end
         ++ match VariablesSorter.evaluateName v with
            | Some e => [("evaluateName", VStr e)]
            | None => []
            end).

(** [for xvar in xvars]: a single element iterates as itself. *)
Definition xvars_of (x : xml) : list xvar :=
  match var x with
  | NoVar => []
  | OneVar xvar => [xvar]
  | ManyVars l => l
  end.

Definition on_variables (req : request) (args : variables_args) : C unit :=
  (let vsc_var := variablesReference args in
   let fmt := variables_format args in
   pyd_var <- lift (with_var_map (IDMap.to_pydevd vsc_var)) ;;
   let cmd := if (2 + length (pyd_var : var_key).2 =? 3)%nat
              then CMD_GET_FRAME else CMD_GET_VARIABLE in
   let msg := Str.join Str.TAB
                (pyd_var.1.1 :: Str.of_Z pyd_var.1.2
                 :: map Str.of_option pyd_var.2) in
   resp <- request_using_format fmt cmd msg ;;
   let resp_args := resp.2 in
   match parse_xml_response resp_args with
   | Raise SAXParseException => lift (send_error_response req None)
   | Raise e => lift (raise e)
   | Ok xml =>
       variables <- lift (collect_variables pyd_var (xvars_of xml)
                            VariablesSorter.init) ;;
       lift (send_response req true None
               [("variables",
                 VList (map variable_value
                          (VariablesSorter.get_sorted_variables variables).1))])
   end)%co.

End Handlers.
End VSCodeMessageProcessor.

(** ** Concrete inputs used in the examples below *)

Module Examples.
Import PydevdSocket.
Local Open Scope string_scope.

(** A reply to request 1000000000 of a loop [0] with future [42]. *)
Definition reply_frame : string :=
  "113" +:+ Str.TAB +:+ "1000000000" +:+ Str.TAB +:+ "<xml/>".

Definition one_pending : PydevdSocket.t nat nat :=
  {| seq := 1000000001; requests := {[ 1000000000 := (0%nat, 42%nat) ]};
     effects := [] |}.

(** A session with one thread that is suspended in one frame, another
    thread with a frame of its own, and the [Locals] scope of both. *)
Definition suspended_frames : IDMap.t (string * Z) :=
  IDMap.run [IDMap.OpToVscode ("pid1_tid1", 2) true;
             IDMap.OpToVscode ("pid1_tid7", 9) true] IDMap.init.

Definition suspended_vars : IDMap.t (string * Z * list (option string)) :=
  IDMap.run [IDMap.OpToVscode ("pid1_tid1", 2, [Some "FRAME"]) true;
             IDMap.OpToVscode ("pid1_tid7", 9, [Some "FRAME"]) true] IDMap.init.

Definition suspended_state : VSCodeMessageProcessor.t :=
  VSCodeMessageProcessor.set_var_map suspended_vars
    (VSCodeMessageProcessor.set_frame_map suspended_frames
       (VSCodeMessageProcessor.set_thread_map
          (IDMap.run [IDMap.OpToVscode "pid1_tid1" true] IDMap.init)
          VSCodeMessageProcessor.init)).

(** The payload of a thread-run event for the first thread. *)
Definition thread_run_args : string := "pid1_tid1" +:+ Str.TAB +:+ "106".

(** Replies of pydevd and a parser that knows just them. *)
Definition eval_error_reply : string :=
  "<xml><var name='' type='NameError' isErrorOnEval='True'/></xml>".
Definition exec_reply : string :=
  "<xml><var name='' type='int' value='3'/></xml>".
Definition frame_reply : string :=
  "<xml><var name='b'/><var name='__init__'/><var name='_x'/>" +:+
  "<var name='a'/><var name='__private'/><var name='__'/></xml>".

Definition example_parse (reply : string) : res VSCodeMessageProcessor.xml :=
  let xvar name type value :=
    VSCodeMessageProcessor.mk_xvar (Some name) (Some type) (Some value) in
  if String.eqb reply eval_error_reply then
    Ok (VSCodeMessageProcessor.mk_xml
          (VSCodeMessageProcessor.OneVar
             (xvar "" "NameError" "name 'x' is not defined" None
                   (Some "True"))))
  else if String.eqb reply exec_reply then
    Ok (VSCodeMessageProcessor.mk_xml
          (VSCodeMessageProcessor.OneVar (xvar "" "int" "3" None None)))
  else if String.eqb reply frame_reply then
    Ok (VSCodeMessageProcessor.mk_xml
          (VSCodeMessageProcessor.ManyVars
             [xvar "b" "int" "1" None None;
              xvar "__init__" "method" "m" None None;
              xvar "_x" "int" "2" None None;
              xvar "a" "list" "[]" (Some "True") None;
              xvar "__private" "int" "3" None None;
              xvar "__" "int" "4" None None]))
  else Raise SAXParseException.

Definition evaluate_request : VSCodeMessageProcessor.request :=
  VSCodeMessageProcessor.mk_request 11 "evaluate".
Definition variables_request : VSCodeMessageProcessor.request :=
  VSCodeMessageProcessor.mk_request 12 "variables".
Definition breakpoints_request : VSCodeMessageProcessor.request :=
  VSCodeMessageProcessor.mk_request 13 "setBreakpoints".

Definition breakpoints_A : list VSCodeMessageProcessor.source_breakpoint :=
  [VSCodeMessageProcessor.mk_source_breakpoint 3 (Some "x > 1") None None].
Definition breakpoints_B : list VSCodeMessageProcessor.source_breakpoint :=
  [VSCodeMessageProcessor.mk_source_breakpoint 4 None (Some "%3") None;
   VSCodeMessageProcessor.mk_source_breakpoint 9 None None (Some "x is {x}")].

End Examples.

(** ** More vocabulary for the identifier maps *)

(** The counter is at least 1 and every ID in use is at least 1. *)
Definition ids_from_one {K : Type} `{Countable K} (self : IDMap.t K) : Prop :=
  1 <= IDMap._next_id self
  /\ forall v k, IDMap._vscode_to_pydevd self !! v = Some k -> 1 <= v.

(** ** Sessions on a PydevdSocket *)

Module SocketSession.
Section SocketSession.
Context {Loop Future : Type}.
Variable decode : string -> string.
Import PydevdSocket.

(** Every pending request was registered under a sequence number that
    [make_packet] has already handed out. *)
Definition pending_below_seq (self : PydevdSocket.t Loop Future) : Prop :=
  forall n x, requests self !! n = Some x -> n < seq self.

(** The calls made on one socket: the two ways of writing to pydevd and
    the arrival of a frame from pydevd. *)
Inductive op :=
  | Notify (cmd_id : Z) (args : string)
  | Request (loop : Loop) (fut : Future) (cmd_id : Z) (args : string)
  | Send (data : string).

(** The state after a call; a call that raises leaves the state it had
    reached. *)
Definition exec (o : op) (self : PydevdSocket.t Loop Future)
  : PydevdSocket.t Loop Future :=
  match o with
  | Notify cmd_id args => (pydevd_notify cmd_id args self).2
  | Request loop fut cmd_id args => (pydevd_request loop fut cmd_id args self).2
  | Send data => (send decode data self).2
  end.

Definition run (ops : list op) (self : PydevdSocket.t Loop Future)
  : PydevdSocket.t Loop Future :=
  foldl (fun s o => exec o s) self ops.

(** The packets written to the pipe so far, oldest first. *)
Definition written (self : PydevdSocket.t Loop Future) : list string :=
  omap (fun e => match e with PipeWrite s => Some s | _ => None end)
       (effects self).

(** The command and arguments of the calls of a session that write a
    packet, in the order of the calls. *)
Definition asked (ops : list op) : list (Z * string) :=
  omap (fun o => match o with
                 | Notify cmd_id args | Request _ _ cmd_id args =>
                     Some (cmd_id, args)
                 | Send _ => None
                 end) ops.

(** The packet [make_packet] builds for the sequence number [n]. *)
Definition packet (cmd_id n : Z) (args : string) : string :=
  Str.of_Z cmd_id +:+ Str.TAB +:+ Str.of_Z n +:+ Str.TAB +:+ args
  +:+ String Str.newline "".

End SocketSession.
Arguments op : clear implicits.
End SocketSession.

(** ** PydevdSocket: the pipe and [close]

    The part of the socket that [close], [recv] and [recv_into] touch: the
    two ends of the pipe and the two flags.  [os.close] and [os.read] are
    the operating system's; [os_close fd] is [None] when the descriptor was
    closed and the [errno] of the [OSError] otherwise. *)

Module SocketPipe.
Section SocketPipe.
Variable os_close : Z -> option Z.
Variable EBADF : Z.
Variable os_read : Z -> Z -> string.

Record t := mk {
  pipe_r : option Z;
  pipe_w : option Z;
  _closed : bool;
  _closing : bool;
  (** the descriptors given to [os.close], oldest first *)
  os_closed : list Z;
  (** how often [_handle_close] was called *)
  handle_close_calls : nat;
}.

(** [__init__], with the descriptors [os.pipe()] returned *)
Definition init (r w : Z) : t :=
  {| pipe_r := Some r; pipe_w := Some w; _closed := false; _closing := false;
     os_closed := []; handle_close_calls := 0 |}.

(** How a call ends: it returns, or an [OSError] leaves it. *)
Inductive outcome :=
  | Returned
  | OSError (errno : Z).

(** [try: os.close(fd) except OSError as exc: if exc.errno != errno.EBADF:
    raise]; the errno that is raised again, if any. *)
Definition close_quietly (fd : Z) : option Z :=
  match os_close fd with
  | None => None
  | Some errno => if errno =? EBADF then None else Some errno
  end.

Definition close (self : t) : outcome * t :=
  if _closing self then (Returned, self)
  else if _closed self then (Returned, self)
  else
    let self1 := mk (pipe_r self) (pipe_w self) (_closed self) true
                    (os_closed self) (handle_close_calls self) in
    let after_w :=
      match pipe_w self1 with
      | Some w =>
          (close_quietly w,
           mk (pipe_r self1) None (_closed self1) (_closing self1)
              (os_closed self1 ++ [w]) (handle_close_calls self1))
      | None => (None, self1)
      end in
    match after_w with
    | (Some errno, self2) => (OSError errno, self2)
    | (None, self2) =>
        let after_r :=
          match pipe_r self2 with
          | Some r =>
              (close_quietly r,
               mk None (pipe_w self2) (_closed self2) (_closing self2)
                  (os_closed self2 ++ [r]) (handle_close_calls self2))
          | None => (None, self2)
          end in
        match after_r with
        | (Some errno, self3) => (OSError errno, self3)
        | (None, self3) =>
            (Returned,
             mk (pipe_r self3) (pipe_w self3) true false (os_closed self3)
                (S (handle_close_calls self3)))
        end
    end.

(** [recv(count)] *)
Definition recv (count : Z) (self : t) : string :=
  match pipe_r self with
  | None => ""
  | Some r => os_read r count
  end.

(** [close] called [n] times in a row; the outcomes, oldest first. *)
Fixpoint close_times (n : nat) (self : t) : list outcome * t :=
  match n with
  | O => ([], self)
  | S n' =>
      let '(o, self') := close self in
      let '(os, self'') := close_times n' self' in
      (o :: os, self'')
  end.

End SocketPipe.
End SocketPipe.

(** ** class ExceptionsManager *)

Module ExceptionsManager.
Local Open Scope string_scope.

(** The two commands the manager sends through [proc.pydevd_notify]. *)
Inductive cmd :=
  | CMD_ADD_EXCEPTION_BREAK
  | CMD_REMOVE_EXCEPTION_BREAK.

Record t := mk {
  (** exception name to break mode *)
  exceptions : gmap string string;
  (** the calls of [proc.pydevd_notify], oldest first *)
  notified : list (cmd * string);
}.

(** [__init__] *)
Definition init : t := {| exceptions := ∅; notified := [] |}.

Definition pydevd_notify (c : cmd) (args : string) : M t unit :=
  modify (fun self => mk (exceptions self) (notified self ++ [(c, args)])).

Definition remove_all_exception_breaks : M t unit :=
  (self <- get ;;
   for_each (map_to_list (exceptions self)).*1
     (fun exception =>
        pydevd_notify CMD_REMOVE_EXCEPTION_BREAK ("python-" +:+ exception)) ;;;
   modify (fun self => mk ∅ (notified self)))%py.

(** [sub in s] for two strings *)
Fixpoint contains (sub s : string) : bool :=
  String.prefix sub s
  || match s with
     | "" => false
     | String _ rest => contains sub rest
     end.

Definition _find_exception (name : string) (self : t) : string :=
  if bool_decide (is_Some (exceptions self !! name)) then name
  else
    match List.find (fun ex_name => contains ex_name name)
                    (map_to_list (exceptions self)).*1 with
    | Some ex_name => ex_name
    | None => "BaseException"
    end.

Definition get_break_mode (name : string) (self : t) : string :=
  match exceptions self !! _find_exception name self with
  | Some break_mode => break_mode
  | None => "unhandled"
  end.

(** The mode [add_exception_break] stores. *)
Definition break_mode_of (break_raised break_uncaught : bool) : string :=
  if break_raised then "always"
  else if break_uncaught then "unhandled"
  else "never".

Definition add_exception_break (exception : string)
    (break_raised break_uncaught : bool) : M t unit :=
  (let notify_always := if break_raised then 3 else 0 in
   let notify_on_terminate := if break_uncaught then 1 else 0 in
   let ignore_libraries := 0 in
   let break_mode := break_mode_of break_raised break_uncaught in
   let msg := "python-" +:+ exception +:+ Str.TAB +:+ Str.of_Z notify_always
              +:+ Str.TAB +:+ Str.of_Z notify_on_terminate
              +:+ Str.TAB +:+ Str.of_Z ignore_libraries in
   pydevd_notify CMD_ADD_EXCEPTION_BREAK msg ;;;
   modify (fun self =>
             mk (<[exception := break_mode]> (exceptions self))
                (notified self)))%py.

(** An entry of [exceptionOptions]: the path of name lists and the break
    mode. *)
Record path_segment := mk_path_segment { names : list string }.
Record exception_option := mk_exception_option {
  path : list path_segment;
  breakMode : string;
}.

Definition _is_python_exception_category (option : exception_option) : bool :=
  match path option with
  | [] => false
  | first :: _ =>
      match names first with
      | [category] => String.eqb category "Python Exceptions"
      | _ => false
      end
  end.

(** The body of the loop of [apply_exception_options].  It runs only for
    options that passed [_is_python_exception_category], whose first name
    list has one element. *)
Definition apply_one_option (option : exception_option) : M t unit :=
  let exception_paths := path option in
  match exception_paths with
  | [] => ret tt
  | first :: rest =>
      let mode := breakMode option in
      let break_raised := String.eqb mode "always" in
      let break_uncaught :=
        String.eqb mode "unhandled" || String.eqb mode "userUnhandled" in
      let is_category :=
        match rest with
        | [] => bool_decide (head (names first) = Some "Python Exceptions")
        | _ => false
        end in
      if is_category then
        add_exception_break "BaseException" break_raised break_uncaught
      else
        let exception_names := concat (map names rest) in
        for_each exception_names
          (fun exception_name =>
             add_exception_break exception_name break_raised break_uncaught)
  end.

Definition apply_exception_options (exception_options : list exception_option)
  : M t unit :=
  (remove_all_exception_breaks ;;;
   for_each (List.filter _is_python_exception_category exception_options)
     apply_one_option)%py.

(** [m] always returns, only appends to the commands sent, and what it
    registers and appends does not depend on the commands sent before. *)
Definition only_appends (m : M t unit) : Prop :=
  forall ex n,
    m (mk ex n)
    = (Ok tt, mk (exceptions (m (mk ex [])).2) (n ++ notified (m (mk ex [])).2)).

End ExceptionsManager.

(** ** Debug options: [build_debug_options], [_parse_debug_options] *)

Module DebugOptions.
Local Open Scope string_scope.

(** A parsed option: the result of [bool_parser] or of [unquote]. *)
Inductive option_value :=
  | Flag (b : bool)
  | Text (s : string).

(** [d[key]] / [key in d] for a dict literal, given as its items.  The
    literals below have distinct keys. *)
Fixpoint literal_get {V} (d : list (string * V)) (key : string) : option V :=
  match d with
  | [] => None
  | (k, v) :: d' => if String.eqb key k then Some v else literal_get d' key
  end.

Definition debug_option_mapping : list (string * string) :=
  [ ("RedirectOutput", "REDIRECT_OUTPUT=True");
    ("WaitOnNormalExit", "WAIT_ON_NORMAL_EXIT=True");
    ("WaitOnAbnormalExit", "WAIT_ON_ABNORMAL_EXIT=True");
    ("Django", "DJANGO_DEBUG=True");
    ("Flask", "FLASK_DEBUG=True");
    ("Jinja", "FLASK_DEBUG=True");
    ("FixFilePathCase", "FIX_FILE_PATH_CASE=True");
    ("DebugStdLib", "DEBUG_STD_LIB=True");
    ("WindowsClient", "WINDOWS_CLIENT=True") ].

Definition build_debug_options (debug_options : list string) : string :=
  Str.join ";" (omap (literal_get debug_option_mapping) debug_options).

Definition bool_parser (str : string) : option_value :=
  Flag (bool_decide (str ∈ ["True"; "true"; "1"])).

Section Parse.
(** [urllib.unquote] and [platform.system() == 'Windows'] *)
Variable unquote : string -> string.
Variable is_windows : bool.

Definition DEBUG_OPTIONS_PARSER : list (string * (string -> option_value)) :=
  [ ("WAIT_ON_ABNORMAL_EXIT", bool_parser);
    ("WAIT_ON_NORMAL_EXIT", bool_parser);
    ("REDIRECT_OUTPUT", bool_parser);
    ("VERSION", fun s => Text (unquote s));
    ("INTERPRETER_OPTIONS", fun s => Text (unquote s));
    ("WEB_BROWSER_URL", fun s => Text (unquote s));
    ("DJANGO_DEBUG", bool_parser);
    ("FLASK_DEBUG", bool_parser);
    ("FIX_FILE_PATH_CASE", bool_parser);
    ("WINDOWS_CLIENT", bool_parser) ].

(** The body of the loop.  Unpacking [opt.split('=')] into [key, value]
    raises ValueError unless there are exactly two pieces; the loop then
    continues.  The lookup of the parser is outside the [try]. *)
Definition parse_one (opt : string) : M (gmap string option_value) unit :=
  match Str.split "=" opt with
  | [key; value] =>
      match literal_get DEBUG_OPTIONS_PARSER key with
      | Some parser => modify (fun options => <[key := parser value]> options)
      | None => raise KeyError
      end
  | _ => ret tt
  end.

Definition _parse_debug_options (debug_options : string)
  : res (gmap string option_value) :=
  let body :=
    (for_each (Str.split ";" debug_options) parse_one ;;;
     modify (fun options =>
               if bool_decide (is_Some (options !! "WINDOWS_CLIENT"))
               then options
               else <["WINDOWS_CLIENT" := Flag is_windows]> options))%py in
  match body ∅ with
  | (Ok _, options) => Ok options
  | (Raise e, _) => Raise e
  end.

End Parse.

(** The values of the mapping that [_parse_debug_options] knows. *)
Definition known_values : list string :=
  [ "REDIRECT_OUTPUT=True"; "WAIT_ON_NORMAL_EXIT=True";
    "WAIT_ON_ABNORMAL_EXIT=True"; "DJANGO_DEBUG=True"; "FLASK_DEBUG=True";
    "FIX_FILE_PATH_CASE=True"; "WINDOWS_CLIENT=True" ].

(** The option name before the equals sign, and strings without a given
    character. *)
Definition key_of (opt : string) : string := hd "" (Str.split "=" opt).

Fixpoint no_char (c : ascii) (s : string) : bool :=
  match s with
  | "" => true
  | String c' r => negb (Ascii.eqb c' c) && no_char c r
  end.

End DebugOptions.

(** ** More handlers of [VSCodeMessageProcessor] *)

Declare Scope co_scope.
Delimit Scope co_scope with co.
Notation "x <- c1 ;; c2" := (VSCodeMessageProcessor.cbind c1 (fun x => c2))
  (at level 100, c1 at next level, right associativity) : co_scope.
Notation "c1 ;;; c2" := (VSCodeMessageProcessor.cbind c1 (fun _ => c2))
  (at level 100, right associativity) : co_scope.

Module ProcessorHandlers.
Import VSCodeMessageProcessor.
Local Open Scope string_scope.

Definition on_continue (req : request) (threadId : Z) : M t unit :=
  (tid <- with_thread_map (IDMap.to_pydevd threadId) ;;
   pydevd_notify CMD_THREAD_RUN tid ;;;
   send_response req true None [])%py.

Definition on_next (req : request) (threadId : Z) : M t unit :=
  (tid <- with_thread_map (IDMap.to_pydevd threadId) ;;
   pydevd_notify CMD_STEP_OVER tid ;;;
   send_response req true None [])%py.

Definition on_stepIn (req : request) (threadId : Z) : M t unit :=
  (tid <- with_thread_map (IDMap.to_pydevd threadId) ;;
   pydevd_notify CMD_STEP_INTO tid ;;;
   send_response req true None [])%py.

Definition on_stepOut (req : request) (threadId : Z) : M t unit :=
  (tid <- with_thread_map (IDMap.to_pydevd threadId) ;;
   pydevd_notify CMD_STEP_RETURN tid ;;;
   send_response req true None [])%py.

(** The four stepping handlers with the command each one sends. *)
Definition stepping_handlers
  : list ((request -> Z -> M t unit) * pydevd_cmd) :=
  [ (on_continue, CMD_THREAD_RUN); (on_next, CMD_STEP_OVER);
    (on_stepIn, CMD_STEP_INTO); (on_stepOut, CMD_STEP_RETURN) ].

(** [try: ... except KeyError: pass / else: ...]: the [else] part is not
    covered by the [except]. *)
Definition on_pydevd_thread_kill (seq : Z) (args : string) : M t unit :=
  (let pyd_tid := Str.strip args in
   found <- try_except
              (vsc_tid <- with_thread_map (IDMap.to_vscode pyd_tid false) ;;
               ret (Some vsc_tid))
              is_KeyError
              (ret None) ;;
   match found with
   | None => ret tt
   | Some vsc_tid =>
       with_thread_map (IDMap.remove (Some pyd_tid) (Some vsc_tid)) ;;;
       send_event "thread"
         [("reason", VStr "exited"); ("threadId", VInt vsc_tid)]
   end)%py.


Definition scope_value (vsc_var : Z) : value :=
  VDict [("name", VStr "Locals"); ("expensive", VBool false);
         ("variablesReference", VInt vsc_var)].

Definition on_scopes (req : request) (frameId : Z) : M t unit :=
  (let vsc_fid := frameId in
   pyd <- with_frame_map (IDMap.to_pydevd vsc_fid) ;;
   let '(pyd_tid, pyd_fid) := (pyd : frame_key) in
   let pyd_var : var_key := (pyd_tid, pyd_fid, [Some "FRAME"]) in
   vsc_var <- with_var_map (IDMap.to_vscode pyd_var true) ;;
   let scope := scope_value vsc_var in
   send_response req true None [("scopes", VList [scope])])%py.

Section Handlers.
(** [urllib.unquote] and [parse_xml_response], as for the handlers above. *)
Variable unquote : string -> string.
Variable parse_xml_response : string -> res xml.

Record setExpression_args := mk_setExpression_args {
  se_frameId : Z;
  se_format : format;
  (** [args.get('expression')], [args.get('value')] *)
  se_expression : option string;
  se_value : option string;
}.

Definition on_setExpression (req : request) (args : setExpression_args)
  : C unit :=
  (let vsc_fid := se_frameId args in
   pyd <- lift (with_frame_map (IDMap.to_pydevd vsc_fid)) ;;
   let '(pyd_tid, pyd_fid) := (pyd : frame_key) in
   let fmt := se_format args in
   let lhs_expr := se_expression args in
   let rhs_expr := se_value args in
   let expr := Str.of_option lhs_expr +:+ " = (" +:+ Str.of_option rhs_expr
               +:+ ")" in
   let expr := Str.replace Str.TAB " " expr in
   let msg := Str.join Str.TAB
                [pyd_tid; Str.of_Z pyd_fid; "LOCAL"; expr; "1"] in
   request_using_format fmt CMD_EXEC_EXPRESSION msg ;;;
   lift (send_response req true None [("value", VNone)]))%co.

Record setVariable_args := mk_setVariable_args {
  sv_variablesReference : Z;
  sv_name : string;
  sv_value : string;
  sv_format : format;
}.

Definition on_setVariable (req : request) (args : setVariable_args)
  : C unit :=
  (let vsc_var := sv_variablesReference args in
   pyd_var <- lift (with_var_map (IDMap.to_pydevd vsc_var)) ;;
   let var_name := sv_name args in
   let var_value := sv_value args in
   let fmt := sv_format args in
   lhs_expr <- lift (of_res (_get_variable_evaluate_name (pyd_var : var_key)
                               (Some var_name))) ;;
   let lhs_expr :=
     match lhs_expr with
     | None | Some "" => var_name
     | Some lhs_expr => lhs_expr
     end in
   let expr := lhs_expr +:+ " = " +:+ var_value in
   let expr := Str.replace Str.TAB " " expr in
   let pyd_tid := pyd_var.1.1 in
   let pyd_fid := Str.of_Z pyd_var.1.2 in
   let pyd_var : var_key :=
     (pyd_var.1, (pyd_var.2 ++ [Some var_name])%list) in
   vsc_var <- lift (with_var_map (IDMap.to_vscode pyd_var true)) ;;
   let cmd_args := [pyd_tid; pyd_fid; "LOCAL"; expr; "1"] in
   request_using_format fmt CMD_EXEC_EXPRESSION (Str.join Str.TAB cmd_args) ;;;
   let cmd_args := [pyd_tid; pyd_fid; "LOCAL"; lhs_expr; "1"] in
   resp <- request_using_format fmt CMD_EVALUATE_EXPRESSION
             (Str.join Str.TAB cmd_args) ;;
   let resp_args := resp.2 in
   match parse_xml_response resp_args with
   | Raise SAXParseException => lift (send_error_response req None)
   | Raise e => lift (raise e)
   | Ok xml =>
       match var xml with
       | NoVar => lift (send_response req false None [])
       | ManyVars _ => lift (raise TypeError)
       | OneVar xvar =>
           lift (send_response req true None
                   ([("type", str_or_None (unquote <$> xvar_type xvar));
                     ("value", str_or_None (unquote <$> xvar_value xvar))]
                    ++ if truthy (xvar_isContainer xvar)
                       then [("variablesReference", VInt vsc_var)]
                       else [])%list)
       end
   end)%co.

End Handlers.
End ProcessorHandlers.

(** ** The processor with its exceptions manager and start reason

    [proc] holds the fields of [VSCodeMessageProcessor] modelled above;
    [exceptions_mgr] and [start_reason] are two more fields of the same
    object.  The manager reports to pydevd through the processor; its
    commands are kept in its own log ([ExceptionsManager.notified]), so the
    order between them and the messages in [sent] is not recorded. *)

Module Session.
Import VSCodeMessageProcessor.
Local Open Scope string_scope.

Record t := mk {
  proc : VSCodeMessageProcessor.t;
  exceptions_mgr : ExceptionsManager.t;
  start_reason : option string;
}.

(** [__init__] *)
Definition init : t :=
  {| proc := VSCodeMessageProcessor.init;
     exceptions_mgr := ExceptionsManager.init;
     start_reason := None |}.

Definition set_proc (x : VSCodeMessageProcessor.t) (s : t) : t :=
  mk x (exceptions_mgr s) (start_reason s).
Definition set_exceptions_mgr (x : ExceptionsManager.t) (s : t) : t :=
  mk (proc s) x (start_reason s).

Definition with_proc {A} : M VSCodeMessageProcessor.t A -> M t A :=
  zoom proc set_proc.
Definition with_exceptions_mgr {A} : M ExceptionsManager.t A -> M t A :=
  zoom exceptions_mgr set_exceptions_mgr.

Definition set_is_process_created (x : bool) (s : VSCodeMessageProcessor.t)
  : VSCodeMessageProcessor.t :=
  VSCodeMessageProcessor.mk (bkpoints s) x (stack_traces s)
    (active_exceptions s) (thread_map s) (frame_map s) (var_map s) (bp_map s)
    (debug_options s) (tracked_paths s) (provider_locked s)
    (provider_format s) (sent s).

Record setExceptionBreakpoints_args := mk_setExceptionBreakpoints_args {
  filters : list string;
  (** [args.get('exceptionOptions', [])] *)
  exceptionOptions : list ExceptionsManager.exception_option;
}.

Definition on_setExceptionBreakpoints (req : request)
    (args : setExceptionBreakpoints_args) : M t unit :=
  (let filters := filters args in
   let exception_options := exceptionOptions args in
   match exception_options with
   | _ :: _ =>
       with_exceptions_mgr
         (ExceptionsManager.apply_exception_options exception_options)
   | [] =>
       with_exceptions_mgr ExceptionsManager.remove_all_exception_breaks ;;;
       let break_raised := bool_decide ("raised" ∈ filters) in
       let break_uncaught := bool_decide ("uncaught" ∈ filters) in
       if break_raised || break_uncaught then
         with_exceptions_mgr
           (ExceptionsManager.add_exception_break "BaseException"
              break_raised break_uncaught)
       else ret tt
   end ;;;
   with_proc (send_response req true None []))%py.

Definition value_of_option (o : option string) : value :=
  match o with
  | Some s => VStr s
  | None => VNone
  end.


(** *** Thread events and the threads request *)

(** A [thread] element of a pydevd message.  [xthread_name] is [None] when
    reading the [name] attribute raises KeyError. *)
Record xthread := mk_xthread {
  xthread_id : string;
  xthread_name : option string;
}.

(** What [xml.thread] evaluates to on a parsed message: AttributeError
    without a [thread] child, the element when there is one, a list when
    there are several. *)
Inductive xml_thread :=
  | NoThread
  | OneThread (x : xthread)
  | ManyThreads (l : list xthread).

Definition is_debugger_internal_thread (thread_name : option string) : bool :=
  match thread_name with
  | None | Some "" => false
  | Some thread_name =>
      if Str.startswith "pydevd." thread_name then true
      else if Str.startswith "ptvsd." thread_name then true
      else false
  end.

Section Threads.
(** [urllib.unquote], [parse_xml_response] read at its [thread] child
    (the parser raises SAXParseException on text that is not well-formed
    XML and AttributeError when the root is not [xml]), [sys.argv[0]] and
    [os.getpid()]. *)
Variable unquote : string -> string.
Variable parse_xml_response : string -> res xml_thread.
Variable argv0 : string.
Variable pid : Z.

Definition send_process_event (start_method : option string)
  : M VSCodeMessageProcessor.t unit :=
  send_event "process"
    [("name", VStr argv0); ("systemProcessId", VInt pid);
     ("isLocalProcess", VBool true);
     ("startMethod", value_of_option start_method)].

Definition on_pydevd_thread_create (seq : Z) (args : string) : M t unit :=
  (self <- get ;;
   (if negb (is_process_created (proc self)) then
      with_proc (modify (set_is_process_created true)) ;;;
      with_proc (send_process_event (start_reason self))
    else ret tt) ;;;
   match parse_xml_response args with
   | Raise e => raise e
   | Ok NoThread => raise AttributeError
   | Ok (ManyThreads _) => raise TypeError
   | Ok (OneThread xthread) =>
       let name := unquote <$> xthread_name xthread in
       if negb (is_debugger_internal_thread name) then
         tid <- with_proc
                  (with_thread_map (IDMap.to_vscode (xthread_id xthread) true)) ;;
         with_proc
           (send_event "thread"
              [("reason", VStr "started"); ("threadId", VInt tid)])
       else ret tt
   end)%py.

(** The thread-create events of a session, one after the other; an event
    whose handler raises leaves the state it had reached. *)
Definition thread_create_events (events : list string) (s : t) : t :=
  foldl (fun s args => (on_pydevd_thread_create 0 args s).2) s events.

Definition is_process_event (m : message) : bool :=
  match m with
  | Event "process" _ => true
  | _ => false
  end.

(** [for xthread in xthreads]: a single element iterates as itself. *)
Definition xthreads_of (x : xml_thread) : list xthread :=
  match x with
  | NoThread => []
  | OneThread xthread => [xthread]
  | ManyThreads l => l
  end.

Definition thread_value (vsc_tid : Z) (name : option string) : value :=
  VDict [("id", VInt vsc_tid); ("name", value_of_option name)].

(** The body of the loop of [on_threads]; [threads] is the list built so
    far. *)
Definition list_one_thread (xthread : xthread) (threads : list value)
  : M VSCodeMessageProcessor.t (list value) :=
  (let name := unquote <$> xthread_name xthread in
   if negb (is_debugger_internal_thread name) then
     let pyd_tid := xthread_id xthread in
     vsc_tid <- try_except
                  (with_thread_map (IDMap.to_vscode pyd_tid false))
                  is_KeyError
                  (vsc_tid <- with_thread_map (IDMap.to_vscode pyd_tid true) ;;
                   send_event "thread"
                     [("reason", VStr "started"); ("threadId", VInt vsc_tid)] ;;;
                   ret vsc_tid) ;;
     ret (threads ++ [thread_value vsc_tid name])%list
   else ret threads)%py.

Fixpoint list_threads (xthreads : list xthread) (threads : list value)
  : M VSCodeMessageProcessor.t (list value) :=
  match xthreads with
  | [] => ret threads
  | xthread :: rest =>
      (threads <- list_one_thread xthread threads ;;
       list_threads rest threads)%py
  end.

Definition on_threads (req : request) : C unit :=
  (resp <- pydevd_request CMD_LIST_THREADS "" ;;
   let resp_args := resp.2 in
   match parse_xml_response resp_args with
   | Raise SAXParseException => lift (send_error_response req None)
   | Raise e => lift (raise e)
   | Ok xml =>
       let xthreads := xthreads_of xml in
       threads <- lift (list_threads xthreads []) ;;
       lift (send_response req true None [("threads", VList threads)])
   end)%co.

End Threads.
End Session.

(** ** More concrete inputs *)

Module MoreExamples.
Local Open Scope string_scope.

(** An operating system on which [os.close] always succeeds, one on which
    closing descriptor 4 fails with [EIO], and the number of [EBADF]. *)
Definition os_close_ok (fd : Z) : option Z := None.
Definition os_close_eio (fd : Z) : option Z :=
  if (fd =? 4)%Z then Some 5 else None.
Definition EBADF : Z := 9.
Definition os_read_data (fd count : Z) : string := "data".


(** Messages of pydevd about threads and a parser that knows just them. *)
Definition thread_create_message : string :=
  "<xml><thread name='MainThread' id='pid1_tid2'/></xml>".
Definition list_threads_reply : string :=
  "<xml><thread name='MainThread' id='pid1_tid1'/>" +:+
  "<thread name='pydevd.Writer' id='pid1_tid5'/>" +:+
  "<thread name='Worker' id='pid1_tid6'/></xml>".

Definition example_parse_threads (message : string)
  : res Session.xml_thread :=
  if String.eqb message thread_create_message then
    Ok (Session.OneThread
          (Session.mk_xthread "pid1_tid2" (Some "MainThread")))
  else if String.eqb message list_threads_reply then
    Ok (Session.ManyThreads
          [Session.mk_xthread "pid1_tid1" (Some "MainThread");
           Session.mk_xthread "pid1_tid5" (Some "pydevd.Writer");
           Session.mk_xthread "pid1_tid6" (Some "Worker")])
  else Raise SAXParseException.

Definition plain_format : VSCodeMessageProcessor.format :=
  VSCodeMessageProcessor.mk_format false false.
Definition scopes_request : VSCodeMessageProcessor.request :=
  VSCodeMessageProcessor.mk_request 21 "scopes".
Definition setExpression_request : VSCodeMessageProcessor.request :=
  VSCodeMessageProcessor.mk_request 22 "setExpression".
Definition setVariable_request : VSCodeMessageProcessor.request :=
  VSCodeMessageProcessor.mk_request 23 "setVariable".

Definition pause_request : VSCodeMessageProcessor.request :=
  VSCodeMessageProcessor.mk_request 27 "pause".

(** [Examples.suspended_state] once the process is marked as created. *)
Definition running_state : VSCodeMessageProcessor.t :=
  Session.set_is_process_created true Examples.suspended_state.

(** An assignment with a tab in it. *)
Definition tabbed_expression : string := "x" +:+ Str.TAB +:+ "y".

End MoreExamples.

(** * Properties *)

(** ** IDMap: the two dictionaries and the counter *)

Section IDMapFacts.
Context {K : Type} `{Countable K}.
Import IDMap.
Implicit Types (self : IDMap.t K) (o : op K) (ops : list (op K)).

Lemma run_cons o ops self : run (o :: ops) self = run ops (exec o self).
Proof. reflexivity. Qed.

Lemma add_state (a : id_arg K) self :
  (add a self).2 =
    IDMap.mk (<[_next_id self := arg_key a self]> (_vscode_to_pydevd self))
             (<[arg_key a self := _next_id self]> (_pydevd_to_vscode self))
             (_next_id self + 1).
Proof. destruct a; reflexivity. Qed.

Lemma add_result (a : id_arg K) self : (add a self).1 = Ok (_next_id self).
Proof. reflexivity. Qed.

(** [to_vscode] on a registered key reads it and changes nothing. *)
Lemma to_vscode_hit self k g v :
  _pydevd_to_vscode self !! k = Some v -> to_vscode k g self = (Ok v, self).
Proof.
  intros Hk. unfold to_vscode, try_except, bind, get, lookup_or_KeyError.
  by rewrite Hk.
Qed.

Lemma to_vscode_miss_autogen self k :
  _pydevd_to_vscode self !! k = None ->
  to_vscode k true self = add (Key k) self.
Proof.
  intros Hk. unfold to_vscode, try_except, bind, get, lookup_or_KeyError.
  by rewrite Hk.
Qed.

Lemma to_vscode_miss self k :
  _pydevd_to_vscode self !! k = None ->
  to_vscode k false self = (Raise KeyError, self).
Proof.
  intros Hk. unfold to_vscode, try_except, bind, get, lookup_or_KeyError.
  by rewrite Hk.
Qed.

Lemma remove_pair self k v :
  is_Some (_vscode_to_pydevd self !! v) ->
  is_Some (_pydevd_to_vscode self !! k) ->
  remove (Some k) (Some v) self = (Ok tt, unregister k v self).
Proof.
  intros [k' Hv] [v' Hk].
  unfold remove, bind, ret, del_vscode, del_pydevd. simpl.
  by rewrite Hv; simpl; rewrite Hk.
Qed.

Lemma next_id_exec o self :
  _next_id (exec o self) =
    _next_id self + (if calls_add o self then 1 else 0).
Proof.
  destruct o as [a | p v | k g]; simpl.
  - destruct a; simpl; lia.
  - unfold remove, bind, ret, raise, get, lookup_or_KeyError, del_vscode,
      del_pydevd.
    destruct p as [p|], v as [v|]; simpl;
      repeat (match goal with
              | |- context [match ?m !! ?i with _ => _ end] =>
                  destruct (m !! i) eqn:?; simpl
              end); lia.
  - destruct (_pydevd_to_vscode self !! k) as [v|] eqn:Hk.
    + rewrite (to_vscode_hit _ _ _ _ Hk). rewrite bool_decide_eq_false_2 by done.
      rewrite andb_false_r. simpl. lia.
    + rewrite bool_decide_eq_true_2 by done. destruct g; simpl.
      * rewrite (to_vscode_miss_autogen _ _ Hk). simpl. lia.
      * rewrite (to_vscode_miss _ _ Hk). simpl. lia.
Qed.

Lemma allocated_seqZ ops : forall self,
  allocated ops self =
    seqZ (_next_id self) (Z.of_nat (length (allocated ops self))).
Proof.
  induction ops as [|o ops IH]; intros self; [done|].
  simpl. pose proof (next_id_exec o self) as Hn.
  destruct (calls_add o self) eqn:Hc.
  - assert (returned o self = Some (_next_id self)) as ->.
    { destruct o as [a | p v | k g]; simpl in *; [done..|].
      apply andb_true_iff in Hc as [-> Hk%bool_decide_eq_true].
      by rewrite (to_vscode_miss_autogen _ _ Hk). }
    simpl. rewrite (IH (exec o self)) at 1. rewrite Hn.
    rewrite Nat2Z.inj_succ.
    rewrite (seqZ_cons (_next_id self)) by lia.
    do 2 f_equal; lia.
  - simpl. rewrite (IH (exec o self)) at 1. rewrite Hn. do 2 f_equal; lia.
Qed.

Lemma seqZ_StronglySorted m n : StronglySorted Z.lt (seqZ m n).
Proof.
  destruct (decide (0 <= n)) as [Hn|Hn]; [|rewrite seqZ_nil by lia; constructor].
  revert m. pattern n. apply natlike_ind; [|clear n Hn|done].
  - intros m. rewrite seqZ_nil by lia. constructor.
  - intros n Hn IH m. rewrite seqZ_cons by lia. constructor.
    + replace (Z.pred (Z.succ n)) with n by lia. apply IH.
    + apply Forall_forall. intros x Hx%elem_of_seqZ. lia.
Qed.

(** A call that reaches [add] returns the ID [add] took from the counter. *)
Lemma returned_of_add o self :
  calls_add o self = true -> returned o self = Some (_next_id self).
Proof.
  intros Hc. destruct o as [a | p v | k g]; simpl in *; [done..|].
  apply andb_true_iff in Hc as [-> Hk%bool_decide_eq_true].
  by rewrite (to_vscode_miss_autogen _ _ Hk).
Qed.

(** Every call that reaches [add] hands out an ID: there are as many IDs as
    such calls. *)
Lemma allocated_length ops : forall self,
  length (allocated ops self) = add_calls ops self.
Proof.
  induction ops as [|o ops IH]; intros self; [done|].
  cbn [allocated add_calls]. rewrite length_app, IH.
  destruct (calls_add o self) eqn:Hc; [|done].
  by rewrite (returned_of_add _ _ Hc).
Qed.

Lemma run_next_id ops : forall self,
  _next_id (run ops self)
  = _next_id self + Z.of_nat (length (allocated ops self)).
Proof.
  induction ops as [|o ops IH]; intros self; [simpl; lia|].
  rewrite run_cons, IH, next_id_exec. simpl.
  destruct (calls_add o self) eqn:Hc; [|simpl; lia].
  rewrite (returned_of_add _ _ Hc).
  rewrite length_app. simpl. lia.
Qed.

(** C6.  The external IDs that the [add] calls of a session hand out are
    1, 2, 3, ... in the order of the calls, whatever [remove] calls lie in
    between: every call that reaches [add] returns an ID, the k-th of them
    the ID k, so the IDs start at 1, increase strictly, and none is handed
    out twice; an [add] after a session in which [add] was reached n
    times returns n + 1; and a call of the session that reaches [add]
    returns one more than the number of such calls before it. *)
Theorem add_ids_fresh_and_increasing ops :
  allocated ops init = seqZ 1 (Z.of_nat (add_calls ops (init (K:=K))))
  /\ allocated ops init = seqZ 1 (Z.of_nat (length (allocated ops init)))
  /\ StronglySorted Z.lt (allocated ops (init (K:=K)))
  /\ NoDup (allocated ops (init (K:=K)))
  /\ (forall a : id_arg K,
        (add a (run ops init)).1
        = Ok (1 + Z.of_nat (add_calls ops (init (K:=K)))))
  /\ forall before o after,
       ops = (before ++ o :: after)%list ->
       calls_add o (run before init) = true ->
       returned o (run before init)
       = Some (1 + Z.of_nat (add_calls before (init (K:=K)))).
Proof.
  pose proof (allocated_seqZ ops init) as Hs. simpl in Hs.
  pose proof (allocated_length ops init) as Hl.
  split; [by rewrite <- Hl|]. split; [exact Hs|]. rewrite Hs.
  split; [apply seqZ_StronglySorted|]. split; [apply NoDup_seqZ|].
  split.
  - intros a. rewrite add_result, run_next_id, Hl. reflexivity.
  - intros before o after _ Hc.
    rewrite (returned_of_add _ _ Hc), run_next_id, allocated_length.
    reflexivity.
Qed.

Lemma init_mutual_inverse : mutual_inverse (init (K:=K)).
Proof. intros v k. simpl. by rewrite !lookup_empty. Qed.

Lemma init_ids_below_next : ids_below_next (init (K:=K)).
Proof. intros v k. simpl. by rewrite lookup_empty. Qed.

Lemma next_id_unused self :
  ids_below_next self -> _vscode_to_pydevd self !! _next_id self = None.
Proof.
  intros Hlt. destruct (_vscode_to_pydevd self !! _next_id self) eqn:E; [|done].
  apply Hlt in E. lia.
Qed.

Lemma add_fresh_mutual_inverse (a : id_arg K) self :
  mutual_inverse self -> ids_below_next self ->
  _pydevd_to_vscode self !! arg_key a self = None ->
  mutual_inverse (add a self).2.
Proof.
  intros Hinv Hlt Hfresh. rewrite add_state. intros v k. simpl.
  pose proof (next_id_unused _ Hlt) as Hn.
  destruct (decide (v = _next_id self)) as [->|Hv],
           (decide (k = arg_key a self)) as [->|Hk];
    rewrite ?lookup_insert_eq, ?lookup_insert_ne by done.
  - done.
  - split; [congruence|]. intros E%Hinv. congruence.
  - split; [|congruence]. intros E%Hinv. congruence.
  - apply Hinv.
Qed.

Lemma add_ids_below_next (a : id_arg K) self :
  ids_below_next self -> ids_below_next (add a self).2.
Proof.
  intros Hlt. rewrite add_state. intros v k. simpl.
  destruct (decide (v = _next_id self)) as [->|Hv].
  - intros _. lia.
  - rewrite lookup_insert_ne by done. intros E%Hlt. lia.
Qed.

Lemma unregister_mutual_inverse self k v :
  mutual_inverse self -> _vscode_to_pydevd self !! v = Some k ->
  mutual_inverse (unregister k v self).
Proof.
  intros Hinv Hv v' k'. simpl.
  destruct (decide (v' = v)) as [->|Hv'], (decide (k' = k)) as [->|Hk'];
    rewrite ?lookup_delete_eq, ?lookup_delete_ne by done.
  - done.
  - split; [done|]. intros E%Hinv. congruence.
  - split; [|done]. intros E. apply Hinv in Hv. apply Hinv in E. congruence.
  - apply Hinv.
Qed.

Lemma unregister_ids_below_next self k v :
  ids_below_next self -> ids_below_next (unregister k v self).
Proof.
  intros Hlt v' k'. simpl. intros E%lookup_delete_Some. apply (Hlt _ _ (proj2 E)).
Qed.

Ltac unfold_remove :=
  unfold remove, bind, ret, raise, get, lookup_or_KeyError, del_vscode,
    del_pydevd; simpl.

Lemma remove_by_id self v k :
  mutual_inverse self -> _vscode_to_pydevd self !! v = Some k ->
  remove None (Some v) self = (Ok tt, unregister k v self).
Proof.
  intros Hinv Hv. pose proof (proj1 (Hinv v k) Hv) as Hk.
  unfold_remove. rewrite Hv. simpl. rewrite Hv. simpl. by rewrite Hk.
Qed.

Lemma remove_by_key self v k :
  mutual_inverse self -> _pydevd_to_vscode self !! k = Some v ->
  remove (Some k) None self = (Ok tt, unregister k v self).
Proof.
  intros Hinv Hk. pose proof (proj2 (Hinv v k) Hk) as Hv.
  unfold_remove. rewrite Hk. simpl. rewrite Hv. simpl. by rewrite Hk.
Qed.

Lemma remove_registered_pair self v k :
  mutual_inverse self -> _vscode_to_pydevd self !! v = Some k ->
  remove (Some k) (Some v) self = (Ok tt, unregister k v self).
Proof.
  intros Hinv Hv. apply remove_pair; [by eexists|].
  exists v. by apply Hinv.
Qed.

Lemma remove_ids_below_next self p v :
  ids_below_next self -> ids_below_next (remove p v self).2.
Proof.
  intros Hlt v' k'. unfold_remove.
  destruct p as [p|], v as [v|]; simpl;
    repeat (match goal with
            | |- context [match ?m !! ?i with _ => _ end] =>
                destruct (m !! i) eqn:?; simpl
            end);
    rewrite ?lookup_delete_Some; intros E; apply (Hlt v' k'); tauto.
Qed.

Lemma exec_ids_below_next o self :
  ids_below_next self -> ids_below_next (exec o self).
Proof.
  intros Hlt. destruct o as [a | p v | k g]; simpl.
  - by apply add_ids_below_next.
  - by apply remove_ids_below_next.
  - destruct (_pydevd_to_vscode self !! k) as [v|] eqn:Hk.
    + by rewrite (to_vscode_hit _ _ _ _ Hk).
    + destruct g.
      * rewrite (to_vscode_miss_autogen _ _ Hk). by apply add_ids_below_next.
      * by rewrite (to_vscode_miss _ _ Hk).
Qed.

Lemma exec_mutual_inverse o self :
  mutual_inverse self -> ids_below_next self -> op_ok o self = true ->
  mutual_inverse (exec o self).
Proof.
  intros Hinv Hlt Hok. destruct o as [a | p v | k g]; simpl in *.
  - apply bool_decide_eq_true in Hok. by apply add_fresh_mutual_inverse.
  - destruct p as [p|], v as [v|].
    + apply bool_decide_eq_true in Hok.
      rewrite (remove_registered_pair _ _ _ Hinv Hok).
      by apply unregister_mutual_inverse.
    + destruct (_pydevd_to_vscode self !! p) as [v|] eqn:Hp.
      * rewrite (remove_by_key _ _ _ Hinv Hp).
        apply unregister_mutual_inverse; [done|]. by apply Hinv.
      * unfold_remove. by rewrite Hp.
    + destruct (_vscode_to_pydevd self !! v) as [p|] eqn:Hv.
      * rewrite (remove_by_id _ _ _ Hinv Hv).
        by apply unregister_mutual_inverse.
      * unfold_remove. by rewrite Hv.
    + done.
  - destruct (_pydevd_to_vscode self !! k) as [v|] eqn:Hk.
    + by rewrite (to_vscode_hit _ _ _ _ Hk).
    + destruct g.
      * rewrite (to_vscode_miss_autogen _ _ Hk).
        by apply add_fresh_mutual_inverse.
      * by rewrite (to_vscode_miss _ _ Hk).
Qed.

Lemma run_invariant ops : forall self,
  mutual_inverse self -> ids_below_next self -> ops_ok ops self = true ->
  mutual_inverse (run ops self) /\ ids_below_next (run ops self).
Proof.
  induction ops as [|o ops IH]; intros self Hinv Hlt Hok; [done|].
  simpl in Hok. apply andb_true_iff in Hok as [Ho Hops].
  rewrite run_cons. apply IH; [by apply exec_mutual_inverse| |done].
  by apply exec_ids_below_next.
Qed.

(** C1, as the code has it.  In a session of [add], [remove] and
    [to_vscode] calls in which every [add] is given a key that is not
    registered at that moment and every [remove] that names both a key and
    an ID names a registered pair, the two dictionaries stay inverse to each
    other; and [to_vscode] without [autogen] on a key that is not
    registered raises [KeyError] and leaves the map as it was. *)
Theorem idmap_mutual_inverse ops self k :
  ops_ok ops init = true ->
  _pydevd_to_vscode self !! k = None ->
  mutual_inverse (run ops init)
  /\ to_vscode k false self = (Raise KeyError, self).
Proof.
  intros Hok Hk. split.
  - apply run_invariant;
      [apply init_mutual_inverse | apply init_ids_below_next | done].
  - by apply to_vscode_miss.
Qed.

End IDMapFacts.

Section IDMapExamples.
Import IDMap.
Local Open Scope string_scope.

Lemma idmap_mutual_inverse_witness :
  mutual_inverse
    (run [OpAdd (Key "pid1_tid1"); OpToVscode "pid1_tid2" true;
          OpRemove (Some "pid1_tid1") None; OpRemove None (Some 7);
          OpRemove (Some "pid1_tid2") (Some 2);
          OpAdd (Factory (fun v => "bp" +:+ Str.of_Z v))] init)
  /\ to_vscode "pid1_tid9" false init = (Raise KeyError, init).
Proof.
  apply (idmap_mutual_inverse
           [OpAdd (Key "pid1_tid1"); OpToVscode "pid1_tid2" true;
            OpRemove (Some "pid1_tid1") None; OpRemove None (Some 7);
            OpRemove (Some "pid1_tid2") (Some 2);
            OpAdd (Factory (fun v => "bp" +:+ Str.of_Z v))]);
    vm_compute; reflexivity.
Defined.

(** C1 as stated fails: [add] of a key that is already registered leaves
    the old ID pointing at the key while the key points at the new ID; and
    [remove] with a key and an ID that do not belong together deletes half
    of two entries. *)
Lemma idmap_mutual_inverse_counterexample :
  ~ mutual_inverse (run [OpAdd (Key "t"); OpAdd (Key "t")] init)
  /\ ~ mutual_inverse
         (run [OpAdd (Key "a"); OpAdd (Key "b"); OpRemove (Some "a") (Some 2)]
              init).
Proof.
  split; intros Hm.
  - pose proof (proj1 (Hm 1 "t")) as Hc. vm_compute in Hc.
    specialize (Hc eq_refl). discriminate Hc.
  - pose proof (proj1 (Hm 1 "a")) as Hc. vm_compute in Hc.
    specialize (Hc eq_refl). discriminate Hc.
Qed.

End IDMapExamples.

(** ** Loops that remove the pairs of a scope from a map *)

Lemma bind_Ok {S A B} (m : M S A) (f : A -> M S B) s a s' :
  m s = (Ok a, s') -> bind m f s = f a s'.
Proof. intros Hm. unfold bind. by rewrite Hm. Qed.

Section Purge.
Context {K : Type} `{Countable K}.
Import IDMap.
Implicit Types (self : IDMap.t K) (l : list (K * Z)).
Variable P : K -> bool.

Lemma purge_cons_true self k v l :
  P k = true -> purge P ((k, v) :: l) self = purge P l (unregister k v self).
Proof. intros HP. unfold purge. simpl. by rewrite HP. Qed.

Lemma purge_cons_false self k v l :
  P k = false -> purge P ((k, v) :: l) self = purge P l self.
Proof. intros HP. unfold purge. simpl. by rewrite HP. Qed.

Lemma registered_in_tail self k v l :
  NoDup ((k, v) :: l).*1 -> registered_in P self ((k, v) :: l) ->
  registered_in P (unregister k v self) l.
Proof.
  intros Hnd Hreg k' v' Hin HP. simpl.
  apply NoDup_cons in Hnd as [Hk _].
  rewrite lookup_delete_ne.
  - apply Hreg; [by right|done].
  - intros ->. apply Hk. apply list_elem_of_fmap. by exists (k', v').
Qed.

Lemma purge_next_id l : forall self, _next_id (purge P l self) = _next_id self.
Proof.
  induction l as [|[k v] l IH]; intros self; [done|].
  destruct (P k) eqn:HP.
  - rewrite purge_cons_true by done. by rewrite IH.
  - rewrite purge_cons_false by done. by rewrite IH.
Qed.

Lemma purge_mutual_inverse l : forall self,
  mutual_inverse self -> NoDup l.*1 -> registered_in P self l ->
  mutual_inverse (purge P l self).
Proof.
  induction l as [|[k v] l IH]; intros self Hinv Hnd Hreg; [done|].
  destruct (P k) eqn:HP.
  - rewrite purge_cons_true by done. apply IH.
    + apply unregister_mutual_inverse; [done|]. apply Hinv.
      apply Hreg; [by left|done].
    + by apply NoDup_cons in Hnd as [_ ?].
    + by apply registered_in_tail.
  - rewrite purge_cons_false by done. apply IH; [done| |].
    + by apply NoDup_cons in Hnd as [_ ?].
    + intros k' v' Hin. apply Hreg. by right.
Qed.

Lemma purge_lookup_key l : forall self k,
  _pydevd_to_vscode (purge P l self) !! k =
    if P k && bool_decide (k ∈ l.*1) then None
    else _pydevd_to_vscode self !! k.
Proof.
  induction l as [|[k' v'] l IH]; intros self k.
  - rewrite (bool_decide_eq_false_2 (k ∈ [].*1)) by apply not_elem_of_nil.
    by rewrite andb_false_r.
  - destruct (P k') eqn:HP'.
    + rewrite purge_cons_true by done. rewrite IH.
      change (((k', v') :: l).*1) with (k' :: l.*1).
      destruct (P k) eqn:HP;
        [|simpl; rewrite lookup_delete_ne by congruence; done].
      rewrite !andb_true_l.
      destruct (decide (k = k')) as [->|Hne].
      * rewrite (bool_decide_eq_true_2 (k' ∈ k' :: l.*1)) by left.
        simpl. rewrite lookup_delete_eq. by destruct (bool_decide _).
      * simpl. rewrite lookup_delete_ne by done.
        assert (bool_decide (k ∈ k' :: l.*1) = bool_decide (k ∈ l.*1)) as ->.
        { apply bool_decide_ext. rewrite elem_of_cons.
          split; [|by right]. by intros [?|?]. }
        done.
    + rewrite purge_cons_false by done. rewrite IH.
      change (((k', v') :: l).*1) with (k' :: l.*1).
      destruct (P k) eqn:HP; [|done]. rewrite !andb_true_l.
      assert (bool_decide (k ∈ k' :: l.*1) = bool_decide (k ∈ l.*1)) as ->.
      { apply bool_decide_ext. rewrite elem_of_cons.
        split; [|by right]. intros [->|?]; [congruence|done]. }
      done.
Qed.

(** Purging all pairs of the map itself: the keys chosen by [P] are gone
    on both sides, everything else is as before. *)
Lemma purge_pairs_spec self :
  mutual_inverse self ->
  mutual_inverse (purge P (pairs self) self)
  /\ (forall k, _pydevd_to_vscode (purge P (pairs self) self) !! k =
                  if P k then None else _pydevd_to_vscode self !! k)
  /\ (forall v, _vscode_to_pydevd (purge P (pairs self) self) !! v =
                  match _vscode_to_pydevd self !! v with
                  | Some k => if P k then None else Some k
                  | None => None
                  end).
Proof.
  intros Hinv.
  assert (NoDup (pairs self).*1) as Hnd by apply NoDup_fst_map_to_list.
  assert (registered_in P self (pairs self)) as Hreg.
  { intros k v Hin _. by apply elem_of_map_to_list in Hin. }
  pose proof (purge_mutual_inverse _ _ Hinv Hnd Hreg) as Hinv'.
  assert (forall k, _pydevd_to_vscode (purge P (pairs self) self) !! k =
                      if P k then None else _pydevd_to_vscode self !! k) as Hkey.
  { intros k. rewrite purge_lookup_key. destruct (P k); simpl; [|done].
    case_bool_decide as Hin; [done|].
    destruct (_pydevd_to_vscode self !! k) as [v|] eqn:Hk; [|done].
    exfalso. apply Hin. apply list_elem_of_fmap. exists (k, v).
    split; [done|]. by apply elem_of_map_to_list. }
  split; [done|]. split; [done|].
  intros v.
  destruct (_vscode_to_pydevd (purge P (pairs self) self) !! v) as [k|] eqn:Hv.
  - apply Hinv' in Hv. rewrite Hkey in Hv.
    destruct (P k) eqn:HP; [done|]. apply Hinv in Hv. by rewrite Hv, HP.
  - destruct (_vscode_to_pydevd self !! v) as [k|] eqn:Hv0; [|done].
    destruct (P k) eqn:HP; [done|].
    apply Hinv in Hv0. assert (_pydevd_to_vscode (purge P (pairs self) self) !! k
                               = Some v) as Hk' by (by rewrite Hkey, HP).
    apply Hinv' in Hk'. congruence.
Qed.

(** A loop over pairs in a larger state [S] that holds the map behind
    [proj]/[upd]: for a pair chosen by [P] the body first does [pre] and
    then removes the pair. *)
Context {S : Type}.
Variables (proj : S -> IDMap.t K) (upd : IDMap.t K -> S -> S).
Variable pre : K * Z -> S -> S.
Variable body : K * Z -> M S unit.
Hypothesis proj_upd : forall m s, proj (upd m s) = m.
Hypothesis upd_upd : forall m m' s, upd m (upd m' s) = upd m s.
Hypothesis upd_proj : forall s, upd (proj s) s = s.
Hypothesis proj_pre : forall x s, proj (pre x s) = proj s.
Hypothesis pre_upd : forall x m s, pre x (upd m s) = upd m (pre x s).
Hypothesis body_eq : forall k v s,
  body (k, v) s =
    if P k
    then ((remove (Some k) (Some v) (proj (pre (k, v) s))).1,
          upd (remove (Some k) (Some v) (proj (pre (k, v) s))).2 (pre (k, v) s))
    else (Ok tt, s).

Lemma foldl_pre_upd l : forall m s,
  foldl (fun s x => if P x.1 then pre x s else s) (upd m s) l =
    upd m (foldl (fun s x => if P x.1 then pre x s else s) s l).
Proof.
  induction l as [|[k v] l IH]; intros m s; [done|].
  simpl. destruct (P k); [|apply IH]. rewrite pre_upd. apply IH.
Qed.

Lemma for_each_purge l : forall s,
  mutual_inverse (proj s) -> NoDup l.*1 -> registered_in P (proj s) l ->
  for_each l body s =
    (Ok tt,
     upd (purge P l (proj s))
         (foldl (fun s x => if P x.1 then pre x s else s) s l)).
Proof.
  induction l as [|[k v] l IH]; intros s Hinv Hnd Hreg.
  - simpl. by rewrite upd_proj.
  - assert (NoDup l.*1) as Hnd' by (by apply NoDup_cons in Hnd as [_ ?]).
    cbn [for_each foldl fst]. unfold bind. rewrite body_eq.
    destruct (P k) eqn:HP.
    + assert (_pydevd_to_vscode (proj s) !! k = Some v) as Hk
        by (apply Hreg; [by left|done]).
      rewrite proj_pre.
      rewrite (remove_registered_pair _ v k Hinv) by (by apply Hinv).
      cbn [fst snd]. rewrite purge_cons_true by done. rewrite IH.
      * rewrite proj_upd, foldl_pre_upd. by rewrite upd_upd.
      * rewrite proj_upd. apply unregister_mutual_inverse; [done|].
        by apply Hinv.
      * done.
      * rewrite proj_upd. by apply registered_in_tail.
    + rewrite purge_cons_false by done. apply IH; [done..|].
      intros k' v' Hin. apply Hreg. by right.
Qed.

End Purge.

(** ** PydevdSocket.send: replies and events *)

Section PydevdSocketFacts.
Context {Loop Future : Type}.
Variable decode : string -> string.
Import PydevdSocket.
Implicit Types (self : PydevdSocket.t Loop Future).

(** A frame whose sequence number has a pending request: the entry is
    popped and [fut.set_result] is scheduled on the loop of the request. *)
Lemma send_pending self data c q args cmd_id n loop fut :
  Str.split_max 2 Str.tab (decode data) = [c; q; args] ->
  Str.int c = Some cmd_id -> Str.int q = Some n ->
  requests self !! n = Some (loop, fut) ->
  send decode data self =
    (Ok (Z.of_nat (String.length data)),
     PydevdSocket.mk (seq self) (delete n (requests self))
       (effects self ++ [CallSoonThreadsafe loop fut (cmd_id, n, args)])).
Proof.
  intros Hsplit Hc Hq Hreq.
  unfold send. rewrite Hsplit.
  unfold bind, int_or_ValueError, pop_request, emit, modify, ret.
  rewrite Hc, Hq. simpl. by rewrite Hreq.
Qed.

(** A frame whose sequence number has no pending request goes to
    [handle_msg]; the table is as before. *)
Lemma send_unsolicited self data c q args cmd_id n :
  Str.split_max 2 Str.tab (decode data) = [c; q; args] ->
  Str.int c = Some cmd_id -> Str.int q = Some n ->
  requests self !! n = None ->
  send decode data self =
    (Ok (Z.of_nat (String.length data)),
     PydevdSocket.mk (seq self) (requests self)
       (effects self ++ [HandleMsg cmd_id n args])).
Proof.
  intros Hsplit Hc Hq Hreq.
  unfold send. rewrite Hsplit.
  unfold bind, int_or_ValueError, pop_request, emit, modify, ret.
  rewrite Hc, Hq. simpl. rewrite Hreq. simpl.
  by rewrite (delete_id _ _ Hreq).
Qed.

(** A frame whose command id or sequence number is no integer raises
    ValueError before the table of pending requests is touched: nothing is
    popped and nothing is scheduled. *)
Lemma send_malformed self data c q args :
  Str.split_max 2 Str.tab (decode data) = [c; q; args] ->
  Str.int c = None \/ Str.int q = None ->
  send decode data self = (Raise ValueError, self).
Proof.
  intros Hsplit Hint. unfold send. rewrite Hsplit.
  unfold bind, int_or_ValueError, ret, raise.
  destruct (Str.int c); [|done].
  destruct Hint as [Hc|Hq]; [done|]. by rewrite Hq.
Qed.

(** [int] skips blanks around the number but not the separators FS to US,
    which [strip] removes. *)
Lemma int_padding :
  Str.int " 12 " = Some 12
  /\ Str.int (String "031" "5") = None
  /\ Str.int (String "1" (String "031" "")) = None
  /\ Str.strip (String "031" "5") = "5".
Proof. by vm_compute. Qed.

(** C2, as the code has it.  A frame whose sequence number matches a
    pending request removes the entry and schedules exactly one
    [set_result] with (command id, sequence number, payload); a frame whose
    sequence number has no pending entry is handed to the event path and is
    no error; and a second frame for a sequence number that was already
    resolved is such a frame: it is handed to the event path as well, not
    rejected. *)
Theorem send_resolves_once_then_dispatches self data c q args cmd_id n :
  Str.split_max 2 Str.tab (decode data) = [c; q; args] ->
  Str.int c = Some cmd_id -> Str.int q = Some n ->
  let len := Z.of_nat (String.length data) in
  (forall loop fut, requests self !! n = Some (loop, fut) ->
     send decode data self =
       (Ok len,
        PydevdSocket.mk (seq self) (delete n (requests self))
          (effects self ++ [CallSoonThreadsafe loop fut (cmd_id, n, args)]))
     /\ send decode data (send decode data self).2 =
          (Ok len,
           PydevdSocket.mk (seq self) (delete n (requests self))
             (effects self ++ [CallSoonThreadsafe loop fut (cmd_id, n, args);
                               HandleMsg cmd_id n args])))
  /\ (requests self !! n = None ->
      send decode data self =
        (Ok len,
         PydevdSocket.mk (seq self) (requests self)
           (effects self ++ [HandleMsg cmd_id n args]))).
Proof.
  intros Hsplit Hc Hq len. split.
  - intros loop fut Hreq.
    rewrite (send_pending _ _ _ _ _ _ _ _ _ Hsplit Hc Hq Hreq).
    split; [done|]. simpl.
    rewrite (send_unsolicited _ _ c q args cmd_id n Hsplit Hc Hq)
      by (simpl; apply lookup_delete_eq).
    simpl. by rewrite <- app_assoc.
  - by apply (send_unsolicited _ _ c q).
Qed.

End PydevdSocketFacts.

Section PydevdSocketExamples.
Import PydevdSocket Examples.
Local Open Scope string_scope.

Lemma send_resolves_once_then_dispatches_witness :
  send id reply_frame one_pending =
    (Ok 21,
     {| seq := 1000000001; requests := delete 1000000000 (requests one_pending);
        effects := [CallSoonThreadsafe 0%nat 42%nat (113, 1000000000, "<xml/>")] |})
  /\ send id reply_frame init =
       (Ok 21,
        {| seq := 1000000000; requests := ∅;
           effects := [HandleMsg (Loop:=nat) (Future:=nat) 113 1000000000 "<xml/>"] |}).
Proof.
  pose proof (send_resolves_once_then_dispatches (Loop:=nat) (Future:=nat) id)
    as Hsend.
  split.
  - refine (proj1 (proj1 (Hsend one_pending reply_frame "113" "1000000000"
                            "<xml/>" 113 1000000000 eq_refl eq_refl eq_refl)
                     0%nat 42%nat _)).
    reflexivity.
  - refine (proj2 (Hsend init reply_frame "113" "1000000000"
                     "<xml/>" 113 1000000000 eq_refl eq_refl eq_refl) _).
    reflexivity.
Defined.

(** C2 as stated fails: the second reply for a sequence number that was
    already resolved raises nothing; it reaches [handle_msg] like any
    event. *)
Lemma send_duplicate_reply_counterexample :
  let first := send id reply_frame one_pending in
  let second := send id reply_frame first.2 in
  first.1 = Ok 21
  /\ second.1 = Ok 21
  /\ (forall e, second.1 <> Raise e)
  /\ effects second.2 =
       [CallSoonThreadsafe 0%nat 42%nat (113, 1000000000, "<xml/>");
        HandleMsg 113 1000000000 "<xml/>"].
Proof.
  vm_compute. repeat split; discriminate.
Qed.

End PydevdSocketExamples.

(** ** Handlers of the message processor that do not wait *)

Section ProcessorFacts.
Import VSCodeMessageProcessor.
Local Open Scope string_scope.
Implicit Types (s : VSCodeMessageProcessor.t).

(** C5.  The hit condition [5] becomes the comparison of the hit counter
    with 5, [%3] the test that the counter modulo 3 is 0, [>=2] the
    comparison of the counter as written; an empty or absent hit condition
    gives no expression. *)
Theorem hit_condition_normalized :
  _get_hit_condition_expression (Some "5") = Some "@HIT@ == 5"
  /\ _get_hit_condition_expression (Some "%3") = Some "@HIT@ %3 == 0"
  /\ _get_hit_condition_expression (Some ">=2") = Some "@HIT@ >=2"
  /\ _get_hit_condition_expression (Some "") = None
  /\ _get_hit_condition_expression None = None.
Proof. repeat split; vm_compute; reflexivity. Qed.

(** C8.  A pause request handled before the process-created flag is set
    sends one failure response with its message and nothing else: no
    suspend notification, and no other part of the state changes. *)
Theorem pause_rejected_while_initializing s req threadId :
  is_process_created s = false ->
  on_pause req threadId s =
    (Ok tt,
     set_sent
       (sent s ++ [Response req false
                     (Some "Cannot pause while debugger is initializing") []])
       s).
Proof.
  intros Hflag. unfold on_pause, bind, get. by rewrite Hflag.
Qed.

Lemma pause_rejected_while_initializing_witness :
  on_pause (mk_request 7 "pause") 0 init =
    (Ok tt,
     set_sent
       [Response (mk_request 7 "pause") false
          (Some "Cannot pause while debugger is initializing") []]
       init).
Proof.
  apply (pause_rejected_while_initializing init (mk_request 7 "pause") 0).
  reflexivity.
Defined.

(** C7 on the code: [on_setBreakpoints] puts the condition, the hit
    condition and the log-point expression into the message as they are.
    A condition with a tab gives a set-break message of ten tab-separated
    fields instead of nine; a hit condition and a log message with a tab
    keep it as well. *)
Theorem set_break_message_keeps_tabs (repr : string -> string) :
  let cond := "x" +:+ Str.TAB +:+ "== 1" in
  let args := mk_setBreakpoints_args "a.py"
                [mk_source_breakpoint 1 (Some cond) None None] in
  let msg := Str.join Str.TAB
               ["1"; "python-line"; "a.py"; "1"; "None"; cond; "None"; "None";
                "None"] in
  sent (on_setBreakpoints repr None args init).2
    = [PydevdNotify CMD_SET_BREAK msg]
  /\ length (Str.split Str.tab msg) = 10%nat
  /\ breakpoint_fields repr
       (mk_source_breakpoint 1 None (Some (">" +:+ Str.TAB +:+ "5")) None)
     = (None, None, Some ("@HIT@ >" +:+ Str.TAB +:+ "5"), false)
  /\ breakpoint_fields repr
       (mk_source_breakpoint 1 None None (Some ("a" +:+ Str.TAB +:+ "{x}")))
     = (None,
        Some ("print(" +:+ quote +:+ "a" +:+ Str.TAB +:+ "{}" +:+ quote
                +:+ ".format(x))"),
        None, true).
Proof. repeat split; vm_compute; reflexivity. Qed.

End ProcessorFacts.

(** ** The thread-run event *)

Section ThreadRunFacts.
Import VSCodeMessageProcessor.
Local Open Scope string_scope.
Implicit Types (s : VSCodeMessageProcessor.t).

Lemma set_frame_map_same s : set_frame_map (frame_map s) s = s.
Proof. by destruct s. Qed.
Lemma set_var_map_same s : set_var_map (var_map s) s = s.
Proof. by destruct s. Qed.
Lemma set_bp_map_same s : set_bp_map (bp_map s) s = s.
Proof. by destruct s. Qed.

Lemma foldl_no_pre {A} (b : A -> bool) (l : list A) s :
  foldl (fun s0 x => if b x then s0 else s0) s l = s.
Proof. induction l as [|x l IH]; [done|]. simpl. by destruct (b x). Qed.

Lemma to_pydevd_Some {K} `{Countable K} (m : IDMap.t K) v k :
  IDMap._vscode_to_pydevd m !! v = Some k -> IDMap.to_pydevd v m = (Ok k, m).
Proof.
  intros Hv. unfold IDMap.to_pydevd, lookup_or_KeyError. by rewrite Hv.
Qed.

Lemma to_pydevd_None {K} `{Countable K} (m : IDMap.t K) v :
  IDMap._vscode_to_pydevd m !! v = None ->
  IDMap.to_pydevd v m = (Raise KeyError, m).
Proof.
  intros Hv. unfold IDMap.to_pydevd, lookup_or_KeyError. by rewrite Hv.
Qed.

Lemma to_pydevd_Ok_inv {K} `{Countable K} (m m' : IDMap.t K) v k :
  IDMap.to_pydevd v m = (Ok k, m') -> IDMap._vscode_to_pydevd m !! v = Some k.
Proof.
  unfold IDMap.to_pydevd, lookup_or_KeyError.
  destruct (IDMap._vscode_to_pydevd m !! v); unfold ret, raise; congruence.
Qed.

(** The loop over [frame_map.pairs()]. *)
Lemma purge_frames s pyd_tid :
  IDMap.mutual_inverse (frame_map s) ->
  for_each (IDMap.pairs (frame_map s))
    (fun '(pyd_fid, vsc_fid) =>
       if decide (pyd_fid.1 = pyd_tid)
       then with_frame_map (IDMap.remove (Some pyd_fid) (Some vsc_fid))
       else ret tt) s
  = (Ok tt,
     set_frame_map
       (IDMap.purge (fun k => bool_decide (k.1 = pyd_tid))
          (IDMap.pairs (frame_map s)) (frame_map s)) s).
Proof.
  intros Hinv.
  rewrite (for_each_purge (fun k : frame_key => bool_decide (k.1 = pyd_tid))
             frame_map set_frame_map (fun _ s => s)); try done.
  - by rewrite foldl_no_pre.
  - apply set_frame_map_same.
  - intros k v s0. unfold with_frame_map, zoom.
    case_decide; [rewrite bool_decide_eq_true_2 by done
                 |rewrite bool_decide_eq_false_2 by done]; [|done].
    by destruct (IDMap.remove _ _ _).
  - apply NoDup_fst_map_to_list.
  - intros k v Hin _. by apply elem_of_map_to_list in Hin.
Qed.

(** The loop over [var_map.pairs()]. *)
Lemma purge_vars s pyd_tid :
  IDMap.mutual_inverse (var_map s) ->
  for_each (IDMap.pairs (var_map s))
    (fun '(pyd_var, vsc_var) =>
       if decide (pyd_var.1.1 = pyd_tid)
       then with_var_map (IDMap.remove (Some pyd_var) (Some vsc_var))
       else ret tt) s
  = (Ok tt,
     set_var_map
       (IDMap.purge (fun k => bool_decide (k.1.1 = pyd_tid))
          (IDMap.pairs (var_map s)) (var_map s)) s).
Proof.
  intros Hinv.
  rewrite (for_each_purge (fun k : var_key => bool_decide (k.1.1 = pyd_tid))
             var_map set_var_map (fun _ s => s)); try done.
  - by rewrite foldl_no_pre.
  - apply set_var_map_same.
  - intros k v s0. unfold with_var_map, zoom.
    case_decide; [rewrite bool_decide_eq_true_2 by done
                 |rewrite bool_decide_eq_false_2 by done]; [|done].
    by destruct (IDMap.remove _ _ _).
  - apply NoDup_fst_map_to_list.
  - intros k v Hin _. by apply elem_of_map_to_list in Hin.
Qed.

(** The state the handler leaves, before the event is sent. *)
Lemma thread_run_state s seq args raw rest :
  Str.split Str.tab args = [raw; rest] ->
  IDMap.mutual_inverse (frame_map s) ->
  IDMap.mutual_inverse (var_map s) ->
  let pyd_tid := Str.strip raw in
  let purged :=
    set_var_map
      (IDMap.purge (fun k => bool_decide (k.1.1 = pyd_tid))
         (IDMap.pairs (var_map s)) (var_map s))
      (set_frame_map
         (IDMap.purge (fun k => bool_decide (k.1 = pyd_tid))
            (IDMap.pairs (frame_map s)) (frame_map s))
         (set_active_exceptions (delete pyd_tid (active_exceptions s))
            (set_stack_traces (delete pyd_tid (stack_traces s)) s))) in
  on_pydevd_thread_run seq args s =
    (Ok tt,
     match IDMap._pydevd_to_vscode (thread_map s) !! pyd_tid with
     | Some vsc_tid =>
         set_sent
           (sent s ++ [Event "continued" [("threadId", VInt vsc_tid)]]) purged
     | None => purged
     end).
Proof.
  intros Hsplit Hf Hv pyd_tid purged.
  unfold on_pydevd_thread_run. rewrite Hsplit. cbv beta iota.
  fold pyd_tid.
  set (s1 := set_active_exceptions (delete pyd_tid (active_exceptions s))
               (set_stack_traces (delete pyd_tid (stack_traces s)) s)).
  rewrite (bind_Ok _ _ s tt (set_stack_traces (delete pyd_tid (stack_traces s)) s))
    by reflexivity.
  rewrite (bind_Ok _ _ _ tt s1) by reflexivity.
  rewrite (bind_Ok _ _ s1 s1 s1) by reflexivity.
  rewrite (bind_Ok _ _ s1 tt _ (purge_frames s1 pyd_tid Hf)).
  set (s2 := set_frame_map _ s1).
  rewrite (bind_Ok _ _ s2 s2 s2) by reflexivity.
  rewrite (bind_Ok _ _ s2 tt _ (purge_vars s2 pyd_tid Hv)).
  change (set_var_map _ s2) with purged.
  unfold bind, try_except, with_thread_map, zoom.
  change (thread_map purged) with (thread_map s).
  destruct (IDMap._pydevd_to_vscode (thread_map s) !! pyd_tid) as [v|] eqn:Ht.
  - rewrite (to_vscode_hit _ _ _ _ Ht). simpl. by destruct s.
  - rewrite (to_vscode_miss _ _ Ht). simpl. by destruct s.
Qed.

(** C3.  After the thread-run event of a thread is handled, no frame ID
    and no variable ID that belonged to a key of that thread resolves any
    more, and none resolves to such a key; the stack-trace and the
    active-exception caches have no entry for the thread; and one
    [continued] event is sent exactly when the thread is in the thread
    map. *)
Theorem thread_run_invalidates_thread s seq args raw rest :
  Str.split Str.tab args = [raw; rest] ->
  IDMap.mutual_inverse (frame_map s) ->
  IDMap.mutual_inverse (var_map s) ->
  let pyd_tid := Str.strip raw in
  exists s',
    on_pydevd_thread_run seq args s = (Ok tt, s')
    /\ (forall vsc_fid pyd_fid,
          IDMap.to_pydevd vsc_fid (frame_map s) = (Ok pyd_fid, frame_map s) ->
          pyd_fid.1 = pyd_tid ->
          IDMap.to_pydevd vsc_fid (frame_map s') = (Raise KeyError, frame_map s')
          /\ IDMap.to_vscode pyd_fid false (frame_map s')
             = (Raise KeyError, frame_map s'))
    /\ (forall vsc_var pyd_var,
          IDMap.to_pydevd vsc_var (var_map s) = (Ok pyd_var, var_map s) ->
          pyd_var.1.1 = pyd_tid ->
          IDMap.to_pydevd vsc_var (var_map s') = (Raise KeyError, var_map s')
          /\ IDMap.to_vscode pyd_var false (var_map s')
             = (Raise KeyError, var_map s'))
    /\ (forall vsc_fid pyd_fid m,
          IDMap.to_pydevd vsc_fid (frame_map s') = (Ok pyd_fid, m) ->
          pyd_fid.1 <> pyd_tid)
    /\ (forall vsc_var pyd_var m,
          IDMap.to_pydevd vsc_var (var_map s') = (Ok pyd_var, m) ->
          pyd_var.1.1 <> pyd_tid)
    /\ stack_traces s' !! pyd_tid = None
    /\ active_exceptions s' !! pyd_tid = None
    /\ sent s' =
         (sent s ++
            match IDMap._pydevd_to_vscode (thread_map s) !! pyd_tid with
            | Some vsc_tid => [Event "continued" [("threadId", VInt vsc_tid)]]
            | None => []
            end)%list.
Proof.
  intros Hsplit Hf Hv pyd_tid.
  eexists. split; [by apply (thread_run_state s seq args raw rest)|].
  fold pyd_tid.
  destruct (purge_pairs_spec (fun k : frame_key => bool_decide (k.1 = pyd_tid))
              (frame_map s) Hf) as (_ & Hfk & Hfv).
  destruct (purge_pairs_spec (fun k : var_key => bool_decide (k.1.1 = pyd_tid))
              (var_map s) Hv) as (_ & Hvk & Hvv).
  set (fm := IDMap.purge _ _ (frame_map s)) in *.
  set (vm := IDMap.purge _ _ (var_map s)) in *.
  match goal with
  | |- context [frame_map ?x] =>
      assert (frame_map x = fm) as -> by (by destruct (_ !! pyd_tid));
      assert (var_map x = vm) as -> by (by destruct (_ !! pyd_tid));
      assert (stack_traces x = delete pyd_tid (stack_traces s)) as ->
        by (by destruct (_ !! pyd_tid));
      assert (active_exceptions x = delete pyd_tid (active_exceptions s)) as ->
        by (by destruct (_ !! pyd_tid));
      assert (sent x = (sent s ++
                match IDMap._pydevd_to_vscode (thread_map s) !! pyd_tid with
                | Some vsc_tid => [Event "continued" [("threadId", VInt vsc_tid)]]
                | None => []
                end)%list) as ->
        by (destruct (_ !! pyd_tid); simpl; by rewrite ?app_nil_r)
  end.
  split; [|split; [|split; [|split; [|repeat split]]]].
  - intros vsc_fid pyd_fid Hr%to_pydevd_Ok_inv Hscope. split.
    + apply to_pydevd_None. rewrite Hfv, Hr.
      by rewrite bool_decide_eq_true_2.
    + apply to_vscode_miss. rewrite Hfk. by rewrite bool_decide_eq_true_2.
  - intros vsc_var pyd_var Hr%to_pydevd_Ok_inv Hscope. split.
    + apply to_pydevd_None. rewrite Hvv, Hr.
      by rewrite bool_decide_eq_true_2.
    + apply to_vscode_miss. rewrite Hvk. by rewrite bool_decide_eq_true_2.
  - intros vsc_fid pyd_fid m Hr%to_pydevd_Ok_inv. rewrite Hfv in Hr.
    destruct (IDMap._vscode_to_pydevd (frame_map s) !! vsc_fid) as [k|];
      [|done].
    case_bool_decide; congruence.
  - intros vsc_var pyd_var m Hr%to_pydevd_Ok_inv. rewrite Hvv in Hr.
    destruct (IDMap._vscode_to_pydevd (var_map s) !! vsc_var) as [k|];
      [|done].
    case_bool_decide; congruence.
  - apply lookup_delete_eq.
  - apply lookup_delete_eq.
Qed.

End ThreadRunFacts.

(** ** setBreakpoints *)

Section BreakpointFacts.
Import VSCodeMessageProcessor.
Local Open Scope string_scope.
Implicit Types (s : VSCodeMessageProcessor.t) (m : IDMap.t bp_key).
Variable repr : string -> string.

Lemma init_bp_map_wf : bp_map_wf IDMap.init.
Proof.
  split; [apply init_mutual_inverse|]. split; [apply init_ids_below_next|].
  intros k v. simpl. by rewrite lookup_empty.
Qed.

Lemma register_cons path src_bp rest m :
  register_breakpoints path (src_bp :: rest) m =
    register_breakpoints path rest
      (IDMap.add (IDMap.Factory (fun vsc_bpid => (path, vsc_bpid))) m).2.
Proof. reflexivity. Qed.

Lemma add_bp_wf path m :
  bp_map_wf m ->
  bp_map_wf (IDMap.add (IDMap.Factory (fun vsc_bpid => (path, vsc_bpid))) m).2.
Proof.
  intros (Hinv & Hlt & Hown).
  assert (IDMap._pydevd_to_vscode m !! (path, IDMap._next_id m) = None) as Hfresh.
  { destruct (IDMap._pydevd_to_vscode m !! (path, IDMap._next_id m))
      as [v|] eqn:E; [|done].
    pose proof (Hown _ _ E) as Hv. simpl in Hv. subst v.
    apply Hinv in E. apply Hlt in E. lia. }
  split; [by apply add_fresh_mutual_inverse|].
  split; [by apply add_ids_below_next|].
  intros k v. simpl. intros [[<- <-]|[_ E]]%lookup_insert_Some; [done|].
  by apply Hown.
Qed.

Lemma register_spec path src_bps : forall m,
  bp_map_wf m ->
  bp_map_wf (register_breakpoints path src_bps m)
  /\ IDMap._next_id (register_breakpoints path src_bps m)
     = (IDMap._next_id m + Z.of_nat (length src_bps))%Z
  /\ forall k,
       IDMap._pydevd_to_vscode (register_breakpoints path src_bps m) !! k =
         if bool_decide (k.1 = path
                         /\ (IDMap._next_id m <= k.2
                             < IDMap._next_id m + Z.of_nat (length src_bps))%Z)
         then Some k.2
         else IDMap._pydevd_to_vscode m !! k.
Proof.
  induction src_bps as [|src_bp rest IH]; intros m Hwf.
  - split; [done|]. split; [simpl; lia|]. intros k.
    rewrite bool_decide_eq_false_2; [done|]. simpl. lia.
  - rewrite register_cons.
    destruct (IH _ (add_bp_wf path m Hwf)) as (Hwf' & Hn & Hk).
    change (IDMap._next_id (IDMap.add _ m).2) with (IDMap._next_id m + 1)%Z
      in Hn, Hk.
    cbn [length]. rewrite Nat2Z.inj_succ.
    split; [done|]. split; [lia|].
    intros k. rewrite Hk. simpl IDMap._pydevd_to_vscode.
    destruct (decide (k = (path, IDMap._next_id m))) as [->|Hne].
    + rewrite lookup_insert_eq. cbn [fst snd].
      rewrite (bool_decide_eq_true_2 (_ /\ (IDMap._next_id m <= _ < _)%Z))
        by (split; [done|lia]).
      by case_bool_decide.
    + rewrite lookup_insert_ne by done.
      rewrite (bool_decide_ext
                 (k.1 = path /\ (IDMap._next_id m + 1 <= k.2
                                 < IDMap._next_id m + 1
                                   + Z.of_nat (length rest))%Z)
                 (k.1 = path /\ (IDMap._next_id m <= k.2
                                 < IDMap._next_id m
                                   + Z.succ (Z.of_nat (length rest)))%Z));
        [done|].
      destruct k as [p v]. cbn [fst snd] in *.
      split; intros [-> ?]; (split; [done|]); [lia|].
      destruct (decide (v = IDMap._next_id m)) as [->|?]; [done|lia].
Qed.

Lemma purge_bp_map_wf (P : bp_key -> bool) m :
  bp_map_wf m -> bp_map_wf (IDMap.purge P (IDMap.pairs m) m).
Proof.
  intros (Hinv & Hlt & Hown).
  destruct (purge_pairs_spec P m Hinv) as (Hinv' & Hk & Hv).
  split; [done|]. split.
  - intros v k. rewrite Hv, purge_next_id.
    destruct (IDMap._vscode_to_pydevd m !! v) as [k'|] eqn:E; [|done].
    intros _. by apply (Hlt v k').
  - intros k v. rewrite Hk. destruct (P k); [done|]. apply Hown.
Qed.

(** The loop over [src_bps]. *)
Lemma set_each_breakpoint_spec bp_type path src_bps : forall s,
  set_each_breakpoint repr bp_type path src_bps s =
    (Ok (verified_breakpoints (IDMap._next_id (bp_map s)) src_bps),
     set_sent
       (sent s ++ set_break_messages repr bp_type path
                    (IDMap._next_id (bp_map s)) src_bps)
       (set_tracked_paths
          (tracked_paths s ++ replicate (length src_bps) path)
          (set_bp_map (register_breakpoints path src_bps (bp_map s)) s))).
Proof.
  induction src_bps as [|src_bp rest IH]; intros s.
  - simpl. unfold ret. rewrite !app_nil_r. by destruct s.
  - cbn [set_each_breakpoint]. unfold bind at 1.
    unfold set_one_breakpoint, bind, with_bp_map, zoom, track_file_path_case,
      pydevd_notify, send, modify, ret. cbn [IDMap.add fst snd].
    rewrite IH. destruct s. cbn.
    rewrite <- !app_assoc. reflexivity.
Qed.

Lemma foldl_remove_messages bp_type path (l : list (bp_key * Z)) : forall s,
  foldl (fun s0 x =>
           if bool_decide (x.1.1 = path)
           then set_sent (sent s0 ++ [remove_break_message bp_type path x.2]) s0
           else s0) s l
  = set_sent
      (sent s ++
         flat_map (fun x : bp_key * Z =>
                     if bool_decide (x.1.1 = path)
                     then [remove_break_message bp_type path x.2] else []) l)
      s.
Proof.
  induction l as [|[k v] l IH]; intros s.
  - simpl. rewrite app_nil_r. by destruct s.
  - cbn [foldl flat_map fst snd]. case_bool_decide.
    + rewrite IH. destruct s. cbn. by rewrite <- app_assoc.
    + by rewrite IH.
Qed.

(** The loop that deletes the breakpoints of [path]. *)
Lemma remove_breakpoints_spec bp_type path s :
  IDMap.mutual_inverse (bp_map s) ->
  for_each (IDMap.pairs (bp_map s)) (remove_one_breakpoint bp_type path) s =
    (Ok tt,
     set_sent
       (sent s ++
          flat_map (fun x : bp_key * Z =>
                      if bool_decide (x.1.1 = path)
                      then [remove_break_message bp_type path x.2] else [])
                   (IDMap.pairs (bp_map s)))
       (set_bp_map
          (IDMap.purge (fun k => bool_decide (k.1 = path))
             (IDMap.pairs (bp_map s)) (bp_map s)) s)).
Proof.
  intros Hinv.
  rewrite (for_each_purge (fun k : bp_key => bool_decide (k.1 = path))
             bp_map set_bp_map
             (fun x s => set_sent
                           (sent s ++ [remove_break_message bp_type path x.2]) s));
    try done.
  - rewrite foldl_remove_messages. by destruct s.
  - apply set_bp_map_same.
  - intros k v s0. unfold remove_one_breakpoint.
    case_decide; [rewrite bool_decide_eq_true_2 by done
                 |rewrite bool_decide_eq_false_2 by done]; [|done].
    unfold bind, pydevd_notify, send, modify, with_bp_map, zoom,
      remove_break_message. cbn [snd].
    by destruct (IDMap.remove _ _ _).
  - apply NoDup_fst_map_to_list.
  - intros k v Hin _. by apply elem_of_map_to_list in Hin.
Qed.

(** One call of [on_setBreakpoints]. *)
Lemma on_setBreakpoints_spec req path src_bps s :
  IDMap.mutual_inverse (bp_map s) ->
  let args := mk_setBreakpoints_args path src_bps in
  let bp_type := bp_type_of path (debug_options s) in
  let purged := IDMap.purge (fun k => bool_decide (k.1 = path))
                  (IDMap.pairs (bp_map s)) (bp_map s) in
  on_setBreakpoints repr req args s =
    (Ok tt,
     set_sent
       (sent s
        ++ flat_map (fun x : bp_key * Z =>
                       if bool_decide (x.1.1 = path)
                       then [remove_break_message bp_type path x.2] else [])
                    (IDMap.pairs (bp_map s))
        ++ set_break_messages repr bp_type path (IDMap._next_id (bp_map s))
             src_bps
        ++ match req with
           | Some req =>
               [Response req true None
                  [("breakpoints",
                    VList (verified_breakpoints (IDMap._next_id (bp_map s))
                             src_bps))]]
           | None => []
           end)
       (set_tracked_paths
          (tracked_paths s ++ path :: replicate (length src_bps) path)
          (set_bp_map (register_breakpoints path src_bps purged)
             (set_bkpoints (Some args) s)))).
Proof.
  intros Hinv args bp_type purged.
  unfold on_setBreakpoints.
  rewrite (bind_Ok _ _ s tt (set_bkpoints (Some args) s)) by reflexivity.
  cbn [source_path breakpoints args].
  set (s1 := set_tracked_paths (tracked_paths s ++ [path])
               (set_bkpoints (Some args) s)).
  rewrite (bind_Ok _ _ _ tt s1) by reflexivity.
  rewrite (bind_Ok _ _ s1 s1 s1) by reflexivity.
  change (debug_options s1) with (debug_options s). fold bp_type.
  rewrite (bind_Ok _ _ s1 tt _ (remove_breakpoints_spec bp_type path s1 Hinv)).
  change (bp_map s1) with (bp_map s). fold purged.
  rewrite (bind_Ok _ _ _ _ _ (set_each_breakpoint_spec bp_type path src_bps _)).
  assert (IDMap._next_id purged = IDMap._next_id (bp_map s)) as Hn
    by apply purge_next_id.
  clearbody purged.
  cbn [bp_map set_sent set_bp_map set_tracked_paths]. rewrite !Hn.
  destruct req as [req|]; unfold send_response, send, modify, ret;
    destruct s; cbn; rewrite <- ?app_assoc, ?app_nil_r; reflexivity.
Qed.

(** [bp_map] after one call: the entries of [path] are the new ones, the
    entries of other paths are as before. *)
Lemma bp_map_after_call path src_bps m :
  bp_map_wf m ->
  let m' := register_breakpoints path src_bps
              (IDMap.purge (fun k => bool_decide (k.1 = path))
                 (IDMap.pairs m) m) in
  bp_map_wf m'
  /\ IDMap._next_id m' = (IDMap._next_id m + Z.of_nat (length src_bps))%Z
  /\ (forall k v,
        IDMap._pydevd_to_vscode m' !! k = Some v /\ k.1 = path <->
        k = (path, v)
        /\ (IDMap._next_id m <= v
            < IDMap._next_id m + Z.of_nat (length src_bps))%Z)
  /\ (forall k, k.1 <> path ->
        IDMap._pydevd_to_vscode m' !! k = IDMap._pydevd_to_vscode m !! k).
Proof.
  intros Hwf m'.
  pose proof (purge_bp_map_wf (fun k => bool_decide (k.1 = path)) m Hwf)
    as Hwfp.
  destruct (register_spec path src_bps _ Hwfp) as (Hwf' & Hn & Hk).
  rewrite purge_next_id in Hn, Hk.
  destruct Hwf as (Hinv & Hlt & Hown).
  destruct (purge_pairs_spec (fun k : bp_key => bool_decide (k.1 = path)) m Hinv)
    as (_ & Hpk & _).
  split; [done|]. split; [done|]. split.
  - intros k v. subst m'. rewrite Hk, Hpk. destruct k as [p w]. cbn [fst snd].
    case_bool_decide as Hr.
    + destruct Hr as [-> Hr]. split.
      * intros [[= <-] _]. done.
      * intros [[= <-] _]. done.
    + case_bool_decide as Hp; [|split; [tauto|]].
      * split; [by intros [? _]|]. intros [[= -> ->] Hr']. tauto.
      * intros [[= -> ->] _]. done.
  - intros k Hne. subst m'. rewrite Hk, Hpk.
    rewrite bool_decide_eq_false_2 by tauto.
    by rewrite bool_decide_eq_false_2.
Qed.

(** The remove-break notifications of a call are those of the entries
    of [path], in the order in which the dictionary is iterated. *)
Lemma removes_permutation bp_type path m (n0 : Z) (a : nat) :
  (forall k v,
     IDMap._pydevd_to_vscode m !! k = Some v /\ k.1 = path <->
     k = (path, v) /\ (n0 <= v < n0 + Z.of_nat a)%Z) ->
  flat_map (fun x : bp_key * Z =>
              if bool_decide (x.1.1 = path)
              then [remove_break_message bp_type path x.2] else [])
           (IDMap.pairs m)
  ≡ₚ map (remove_break_message bp_type path) (seqZ n0 (Z.of_nat a)).
Proof.
  intros Hentries.
  assert (forall l : list (bp_key * Z),
            flat_map (fun x : bp_key * Z =>
                        if bool_decide (x.1.1 = path)
                        then [remove_break_message bp_type path x.2] else []) l
            = map (fun x => remove_break_message bp_type path x.2)
                  (filter (fun x : bp_key * Z => x.1.1 = path) l)) as ->.
  { induction l as [|x l IH]; [done|]. cbn [flat_map].
    rewrite filter_cons. case_bool_decide; case_decide; try done.
    simpl. by rewrite IH. }
  assert (filter (fun x : bp_key * Z => x.1.1 = path) (IDMap.pairs m)
          ≡ₚ map (fun v => ((path, v), v)) (seqZ n0 (Z.of_nat a))) as ->.
  { apply NoDup_Permutation.
    - apply NoDup_filter, NoDup_map_to_list.
    - apply NoDup_fmap_2; [by intros ?? [= ?]|]. apply NoDup_seqZ.
    - intros [k v]. rewrite list_elem_of_filter. unfold IDMap.pairs.
      rewrite elem_of_map_to_list. cbn [fst].
      rewrite list_elem_of_fmap. split.
      + intros [Hp Hk]. destruct (proj1 (Hentries k v) (conj Hk Hp)) as [-> Hr].
        exists v. split; [done|]. apply elem_of_seqZ. lia.
      + intros (w & [= -> ->] & Hw%elem_of_seqZ).
        destruct (proj2 (Hentries (path, w) w)) as [? ?]; [|done].
        split; [done|lia]. }
  rewrite <- list_fmap_compose. done.
Qed.

(** C4.  Two calls of setBreakpoints for one path, with the lists [A] and
    then [B]: the second call sends one remove command for each breakpoint
    the first one registered, then one set command per element of [B] in
    the order of [B]; afterwards the map holds for that path exactly one
    entry per element of [B], with the IDs handed out by the second call,
    and none of the first call. *)
Theorem setBreakpoints_replaces reqA reqB path A B s :
  bp_map_wf (bp_map s) ->
  let sA := (on_setBreakpoints repr reqA (mk_setBreakpoints_args path A) s).2 in
  let bp_type := bp_type_of path (debug_options s) in
  let n0 := IDMap._next_id (bp_map s) in
  let n := (n0 + Z.of_nat (length A))%Z in
  exists sB removes,
    on_setBreakpoints repr reqB (mk_setBreakpoints_args path B) sA = (Ok tt, sB)
    /\ (forall k v,
          IDMap._pydevd_to_vscode (bp_map sB) !! k = Some v /\ k.1 = path <->
          k = (path, v) /\ (n <= v < n + Z.of_nat (length B))%Z)
    /\ IDMap.mutual_inverse (bp_map sB)
    /\ (forall v, (n0 <= v < n)%Z ->
          IDMap._vscode_to_pydevd (bp_map sB) !! v = None)
    /\ (forall k, k.1 <> path ->
          IDMap._pydevd_to_vscode (bp_map sB) !! k
          = IDMap._pydevd_to_vscode (bp_map s) !! k)
    /\ sent sB =
         (sent sA ++ removes ++ set_break_messages repr bp_type path n B
          ++ match reqB with
             | Some req =>
                 [Response req true None
                    [("breakpoints", VList (verified_breakpoints n B))]]
             | None => []
             end)%list
    /\ removes ≡ₚ map (remove_break_message bp_type path)
                      (seqZ n0 (Z.of_nat (length A))).
Proof.
  intros Hwf sA bp_type n0 n.
  pose proof Hwf as (Hinv & Hlt & Hown).
  destruct (bp_map_after_call path A (bp_map s) Hwf)
    as (HwfA & HnA & HentA & HothA).
  set (mA := register_breakpoints path A _) in *.
  assert (bp_map sA = mA) as HmA.
  { subst sA. by rewrite (on_setBreakpoints_spec reqA path A s Hinv). }
  assert (debug_options sA = debug_options s) as Hopts.
  { subst sA. by rewrite (on_setBreakpoints_spec reqA path A s Hinv). }
  destruct (bp_map_after_call path B mA HwfA)
    as (HwfB & HnB & HentB & HothB).
  set (mB := register_breakpoints path B _) in *.
  fold n0 in HnA, HentA. fold n in HnA. rewrite HnA in HnB, HentB.
  eexists. eexists. split.
  { rewrite (on_setBreakpoints_spec reqB path B sA) by (rewrite HmA; apply HwfA).
    rewrite HmA, Hopts, HnA. reflexivity. }
  cbn [bp_map sent set_sent set_tracked_paths set_bp_map set_bkpoints].
  fold mB. split; [exact HentB|]. split; [apply HwfB|]. split; [|split].
  - intros v Hv.
    destruct (IDMap._vscode_to_pydevd mB !! v) as [k|] eqn:E; [|done].
    exfalso. apply (proj1 HwfB) in E.
    destruct (decide (k.1 = path)) as [Hp|Hp].
    + destruct (proj1 (HentB k v) (conj E Hp)) as [_ ?]. lia.
    + rewrite (HothB k Hp) in E.
      assert (IDMap._pydevd_to_vscode (bp_map s) !! k = Some v) as E'
        by (by rewrite <- (HothA k Hp)).
      apply Hinv in E'. apply Hlt in E'. lia.
  - intros k Hp. by rewrite (HothB k Hp), (HothA k Hp).
  - split; [reflexivity|]. fold bp_type.
    by apply removes_permutation.
Qed.

End BreakpointFacts.

(** ** VariablesSorter and the variables response *)

Section SorterFacts.
Import VariablesSorter.
Implicit Types (v : variable) (l vars : list variable).

Lemma ascii_compare_refl (a : ascii) : Ascii.compare a a = Eq.
Proof. apply N.compare_refl. Qed.

Lemma string_compare_lt_trans (s1 : string) : forall s2 s3 : string,
  String.compare s1 s2 = Lt -> String.compare s2 s3 = Lt ->
  String.compare s1 s3 = Lt.
Proof.
  induction s1 as [|a s1 IH]; intros [|b s2] [|c s3]; simpl; try done.
  destruct (Ascii.compare a b) eqn:Hab; [|clear IH|done];
    destruct (Ascii.compare b c) eqn:Hbc; try done.
  - apply Ascii.compare_eq_iff in Hab, Hbc. subst.
    rewrite ascii_compare_refl. apply IH.
  - apply Ascii.compare_eq_iff in Hab. subst. by rewrite Hbc.
  - apply Ascii.compare_eq_iff in Hbc. subst. by rewrite Hab.
  - unfold Ascii.compare in *. rewrite N.compare_lt_iff in Hab, Hbc.
    by rewrite (proj2 (N.compare_lt_iff _ _) (N.lt_trans _ _ _ Hab Hbc)).
Qed.

Lemma string_leb_trans (s1 s2 s3 : string) :
  String.leb s1 s2 = true -> String.leb s2 s3 = true -> String.leb s1 s3 = true.
Proof.
  unfold String.leb. intros H12 H23.
  destruct (String.compare s1 s2) eqn:E12; [| |done].
  - apply String.compare_eq_iff in E12. by subst.
  - destruct (String.compare s2 s3) eqn:E23; [| |done].
    + apply String.compare_eq_iff in E23. subst. by rewrite E12.
    + by rewrite (string_compare_lt_trans _ _ _ E12 E23).
Qed.

Lemma name_le_trans v1 v2 v3 : name_le v1 v2 -> name_le v2 v3 -> name_le v1 v3.
Proof. apply string_leb_trans. Qed.

Lemma name_le_total v1 v2 : name_le v1 v2 \/ name_le v2 v1.
Proof. apply String.leb_total. Qed.

(** [insert] keeps a sorted list sorted. *)
Lemma insert_Forall (Q : variable -> Prop) x l :
  Q x -> Forall Q l -> Forall Q (insert x l).
Proof.
  intros Hx Hl. induction Hl as [|y l Hy Hl IH]; simpl.
  - by constructor.
  - destruct (String.leb (name x) (name y)); by repeat constructor.
Qed.

Lemma insert_sorted x l :
  StronglySorted name_le l -> StronglySorted name_le (insert x l).
Proof.
  induction 1 as [|y l Hl IH Hy]; simpl.
  - by repeat constructor.
  - destruct (String.leb (name x) (name y)) eqn:Hxy.
    + constructor; [by constructor|]. constructor; [done|].
      eapply Forall_impl; [exact Hy|]. intros z Hz.
      by apply (name_le_trans x y z).
    + constructor; [done|]. apply insert_Forall; [|done].
      destruct (name_le_total x y) as [Hle|Hle]; [|done].
      unfold name_le in Hle. congruence.
Qed.

Lemma insert_Permutation x l : insert x l ≡ₚ x :: l.
Proof.
  induction l as [|y l IH]; simpl; [done|].
  destruct (String.leb (name x) (name y)); [done|].
  rewrite IH. apply Permutation_swap.
Qed.

(** [insert] puts a variable in front of the others of its name. *)
Lemma insert_filter_name (n : string) x l :
  StronglySorted name_le l ->
  filter (fun v => name v = n) (insert x l)
  = filter (fun v => name v = n) (x :: l).
Proof.
  induction 1 as [|y l Hl IH Hy]; simpl; [done|].
  destruct (String.leb (name x) (name y)) eqn:Hxy; [done|].
  rewrite (filter_cons _ y), IH, !(filter_cons _ x), (filter_cons _ y).
  destruct (decide (name x = n)) as [Hx|Hx]; [|done].
  destruct (decide (name y = n)) as [Hy'|Hy']; [|done].
  exfalso. destruct (name_le_total x y) as [Hle|Hle].
  - unfold name_le in Hle. congruence.
  - unfold name_le in Hle. rewrite Hx, Hy' in *. congruence.
Qed.

Lemma sort_sorted l : StronglySorted name_le (sort l).
Proof.
  induction l as [|x l IH]; simpl; [constructor|]. by apply insert_sorted.
Qed.

Lemma sort_Permutation l : sort l ≡ₚ l.
Proof.
  induction l as [|x l IH]; simpl; [done|].
  by rewrite insert_Permutation, IH.
Qed.

Lemma sort_filter_name (n : string) l :
  filter (fun v => name v = n) (sort l) = filter (fun v => name v = n) l.
Proof.
  induction l as [|x l IH]; simpl; [done|].
  rewrite insert_filter_name by apply sort_sorted.
  by rewrite !filter_cons, IH.
Qed.

(** The groups in terms of the underscores of a name. *)
Lemma group_by_underscores (n : string) : group n = group_of_name n.
Proof.
  unfold group, group_of_name, Str.startswith.
  destruct n as [|a [|b n]]; cbn [String.prefix leading_underscores].
  - done.
  - destruct (Ascii.eqb_spec a "_") as [->|Ha]; [done|].
    by destruct (ascii_dec "_" a) as [<-|?].
  - destruct (Ascii.eqb_spec a "_") as [->|Ha].
    + destruct (ascii_dec "_" "_") as [_|?]; [|done].
      destruct (Ascii.eqb_spec b "_") as [->|Hb].
      * destruct (ascii_dec "_" "_") as [_|?]; [|done]. by destruct n.
      * by destruct (ascii_dec "_" b) as [<-|?].
    + by destruct (ascii_dec "_" a) as [<-|?].
Qed.

(** The four lists after appending [vars] to a sorter. *)
Lemma append_groups vars : forall self,
  let self' := foldl (fun acc v => append v acc) self vars in
  variables self' = variables self ++ filter (in_group 0) vars
  /\ single_underscore self' = single_underscore self ++ filter (in_group 1) vars
  /\ double_underscore self' = double_underscore self ++ filter (in_group 2) vars
  /\ dunder self' = dunder self ++ filter (in_group 3) vars.
Proof.
  induction vars as [|v vars IH]; intros self.
  - simpl. by rewrite !app_nil_r.
  - cbn [foldl]. destruct (IH (append v self)) as (H0 & H1 & H2 & H3).
    cbv zeta. rewrite H0, H1, H2, H3. rewrite !(filter_cons _ v).
    pose proof (group_by_underscores (name v)) as Hg.
    unfold append, in_group, in_group_dec. unfold group in Hg.
    destruct (Str.startswith "__" (name v)).
    + destruct (Str.endswith "__" (name v)); simpl; rewrite <- Hg;
        repeat case_decide; try done; by rewrite <- ?app_assoc.
    + destruct (Str.startswith "_" (name v)); simpl; rewrite <- Hg;
        repeat case_decide; try done; by rewrite <- ?app_assoc.
Qed.

Lemma sort_is_group (i : nat) vars :
  is_group i vars (sort (filter (in_group i) vars)).
Proof.
  split; [apply sort_Permutation|]. split; [apply sort_sorted|].
  intros n. apply sort_filter_name.
Qed.

(** What [get_sorted_variables] returns after the variables [vars] were
    appended to a fresh sorter. *)
Lemma get_sorted_variables_four_groups vars :
  four_groups vars
    (get_sorted_variables (foldl (fun acc v => append v acc) init vars)).1.
Proof.
  destruct (append_groups vars init) as (H0 & H1 & H2 & H3).
  cbv zeta in *. simpl in H0, H1, H2, H3.
  exists (sort (filter (in_group 0) vars)), (sort (filter (in_group 1) vars)),
         (sort (filter (in_group 2) vars)), (sort (filter (in_group 3) vars)).
  split.
  - unfold get_sorted_variables. cbn [fst variables single_underscore
                                       double_underscore dunder].
    by rewrite H0, H1, H2, H3.
  - repeat split; apply sort_is_group.
Qed.

End SorterFacts.

(** ** Handlers that wait for pydevd: evaluate and variables *)

Section CoroutineFacts.
Import VSCodeMessageProcessor.
Local Open Scope string_scope.
Implicit Types (s : VSCodeMessageProcessor.t).
Variable unquote : string -> string.
Variable parse_xml_response : string -> res xml.

Lemma set_provider_same s :
  provider_locked s = false -> set_provider false (provider_format s) s = s.
Proof. destruct s. simpl. by intros ->. Qed.

Lemma run_handler_lift {A} (m : M t A) replies s :
  run_handler (lift m) replies s = Some (m s).
Proof. unfold run_handler, lift. by destruct (m s). Qed.

Lemma run_handler_lift_bind {A B} (m : M t A) (f : A -> C B) replies s a s' :
  m s = (Ok a, s') ->
  run_handler (cbind (lift m) f) replies s = run_handler (f a) replies s'.
Proof.
  intros Hm. unfold run_handler, cbind, lift. rewrite Hm. by cbn [step_bind].
Qed.

Lemma run_handler_lift_raise {A B} (m : M t A) (f : A -> C B) replies s e s' :
  m s = (Raise e, s') ->
  run_handler (cbind (lift m) f) replies s = Some (Raise e, s').
Proof.
  intros Hm. unfold run_handler, cbind, lift. rewrite Hm. by cbn [step_bind].
Qed.

(** One round trip under [using_format], with the lock free: the request
    goes out, the reply comes back, and the provider is as before. *)
Lemma run_handler_request {B} fmt cmd_id msg (f : Z * Z * string -> C B)
    reply replies s :
  provider_locked s = false ->
  run_handler (cbind (request_using_format fmt cmd_id msg) f)
    (reply :: replies) s
  = run_handler (f reply) replies
      (set_sent (sent s ++ [PydevdRequest cmd_id msg]) s).
Proof.
  intros Hlock.
  unfold run_handler, cbind, request_using_format, cbind, using_format, lift,
    pydevd_request, modify, ret.
  cbn [step_bind drive]. rewrite Hlock. cbn [step_bind drive].
  destruct s. simpl in Hlock. subst. reflexivity.
Qed.

(** C9.  An evaluate request in the [repl] context whose evaluation reports
    an error is sent again as an exec request with the same arguments; when
    the reply to that parses to a variable, the response carries the type
    and the value of that variable ([None] of type [NoneType] as an empty
    result), not those of the failed evaluation. *)
Theorem evaluate_repl_falls_back_to_exec s req args pyd_tid pyd_fid
    reply1 reply2 xvar xvar2 :
  provider_locked s = false ->
  IDMap._vscode_to_pydevd (frame_map s) !! frameId args
    = Some (pyd_tid, pyd_fid) ->
  context args = "repl" ->
  parse_xml_response reply1.2 = Ok (mk_xml (OneVar xvar)) ->
  xvar_isErrorOnEval xvar = Some "True" ->
  parse_xml_response reply2.2 = Ok (mk_xml (OneVar xvar2)) ->
  let expr := Str.replace Str.TAB " " (expression args) in
  let msg := Str.join Str.TAB [pyd_tid; Str.of_Z pyd_fid; "LOCAL"; expr; "1"] in
  let result_type := unquote <$> xvar_type xvar2 in
  let result := unquote <$> xvar_value xvar2 in
  run_handler (on_evaluate unquote parse_xml_response req args)
    [reply1; reply2] s
  = Some (Ok tt,
          set_sent
            (sent s ++
               [PydevdRequest CMD_EVALUATE_EXPRESSION msg;
                PydevdRequest CMD_EXEC_EXPRESSION msg;
                Response req true None
                  [("result",
                    if bool_decide (result = Some "None")
                       && bool_decide (result_type = Some "NoneType")
                    then VNone else str_or_None result);
                   ("type", str_or_None result_type);
                   ("variablesReference", VInt 0)]])
            s).
Proof.
  intros Hlock Hframe Hctx Hparse1 Herr Hparse2 expr msg result_type result.
  unfold on_evaluate.
  rewrite (run_handler_lift_bind _ _ _ s (pyd_tid, pyd_fid) s).
  2:{ unfold with_frame_map, zoom. rewrite (to_pydevd_Some _ _ _ Hframe).
      by rewrite set_frame_map_same. }
  cbv beta iota zeta. fold expr. fold msg.
  rewrite run_handler_request by done.
  rewrite Hparse1. cbn [var]. rewrite Hctx, Herr.
  change (("repl" =? "hover")%string && _) with false.
  change (("repl" =? "repl")%string && is_True (Some "True")) with true.
  cbv iota.
  rewrite run_handler_request by done.
  rewrite Hparse2. rewrite run_handler_lift.
  unfold send_response, send, modify. fold result_type. fold result.
  destruct s. cbn. rewrite <- !app_assoc. reflexivity.
Qed.

Lemma to_vscode_autogen_Ok {K} `{Countable K} (m : IDMap.t K) k :
  exists v m', IDMap.to_vscode k true m = (Ok v, m').
Proof.
  destruct (IDMap._pydevd_to_vscode m !! k) as [v|] eqn:Hk.
  - exists v, m. by apply to_vscode_hit.
  - rewrite (to_vscode_miss_autogen _ _ Hk). by eexists _, _.
Qed.

(** With every name on the path of the parent present, building the
    evaluate name of a named variable raises nothing. *)
Lemma evaluate_name_steps (l : list (option string)) : forall e,
  Forall is_Some l ->
  exists e', foldl evaluate_name_step (Ok (Some e)) l = Ok (Some e').
Proof.
  induction l as [|c l IH]; intros e Hl; [by exists e|].
  apply Forall_cons in Hl as [[c' ->] Hl]. cbn [foldl evaluate_name_step].
  by apply IH.
Qed.

Lemma evaluate_name_Ok (pyd_var : string * Z * list (option string))
    (var_name : string) :
  Forall is_Some (tail pyd_var.2) ->
  exists r, _get_variable_evaluate_name pyd_var (Some var_name) = Ok r.
Proof.
  intros Hpath. unfold _get_variable_evaluate_name.
  destruct (3 <? 2 + length pyd_var.2)%nat; [|by eexists].
  destruct pyd_var.2 as [|c0 [|c1 rest]]; [by eexists..|].
  cbn [tail] in Hpath. apply Forall_cons in Hpath as [[e ->] Hrest].
  cbn [app].
  destruct (evaluate_name_steps (rest ++ [Some var_name]) e) as [e' ->];
    [|by eexists].
  apply Forall_app. split; [done|]. by repeat constructor.
Qed.

Lemma build_variable_spec pyd_var xv s var_name :
  Forall is_Some (tail pyd_var.2) ->
  xvar_name xv = Some var_name ->
  exists v m',
    build_variable unquote pyd_var xv s = (Ok v, set_var_map m' s)
    /\ VariablesSorter.name v = unquote var_name.
Proof.
  intros Hpath Hname.
  destruct (evaluate_name_Ok pyd_var (unquote var_name) Hpath) as [r Hr].
  unfold build_variable, bind, ret, of_res, with_var_map, zoom.
  rewrite Hname. cbn [fmap option_fmap option_map]. rewrite Hr.
  destruct (truthy (xvar_isContainer xv)).
  - destruct (to_vscode_autogen_Ok (var_map s)
                (pyd_var.1, (pyd_var.2 ++ [Some (unquote var_name)])%list))
      as (v & m' & ->).
    by eexists _, m'.
  - eexists _, (var_map s). by rewrite set_var_map_same.
Qed.

(** A variable without a name, below a frame: the loop leaves with the
    AttributeError of [variables.append], after the child was registered
    if the variable is a container. *)
Lemma build_variable_unnamed pyd_var xv s :
  (length pyd_var.2 <= 1)%nat ->
  xvar_name xv = None ->
  exists m',
    build_variable unquote pyd_var xv s
    = (Raise AttributeError, set_var_map m' s).
Proof.
  intros Hlen Hname.
  unfold build_variable, bind, ret, raise, of_res, with_var_map, zoom.
  rewrite Hname. cbn [fmap option_fmap option_map].
  assert (_get_variable_evaluate_name pyd_var None = Ok None) as ->.
  { unfold _get_variable_evaluate_name.
    destruct (Nat.ltb_spec 3 (2 + length pyd_var.2)); [lia|done]. }
  destruct (truthy (xvar_isContainer xv)).
  - destruct (to_vscode_autogen_Ok (var_map s)
                (pyd_var.1, (pyd_var.2 ++ [None])%list))
      as (v & m' & ->).
    by eexists m'.
  - eexists (var_map s). by rewrite set_var_map_same.
Qed.

Lemma collect_variables_spec pyd_var xvars : forall sorter s,
  Forall is_Some (tail pyd_var.2) ->
  Forall (fun xv => is_Some (xvar_name xv)) xvars ->
  exists vars m',
    collect_variables unquote pyd_var xvars sorter s
    = (Ok (foldl (fun acc v => VariablesSorter.append v acc) sorter vars),
       set_var_map m' s)
    /\ map (fun v => Some (VariablesSorter.name v)) vars
       = map (fun xv => unquote <$> xvar_name xv) xvars.
Proof.
  induction xvars as [|xv xvars IH]; intros sorter s Hpath Hnamed.
  - exists [], (var_map s). simpl. unfold ret. by rewrite set_var_map_same.
  - apply Forall_cons in Hnamed as [[var_name Hxv] Hnamed].
    destruct (build_variable_spec pyd_var xv s var_name Hpath Hxv)
      as (v & m1 & Hb & Hname).
    destruct (IH (VariablesSorter.append v sorter) (set_var_map m1 s)
                Hpath Hnamed)
      as (vars & m' & Hc & Hnames).
    exists (v :: vars), m'. split.
    + cbn [collect_variables]. rewrite (bind_Ok _ _ _ _ _ Hb). rewrite Hc.
      by destruct s.
    + simpl. by rewrite Hname, Hnames, Hxv.
Qed.

(** Below a frame, a reply with a variable that has no name makes the loop
    raise AttributeError. *)
Lemma collect_variables_unnamed pyd_var xvars : forall sorter s,
  (length pyd_var.2 <= 1)%nat ->
  ~ Forall (fun xv => is_Some (xvar_name xv)) xvars ->
  exists m',
    collect_variables unquote pyd_var xvars sorter s
    = (Raise AttributeError, set_var_map m' s).
Proof.
  intros sorter s Hlen. revert sorter s.
  assert (Forall is_Some (tail pyd_var.2)) as Hpath.
  { destruct pyd_var.2 as [|c0 [|c1 rest]]; cbn in *; [constructor..|lia]. }
  induction xvars as [|xv xvars IH]; intros sorter s Hnot.
  - destruct Hnot. constructor.
  - cbn [collect_variables]. unfold bind.
    destruct (xvar_name xv) as [var_name|] eqn:Hxv.
    + destruct (build_variable_spec pyd_var xv s var_name Hpath Hxv)
        as (v & m1 & -> & _).
      destruct (IH (VariablesSorter.append v sorter) (set_var_map m1 s))
        as (m' & ->).
      * intros Hall. apply Hnot. constructor; [by rewrite Hxv|done].
      * exists m'. by destruct s.
    + destruct (build_variable_unnamed pyd_var xv s Hlen Hxv) as (m' & ->).
      by exists m'.
Qed.

(** Whatever the reply holds, the loop over its variables touches the
    variable map only, and when it ends without raising, the sorter holds
    the variables of the reply, in their order and under their names. *)
Lemma build_variable_total pyd_var xv s :
  exists r m',
    build_variable unquote pyd_var xv s = (r, set_var_map m' s)
    /\ forall v, r = Ok v ->
         Some (VariablesSorter.name v) = unquote <$> xvar_name xv.
Proof.
  unfold build_variable, bind, ret, raise, of_res, with_var_map, zoom.
  destruct (xvar_name xv) as [var_name|];
    cbn [fmap option_fmap option_map];
    match goal with
    | |- context [_get_variable_evaluate_name ?p ?n] =>
        destruct (_get_variable_evaluate_name p n) as [eval_name|e]
    end;
    (destruct (truthy (xvar_isContainer xv));
     [match goal with
      | |- context [IDMap.to_vscode ?k true (var_map s)] =>
          destruct (to_vscode_autogen_Ok (var_map s) k) as (v0 & m' & ->)
      end;
      eexists _, m'
     |eexists _, (var_map s); rewrite set_var_map_same];
     (split; [reflexivity|]); intros v Hv; by inversion Hv).
Qed.

Lemma collect_variables_total pyd_var xvars : forall sorter s,
  exists r m',
    collect_variables unquote pyd_var xvars sorter s = (r, set_var_map m' s)
    /\ forall sorter', r = Ok sorter' ->
         exists vars,
           sorter' = foldl (fun acc v => VariablesSorter.append v acc)
                       sorter vars
           /\ map (fun v => Some (VariablesSorter.name v)) vars
              = map (fun xv => unquote <$> xvar_name xv) xvars.
Proof.
  induction xvars as [|xv xvars IH]; intros sorter s.
  - exists (Ok sorter), (var_map s). rewrite set_var_map_same.
    split; [done|]. intros sorter' [= <-]. by exists [].
  - cbn [collect_variables]. unfold bind.
    destruct (build_variable_total pyd_var xv s) as (r1 & m1 & -> & Hname).
    destruct r1 as [v|e].
    + destruct (IH (VariablesSorter.append v sorter) (set_var_map m1 s))
        as (r & m' & -> & Hvars).
      exists r, m'. split; [by destruct s|].
      intros sorter' Hr. destruct (Hvars sorter' Hr) as (vars & -> & Hnames).
      exists (v :: vars). split; [done|].
      cbn [map]. by rewrite (Hname v eq_refl), Hnames.
    + exists (Raise e), m1. split; [done|]. by intros sorter' [=].
Qed.

(** C10.  The response to a variables request lists the variables of the
    reply in four groups one after the other: names without a leading
    underscore, names with one, names with two leading underscores that do
    not end with two, names with two leading and two trailing underscores.
    Within a group the variables are in ascending order of their names,
    and variables of the same name keep the order of the reply.  The
    handler returns with that response when every variable of the reply
    has a name and no name is missing on the path of the reference; when
    it raises instead, it has sent no response. *)
Theorem variables_response_grouped_and_sorted s req args pyd_var reply x :
  provider_locked s = false ->
  IDMap._vscode_to_pydevd (var_map s) !! variablesReference args
    = Some pyd_var ->
  parse_xml_response reply.2 = Ok x ->
  let cmd := if (2 + length pyd_var.2 =? 3)%nat
             then CMD_GET_FRAME else CMD_GET_VARIABLE in
  let msg := Str.join Str.TAB
               (pyd_var.1.1 :: Str.of_Z pyd_var.1.2
                :: map Str.of_option pyd_var.2) in
  exists r s',
    run_handler (on_variables unquote parse_xml_response req args) [reply] s
    = Some (r, s')
    /\ (Forall is_Some (tail pyd_var.2) ->
        Forall (fun xv => is_Some (xvar_name xv)) (xvars_of x) ->
        r = Ok tt)
    /\ (r = Ok tt ->
        exists vars out m',
          s' = set_sent
                 (sent s ++
                    [PydevdRequest cmd msg;
                     Response req true None
                       [("variables", VList (map variable_value out))]])
                 (set_var_map m' s)
          /\ map (fun v => Some (VariablesSorter.name v)) vars
             = map (fun xv => unquote <$> xvar_name xv) (xvars_of x)
          /\ VariablesSorter.four_groups vars out)
    /\ (forall e, r = Raise e ->
          sent s' = (sent s ++ [PydevdRequest cmd msg])%list).
Proof.
  intros Hlock Hvar Hparse cmd msg.
  set (s0 := set_sent (sent s ++ [PydevdRequest cmd msg]) s).
  assert (run_handler (on_variables unquote parse_xml_response req args)
            [reply] s
          = run_handler
              (variables <- lift (collect_variables unquote pyd_var
                                    (xvars_of x) VariablesSorter.init) ;;
               lift (send_response req true None
                       [("variables",
                         VList (map variable_value
                                  (VariablesSorter.get_sorted_variables
                                     variables).1))]))%co [] s0) as ->.
  { unfold on_variables.
    rewrite (run_handler_lift_bind _ _ _ s pyd_var s).
    2:{ unfold with_var_map, zoom. rewrite (to_pydevd_Some _ _ _ Hvar).
        by rewrite set_var_map_same. }
    cbv beta iota zeta. fold cmd. fold msg.
    rewrite run_handler_request by done.
    by rewrite Hparse. }
  destruct (collect_variables_total pyd_var (xvars_of x) VariablesSorter.init
              s0) as (r0 & m' & Hc & Hvars).
  destruct r0 as [sorter|e].
  - rewrite (run_handler_lift_bind _ _ _ _ _ _ Hc), run_handler_lift.
    destruct (Hvars sorter eq_refl) as (vars & -> & Hnames).
    eexists (Ok tt), _. split; [reflexivity|]. split; [done|].
    split; [|by intros e [=]].
    intros _.
    exists vars,
      (VariablesSorter.get_sorted_variables
         (foldl (fun acc v => VariablesSorter.append v acc)
                VariablesSorter.init vars)).1,
      m'.
    split; [|split; [exact Hnames|apply get_sorted_variables_four_groups]].
    subst s0. destruct s. cbn. by rewrite <- !app_assoc.
  - rewrite (run_handler_lift_raise _ _ _ _ _ _ Hc).
    eexists (Raise e), _. split; [reflexivity|]. split.
    + intros Hpath Hnamed.
      destruct (collect_variables_spec pyd_var (xvars_of x)
                  VariablesSorter.init s0 Hpath Hnamed)
        as (vars & m2 & Hc' & _).
      rewrite Hc in Hc'. discriminate Hc'.
    + split; [by intros [=]|]. intros e' _. subst s0. by destruct s.
Qed.

End CoroutineFacts.

(** ** The theorems at concrete inputs *)

Section Witnesses.
Import VSCodeMessageProcessor Examples.
Local Open Scope string_scope.

Lemma suspended_frames_inverse : IDMap.mutual_inverse suspended_frames.
Proof.
  apply run_invariant;
    [apply init_mutual_inverse | apply init_ids_below_next |].
  vm_compute. reflexivity.
Defined.

Lemma suspended_vars_inverse : IDMap.mutual_inverse suspended_vars.
Proof.
  apply run_invariant;
    [apply init_mutual_inverse | apply init_ids_below_next |].
  vm_compute. reflexivity.
Defined.

Lemma thread_run_invalidates_thread_witness :
  exists s',
    on_pydevd_thread_run 0 thread_run_args suspended_state = (Ok tt, s')
    /\ IDMap.to_pydevd 1 (frame_map s') = (Raise KeyError, frame_map s')
    /\ IDMap.to_pydevd 1 (var_map s') = (Raise KeyError, var_map s')
    /\ sent s' = [Event "continued" [("threadId", VInt 1)]].
Proof.
  destruct (thread_run_invalidates_thread suspended_state 0 thread_run_args
              "pid1_tid1" "106" eq_refl suspended_frames_inverse
              suspended_vars_inverse)
    as (s' & Hrun & Hframes & Hvars & _ & _ & _ & _ & Hsent).
  exists s'. split; [exact Hrun|]. split; [|split].
  - apply (Hframes 1 ("pid1_tid1", 2)); vm_compute; reflexivity.
  - apply (Hvars 1 ("pid1_tid1", 2, [Some "FRAME"])); vm_compute; reflexivity.
  - rewrite Hsent. vm_compute. reflexivity.
Defined.

Lemma setBreakpoints_replaces_witness :
  exists sB,
    on_setBreakpoints id (Some breakpoints_request)
      (mk_setBreakpoints_args "a.py" breakpoints_B)
      (on_setBreakpoints id (Some breakpoints_request)
         (mk_setBreakpoints_args "a.py" breakpoints_A) init).2
    = (Ok tt, sB)
    /\ IDMap._pydevd_to_vscode (bp_map sB) !! ("a.py", 2) = Some 2
    /\ IDMap._pydevd_to_vscode (bp_map sB) !! ("a.py", 3) = Some 3
    /\ IDMap._vscode_to_pydevd (bp_map sB) !! 1 = None.
Proof.
  destruct (setBreakpoints_replaces id (Some breakpoints_request)
              (Some breakpoints_request) "a.py" breakpoints_A breakpoints_B
              init init_bp_map_wf)
    as (sB & removes & Hrun & Hentries & _ & Hnone & _).
  exists sB. split; [exact Hrun|]. split; [|split].
  - apply (Hentries ("a.py", 2) 2). split; [reflexivity|]. simpl. lia.
  - apply (Hentries ("a.py", 3) 3). split; [reflexivity|]. simpl. lia.
  - apply Hnone. simpl. lia.
Defined.

Lemma evaluate_repl_falls_back_to_exec_witness :
  exists st,
    run_handler
      (on_evaluate id example_parse evaluate_request
         (mk_evaluate_args "x = 3" (mk_format false false) 1 "repl"))
      [(113, 1000000000, eval_error_reply); (116, 1000000001, exec_reply)]
      suspended_state
    = Some (Ok tt, st)
    /\ last (sent st)
       = Some (Response evaluate_request true None
                 [("result", VStr "3"); ("type", VStr "int");
                  ("variablesReference", VInt 0)]).
Proof.
  eexists. split.
  - apply (evaluate_repl_falls_back_to_exec id example_parse suspended_state
             evaluate_request
             (mk_evaluate_args "x = 3" (mk_format false false) 1 "repl")
             "pid1_tid1" 2
             (113, 1000000000, eval_error_reply)
             (116, 1000000001, exec_reply)
             (mk_xvar (Some "") (Some "NameError")
                (Some "name 'x' is not defined") None (Some "True"))
             (mk_xvar (Some "") (Some "int") (Some "3") None None));
      vm_compute; reflexivity.
  - vm_compute. reflexivity.
Defined.

Lemma variables_response_grouped_and_sorted_witness :
  exists vars out m',
    run_handler
      (on_variables id example_parse variables_request
         (mk_variables_args 1 (mk_format false false)))
      [(114, 1000000002, frame_reply)] suspended_state
    = Some (Ok tt,
            set_sent
              [PydevdRequest CMD_GET_FRAME
                 ("pid1_tid1" +:+ Str.TAB +:+ "2" +:+ Str.TAB +:+ "FRAME");
               Response variables_request true None
                 [("variables", VList (map variable_value out))]]
              (set_var_map m' suspended_state))
    /\ map (fun v => Some (VariablesSorter.name v)) vars
       = [Some "b"; Some "__init__"; Some "_x"; Some "a"; Some "__private";
          Some "__"]
    /\ VariablesSorter.four_groups vars out.
Proof.
  destruct (variables_response_grouped_and_sorted id example_parse
              suspended_state
              variables_request (mk_variables_args 1 (mk_format false false))
              ("pid1_tid1", 2, [Some "FRAME"]) (114, 1000000002, frame_reply)
              (mk_xml
                 (ManyVars
                    [mk_xvar (Some "b") (Some "int") (Some "1") None None;
                     mk_xvar (Some "__init__") (Some "method") (Some "m") None
                       None;
                     mk_xvar (Some "_x") (Some "int") (Some "2") None None;
                     mk_xvar (Some "a") (Some "list") (Some "[]")
                       (Some "True") None;
                     mk_xvar (Some "__private") (Some "int") (Some "3") None
                       None;
                     mk_xvar (Some "__") (Some "int") (Some "4") None None])))
    as (r & s' & Hrun & Hok & Hfull & _); [vm_compute; reflexivity..|].
  assert (r = Ok tt) as ->
    by (apply Hok; [constructor|repeat constructor; by eexists]).
  destruct (Hfull eq_refl) as (vars & out & m' & -> & Hnames & Hgroups).
  exists vars, out, m'.
  split; [exact Hrun|]. split; [exact Hnames|exact Hgroups].
Defined.

(** The order in which that response lists the variables. *)
Example variables_response_order :
  match run_handler
          (on_variables id example_parse variables_request
             (mk_variables_args 1 (mk_format false false)))
          [(114, 1000000002, frame_reply)] suspended_state with
  | Some (Ok tt, st) =>
      match last (sent st) with
      | Some (Response _ _ _ [(_, VList vars)]) =>
          map (fun v => match v with
                        | VDict ((_, VStr n) :: _) => n
                        | _ => ""
                        end) vars
      | _ => []
      end
  | _ => []
  end = ["a"; "b"; "_x"; "__private"; "__"; "__init__"].
Proof. vm_compute. reflexivity. Qed.

End Witnesses.

(** ** IDMap: adding, looking up and removing *)

Section IDMapMoreFacts.
Context {K : Type} `{Countable K}.
Import IDMap.
Implicit Types (self : IDMap.t K) (o : op K) (ops : list (op K)).

(** X1.  [add] makes both lookups succeed at once: the new ID resolves to the
    key and the key to the new ID, whether or not the key was registered
    before. *)
Theorem add_then_lookup (a : id_arg K) self (autogen : bool) :
  (add a self).1 = Ok (_next_id self)
  /\ to_pydevd (_next_id self) (add a self).2
     = (Ok (arg_key a self), (add a self).2)
  /\ to_vscode (arg_key a self) autogen (add a self).2
     = (Ok (_next_id self), (add a self).2).
Proof.
  split; [done|]. split.
  - apply to_pydevd_Some. rewrite add_state. simpl. apply lookup_insert_eq.
  - apply to_vscode_hit. rewrite add_state. simpl. apply lookup_insert_eq.
Qed.

(** X2.  For a registered pair, [remove] with the key alone, with the ID alone
    or with both does the same: both directions of the pair are deleted,
    both lookups raise [KeyError] afterwards, every other entry stays and
    the dictionaries stay inverse. *)
Theorem remove_by_either_argument self k v :
  mutual_inverse self ->
  _vscode_to_pydevd self !! v = Some k ->
  let self' := unregister k v self in
  remove (Some k) None self = (Ok tt, self')
  /\ remove None (Some v) self = (Ok tt, self')
  /\ remove (Some k) (Some v) self = (Ok tt, self')
  /\ to_pydevd v self' = (Raise KeyError, self')
  /\ to_vscode k false self' = (Raise KeyError, self')
  /\ (forall v', v' <> v ->
        _vscode_to_pydevd self' !! v' = _vscode_to_pydevd self !! v')
  /\ (forall k', k' <> k ->
        _pydevd_to_vscode self' !! k' = _pydevd_to_vscode self !! k')
  /\ mutual_inverse self'.
Proof.
  intros Hinv Hv self'. pose proof (proj1 (Hinv v k) Hv) as Hk.
  split; [by apply remove_by_key|]. split; [by apply remove_by_id|].
  split; [by apply remove_registered_pair|].
  split; [apply to_pydevd_None; simpl; apply lookup_delete_eq|].
  split; [apply to_vscode_miss; simpl; apply lookup_delete_eq|].
  split; [intros v' Hne; simpl; by rewrite lookup_delete_ne|].
  split; [intros k' Hne; simpl; by rewrite lookup_delete_ne|].
  by apply unregister_mutual_inverse.
Qed.

(** X3.  [remove] of something that is not registered raises [KeyError] and
    leaves the map as it was, however the arguments are given. *)
Theorem remove_unregistered_unchanged self k v :
  _pydevd_to_vscode self !! k = None ->
  _vscode_to_pydevd self !! v = None ->
  remove (Some k) None self = (Raise KeyError, self)
  /\ remove None (Some v) self = (Raise KeyError, self)
  /\ remove (Some k) (Some v) self = (Raise KeyError, self)
  /\ remove None None self = (Raise KeyError, self).
Proof.
  intros Hk Hv.
  unfold remove, bind, ret, raise, get, lookup_or_KeyError, del_vscode,
    del_pydevd; simpl.
  by rewrite ?Hk, ?Hv; simpl; rewrite ?Hv.
Qed.

(** X4.  [remove] with an ID that is registered and a key that is not raises
    [KeyError] only after it has deleted the ID: the entry of the ID is gone
    while the key it belonged to still points at it. *)
Theorem remove_mismatch_half_deleted self k k' v :
  mutual_inverse self ->
  _vscode_to_pydevd self !! v = Some k' ->
  _pydevd_to_vscode self !! k = None ->
  let self' := IDMap.mk (delete v (_vscode_to_pydevd self))
                 (_pydevd_to_vscode self) (_next_id self) in
  remove (Some k) (Some v) self = (Raise KeyError, self')
  /\ to_pydevd v self' = (Raise KeyError, self')
  /\ to_vscode k' false self' = (Ok v, self')
  /\ ~ mutual_inverse self'.
Proof.
  intros Hinv Hv Hk self'. pose proof (proj1 (Hinv v k') Hv) as Hk'.
  split; [|split; [|split]].
  - unfold remove, bind, ret, raise, get, lookup_or_KeyError, del_vscode,
      del_pydevd; simpl.
    by rewrite Hv; simpl; rewrite Hk.
  - apply to_pydevd_None. simpl. apply lookup_delete_eq.
  - by apply to_vscode_hit.
  - intros Hinv'. apply (Hinv' v k') in Hk'. simpl in Hk'.
    by rewrite lookup_delete_eq in Hk'.
Qed.

(** X5.  [to_vscode] with [autogen] always returns an ID, and the ID is stable:
    asking again, with or without [autogen], returns the same ID and changes
    nothing, and the ID resolves back to the key. *)
Theorem to_vscode_autogen_stable self k :
  mutual_inverse self ->
  ids_below_next self ->
  exists v,
    (to_vscode k true self).1 = Ok v
    /\ let self' := (to_vscode k true self).2 in
       to_vscode k true self' = (Ok v, self')
       /\ to_vscode k false self' = (Ok v, self')
       /\ to_pydevd v self' = (Ok k, self')
       /\ mutual_inverse self'
       /\ (_next_id self' = _next_id self \/ _next_id self' = _next_id self + 1).
Proof.
  intros Hinv Hlt.
  destruct (_pydevd_to_vscode self !! k) as [v|] eqn:Hk.
  - exists v. rewrite (to_vscode_hit _ _ _ _ Hk). simpl.
    split; [done|]. split; [by apply to_vscode_hit|].
    split; [by apply to_vscode_hit|].
    split; [apply to_pydevd_Some; by apply Hinv|]. split; [done|by left].
  - exists (_next_id self). rewrite (to_vscode_miss_autogen _ _ Hk).
    split; [done|]. cbv zeta.
    split; [apply to_vscode_hit; cbn; apply lookup_insert_eq|].
    split; [apply to_vscode_hit; cbn; apply lookup_insert_eq|].
    split; [apply to_pydevd_Some; cbn; apply lookup_insert_eq|].
    split; [by apply add_fresh_mutual_inverse|]. right. reflexivity.
Qed.

Lemma exec_ids_from_one o self : ids_from_one self -> ids_from_one (exec o self).
Proof.
  intros [Hn Hv]. split.
  - rewrite next_id_exec. destruct (calls_add o self); lia.
  - destruct o as [a | p v | k g]; cbn [exec].
    + intros v k. rewrite add_state. cbn [_vscode_to_pydevd].
      intros [[<- _]|[_ E]]%lookup_insert_Some; [done|].
      by apply (Hv v k).
    + intros v' k'.
      unfold remove, bind, ret, raise, get, lookup_or_KeyError, del_vscode,
        del_pydevd; simpl.
      destruct p as [p|], v as [v|]; simpl;
        repeat (match goal with
                | |- context [match ?m !! ?i with _ => _ end] =>
                    destruct (m !! i) eqn:?; simpl
                end);
        rewrite ?lookup_delete_Some; intros E; apply (Hv v' k'); tauto.
    + destruct (_pydevd_to_vscode self !! k) as [v|] eqn:Hk.
      * by rewrite (to_vscode_hit _ _ _ _ Hk).
      * destruct g.
        -- rewrite (to_vscode_miss_autogen _ _ Hk), add_state.
           cbn [_vscode_to_pydevd snd].
           intros v k' [[<- _]|[_ E]]%lookup_insert_Some; [done|].
           by apply (Hv v k').
        -- by rewrite (to_vscode_miss _ _ Hk).
Qed.

Lemma run_ids ops : forall self,
  ids_from_one self -> ids_below_next self ->
  ids_from_one (run ops self) /\ ids_below_next (run ops self).
Proof.
  induction ops as [|o ops IH]; intros self H1 Hlt; [done|].
  rewrite run_cons. apply IH; [by apply exec_ids_from_one|].
  by apply exec_ids_below_next.
Qed.

(** X6.  In every session on a fresh map, whatever the calls, an ID resolves
    only if an [add] of the session handed it out: with [n] such calls,
    every ID outside 1..n raises [KeyError]. *)
Theorem unallocated_id_never_resolves ops (v : Z) :
  let self := run ops (init (K:=K)) in
  let n := Z.of_nat (length (allocated ops (init (K:=K)))) in
  _next_id self = 1 + n
  /\ (v < 1 \/ n < v -> to_pydevd v self = (Raise KeyError, self)).
Proof.
  intros self n.
  assert (_next_id self = 1 + n) as Hn by apply (run_next_id ops init).
  split; [done|]. intros Hv. apply to_pydevd_None.
  destruct (run_ids ops init) as [[_ H1] Hlt].
  { split; [simpl; lia|]. intros v' k. simpl. by rewrite lookup_empty. }
  { apply init_ids_below_next. }
  fold self in H1, Hlt.
  destruct (_vscode_to_pydevd self !! v) as [k|] eqn:E; [|done].
  pose proof (H1 _ _ E). pose proof (Hlt _ _ E). lia.
Qed.

(** X7.  With inverse dictionaries the three listings agree: [pydevd_ids] are
    the keys of [pairs], [vscode_ids] are its IDs in some order, no key and
    no ID is listed twice, and a pair is listed exactly when both lookups
    give it. *)
Theorem listings_agree self :
  mutual_inverse self ->
  pydevd_ids self = (pairs self).*1
  /\ vscode_ids self ≡ₚ (pairs self).*2
  /\ NoDup (pydevd_ids self)
  /\ NoDup (vscode_ids self)
  /\ forall k v,
       (k, v) ∈ pairs self <->
       to_pydevd v self = (Ok k, self) /\ to_vscode k false self = (Ok v, self).
Proof.
  intros Hinv. split; [done|].
  assert (NoDup (pairs self).*2) as Hnd2.
  { unfold pairs. apply NoDup_fmap_2_strong; [|apply NoDup_map_to_list].
    intros [k1 v1] [k2 v2] H1%elem_of_map_to_list H2%elem_of_map_to_list.
    simpl. intros <-. apply Hinv in H1, H2. congruence. }
  split; [|split; [apply NoDup_fst_map_to_list|split;
                    [apply NoDup_fst_map_to_list|]]].
  - apply NoDup_Permutation; [apply NoDup_fst_map_to_list|done|].
    intros v. unfold vscode_ids, pairs. rewrite !list_elem_of_fmap. split.
    + intros ([v' k] & -> & Hin%elem_of_map_to_list). simpl.
      exists (k, v'). split; [done|]. apply elem_of_map_to_list. by apply Hinv.
    + intros ([k v'] & -> & Hin%elem_of_map_to_list). simpl.
      exists (v', k). split; [done|]. apply elem_of_map_to_list. by apply Hinv.
  - intros k v. unfold pairs. rewrite elem_of_map_to_list. split.
    + intros Hk. split; [apply to_pydevd_Some; by apply Hinv|].
      by apply to_vscode_hit.
    + intros [Hv%to_pydevd_Ok_inv _]. by apply Hinv.
Qed.

End IDMapMoreFacts.

(** ** PydevdSocket: sequence numbers and pending requests *)

Section SocketSessionFacts.
Context {Loop Future : Type}.
Variable decode : string -> string.
Import PydevdSocket SocketSession.
Implicit Types (self : PydevdSocket.t Loop Future)
  (ops : list (SocketSession.op Loop Future)).

Lemma pydevd_notify_state cmd_id args self :
  pydevd_notify cmd_id args self =
    (Ok tt, PydevdSocket.mk (seq self + 1) (requests self)
              (effects self ++ [PipeWrite (packet cmd_id (seq self) args)])).
Proof. reflexivity. Qed.

Lemma pydevd_request_state loop fut cmd_id args self :
  pydevd_request loop fut cmd_id args self =
    (Ok fut,
     PydevdSocket.mk (seq self + 1)
       (<[seq self := (loop, fut)]> (requests self))
       (effects self ++ [PipeWrite (packet cmd_id (seq self) args)])).
Proof. reflexivity. Qed.

(** [send] changes neither the counter nor adds a pending request. *)
Lemma send_state data self :
  seq (send decode data self).2 = seq self
  /\ forall n x, requests (send decode data self).2 !! n = Some x ->
                 requests self !! n = Some x.
Proof.
  unfold send. destruct (Str.split_max 2 Str.tab (decode data))
    as [|c [|q [|args [|]]]]; try done.
  unfold bind, int_or_ValueError, pop_request, emit, modify, ret, raise.
  destruct (Str.int c); [|done]. simpl.
  destruct (Str.int q) as [n|]; [|done]. simpl.
  destruct (requests self !! n) as [[loop fut]|] eqn:Hn; simpl;
    (split; [done|]); intros n' x [_ E]%lookup_delete_Some; done.
Qed.

Lemma exec_pending_below_seq o self :
  pending_below_seq self -> pending_below_seq (exec decode o self).
Proof.
  intros Hp. destruct o as [c a | loop fut c a | data]; cbn [exec].
  - rewrite pydevd_notify_state. intros n x. simpl. intros E%Hp. lia.
  - rewrite pydevd_request_state. intros n x. simpl.
    intros [[<- _]|[_ E%Hp]]%lookup_insert_Some; lia.
  - destruct (send_state data self) as [Hs Hr]. intros n x E%Hr%Hp.
    by rewrite Hs.
Qed.

(** [send] writes nothing to the pipe. *)
Lemma send_written data self :
  written (send decode data self).2 = written self.
Proof.
  unfold send. destruct (Str.split_max 2 Str.tab (decode data))
    as [|c [|q [|args [|]]]]; try done.
  unfold bind, int_or_ValueError, pop_request, emit, modify, ret, raise.
  destruct (Str.int c); [|done]. simpl.
  destruct (Str.int q) as [n|]; [|done]. simpl.
  destruct (requests self !! n) as [[loop fut]|] eqn:Hn; simpl;
    unfold written; cbn [effects]; rewrite omap_app; cbn;
    by rewrite app_nil_r.
Qed.

(** The packets a session writes carry the numbers from the counter on, one
    after the other, in the order of the calls. *)
Lemma written_run ops : forall self,
  written (run decode ops self)
  = (written self
     ++ zip_with (fun k ca => packet ca.1 k ca.2)
          (seqZ (seq self) (Z.of_nat (length (asked ops)))) (asked ops))%list
  /\ seq (run decode ops self) = seq self + Z.of_nat (length (asked ops)).
Proof.
  assert (forall self p,
    written (PydevdSocket.mk (seq self + 1) (requests self)
               (effects self ++ [PipeWrite p]))
    = (written self ++ [p])%list) as Hn.
  { intros self p. unfold written. cbn [effects]. by rewrite omap_app. }
  assert (forall self rq p,
    written (PydevdSocket.mk (seq self + 1) rq
               (effects self ++ [PipeWrite p]))
    = (written self ++ [p])%list) as Hq.
  { intros self rq p. unfold written. cbn [effects]. by rewrite omap_app. }
  assert (forall (c : Z) (a : string) l,
    Z.of_nat (length ((c, a) :: l)) = 1 + Z.of_nat (length l)) as Hl.
  { intros c a l. cbn [length]. lia. }
  induction ops as [|o ops IH]; intros self.
  - cbn. rewrite app_nil_r. split; [done|lia].
  - change (run decode (o :: ops) self)
      with (run decode ops (exec decode o self)).
    destruct (IH (exec decode o self)) as [IHw IHs]. rewrite IHw, IHs.
    destruct o as [c a | loop fut c a | data].
    + change (asked (Notify c a :: ops)) with ((c, a) :: asked ops).
      cbn [exec]. rewrite pydevd_notify_state. cbn [snd seq]. rewrite Hq, Hl.
      rewrite (seqZ_cons (seq self)) by lia.
      replace (Z.pred (1 + Z.of_nat (length (asked ops))))
        with (Z.of_nat (length (asked ops))) by lia.
      replace (Z.succ (seq self)) with (seq self + 1) by lia.
      cbn [zip_with fst snd]. rewrite <- app_assoc. cbn [app].
      split; [reflexivity|lia].
    + change (asked (Request loop fut c a :: ops)) with ((c, a) :: asked ops).
      cbn [exec]. rewrite pydevd_request_state. cbn [snd seq]. rewrite Hq, Hl.
      rewrite (seqZ_cons (seq self)) by lia.
      replace (Z.pred (1 + Z.of_nat (length (asked ops))))
        with (Z.of_nat (length (asked ops))) by lia.
      replace (Z.succ (seq self)) with (seq self + 1) by lia.
      cbn [zip_with fst snd]. rewrite <- app_assoc. cbn [app].
      split; [reflexivity|lia].
    + change (asked (Send data :: ops)) with (asked ops).
      cbn [exec]. rewrite send_written.
      destruct (send_state data self) as [-> _].
      split; [reflexivity|lia].
Qed.

Lemma run_pending_below_seq ops : forall self,
  pending_below_seq self -> pending_below_seq (run decode ops self).
Proof.
  induction ops as [|o ops IH]; intros self Hp; [done|].
  apply (IH (exec decode o self)). by apply exec_pending_below_seq.
Qed.

(** X8.  In every session on a fresh socket the packets written to pydevd
    are those of the notify and request calls in the order of the calls,
    and the sequence numbers in them are 1000000000, 1000000001, ...: the
    packet of the i-th such call carries 1000000000 + i, so no number is
    used twice.  Every pending request sits under a number already handed
    out; a request made next writes a packet with the number of the counter
    and is filed under that same number, which replaces no pending
    request. *)
Theorem sequence_numbers_never_reused ops :
  let self := run decode ops (init (Loop:=Loop) (Future:=Future)) in
  let n := Z.of_nat (length (asked ops)) in
  written self
  = zip_with (fun k ca => packet ca.1 k ca.2) (seqZ 1000000000 n) (asked ops)
  /\ (forall (i : nat) cmd_id args,
        asked ops !! i = Some (cmd_id, args) ->
        written self !! i
        = Some (packet cmd_id (1000000000 + Z.of_nat i) args))
  /\ seq self = 1000000000 + n
  /\ pending_below_seq self
  /\ requests self !! seq self = None
  /\ forall loop fut cmd_id args,
       let self' := (pydevd_request loop fut cmd_id args self).2 in
       written self'
       = (written self ++ [packet cmd_id (1000000000 + n) args])%list
       /\ requests self' !! (1000000000 + n) = Some (loop, fut)
       /\ forall k, k <> 1000000000 + n ->
            requests self' !! k = requests self !! k.
Proof.
  intros self n.
  assert (written self
          = zip_with (fun k ca => packet ca.1 k ca.2) (seqZ 1000000000 n)
              (asked ops)) as Hw
    by exact (proj1 (written_run ops init)).
  assert (seq self = 1000000000 + n) as Hs
    by exact (proj2 (written_run ops init)).
  assert (pending_below_seq self) as Hp.
  { apply run_pending_below_seq. intros k x. simpl. by rewrite lookup_empty. }
  split; [exact Hw|]. split; [|split; [exact Hs|split; [exact Hp|split]]].
  - intros i cmd_id args Hi. rewrite Hw.
    rewrite lookup_zip_with. rewrite Hi.
    rewrite (lookup_seqZ_lt 1000000000 n i).
    + reflexivity.
    + apply lookup_lt_Some in Hi. subst n. lia.
  - destruct (requests self !! seq self) as [x|] eqn:E; [|done].
    apply Hp in E. lia.
  - intros loop fut cmd_id args self'. subst self'.
    rewrite pydevd_request_state. cbn [snd]. rewrite Hs.
    split; [|split].
    + unfold written. cbn [effects]. by rewrite omap_app.
    + cbn [requests]. apply lookup_insert_eq.
    + intros k Hk. cbn [requests]. by rewrite lookup_insert_ne.
Qed.

(** X9.  A request and its reply: after [pydevd_request] has registered a future
    and written its packet, a frame from pydevd that carries the sequence
    number of that packet schedules [set_result] on that very future, with
    the frame's command id and payload, and the table of pending requests
    is as it was before the request. *)
Theorem request_then_reply_resolves_future self loop fut cmd_id args
    data c q payload reply_cmd :
  pending_below_seq self ->
  Str.split_max 2 Str.tab (decode data) = [c; q; payload] ->
  Str.int c = Some reply_cmd ->
  Str.int q = Some (seq self) ->
  send decode data (pydevd_request loop fut cmd_id args self).2
  = (Ok (Z.of_nat (String.length data)),
     PydevdSocket.mk (seq self + 1) (requests self)
       (effects self
        ++ [PipeWrite (packet cmd_id (seq self) args);
            CallSoonThreadsafe loop fut (reply_cmd, seq self, payload)])).
Proof.
  intros Hp Hsplit Hc Hq. rewrite pydevd_request_state. cbn [snd].
  rewrite (send_pending decode _ data c q payload reply_cmd (seq self) loop fut
             Hsplit Hc Hq) by (simpl; apply lookup_insert_eq).
  simpl. f_equal. f_equal; [|by rewrite <- app_assoc].
  apply delete_insert_id.
  destruct (requests self !! seq self) as [x|] eqn:E; [|done].
  apply Hp in E. lia.
Qed.

End SocketSessionFacts.

(** ** PydevdSocket.close *)

Section SocketPipeFacts.
Import SocketPipe.
Variable os_close : Z -> option Z.
Variable EBADF : Z.
Variable os_read : Z -> Z -> string.
Implicit Types (self : SocketPipe.t).

Lemma close_quietly_None fd :
  (forall errno, os_close fd = Some errno -> errno = EBADF) ->
  close_quietly os_close EBADF fd = None.
Proof.
  intros Hbad. unfold close_quietly.
  destruct (os_close fd) as [e|] eqn:E; [|done].
  rewrite (Hbad e eq_refl). by rewrite Z.eqb_refl.
Qed.

(** X10.  When [os.close] fails at most with [EBADF], [close] on a socket
    that is not being closed returns, leaves both ends of the pipe unset
    and the socket closed, hands each open descriptor to [os.close] once,
    write end first, and calls [_handle_close] exactly once unless the
    socket was already closed; every further [close] changes nothing, and
    [recv] returns the empty string. *)
Theorem close_is_idempotent self (n : nat) (count : Z) :
  (forall fd errno, os_close fd = Some errno -> errno = EBADF) ->
  _closing self = false ->
  (_closed self = true -> pipe_r self = None /\ pipe_w self = None) ->
  let self' := (close os_close EBADF self).2 in
  (close os_close EBADF self).1 = Returned
  /\ pipe_r self' = None /\ pipe_w self' = None
  /\ _closed self' = true /\ _closing self' = false
  /\ os_closed self'
     = (os_closed self ++ from_option (fun w => [w]) [] (pipe_w self)
        ++ from_option (fun r => [r]) [] (pipe_r self))%list
  /\ handle_close_calls self'
     = (handle_close_calls self + if _closed self then 0 else 1)%nat
  /\ close_times os_close EBADF n self' = (replicate n Returned, self')
  /\ recv os_read count self' = "".
Proof.
  intros Hbad Hclosing Hclosed self'.
  assert (close os_close EBADF self' = (Returned, self')
          /\ (close os_close EBADF self).1 = Returned
          /\ pipe_r self' = None /\ pipe_w self' = None
          /\ _closed self' = true /\ _closing self' = false
          /\ os_closed self'
             = (os_closed self ++ from_option (fun w => [w]) [] (pipe_w self)
                ++ from_option (fun r => [r]) [] (pipe_r self))%list
          /\ handle_close_calls self'
             = (handle_close_calls self + if _closed self then 0 else 1)%nat)
    as (Hagain & H1 & H2 & H3 & H4 & H5 & H6 & H7).
  { subst self'. unfold close. rewrite Hclosing.
    destruct (_closed self) eqn:Hc.
    - destruct (Hclosed eq_refl) as [Hr Hw]. simpl.
      rewrite Hclosing, Hc, Hr, Hw. simpl. rewrite app_nil_r.
      repeat split; lia.
    - destruct (pipe_w self) as [w|], (pipe_r self) as [r|]; simpl;
        rewrite ?close_quietly_None by (intros ?; apply Hbad); simpl;
        rewrite <- ?app_assoc, ?app_nil_r; repeat split; lia. }
  repeat split; try done.
  - induction n as [|n IH]; [done|]. simpl. by rewrite Hagain, IH.
  - unfold recv. by rewrite H2.
Qed.

(** X11.  When [os.close] of the write end fails with another error than
    [EBADF], [close] lets the [OSError] through before [_handle_close] is
    called and with the closing flag still set; from then on every [close]
    returns at once, so [_handle_close] is never called and the socket is
    never marked closed. *)
Theorem close_error_blocks_later_close self w errno (n : nat) :
  _closing self = false -> _closed self = false ->
  pipe_w self = Some w ->
  os_close w = Some errno -> errno <> EBADF ->
  let self' := (close os_close EBADF self).2 in
  (close os_close EBADF self).1 = OSError errno
  /\ close_times os_close EBADF n self' = (replicate n Returned, self')
  /\ handle_close_calls self' = handle_close_calls self
  /\ _closed self' = false
  /\ pipe_r self' = pipe_r self.
Proof.
  intros Hclosing Hclosed Hw Hos Hne self'.
  assert (close_quietly os_close EBADF w = Some errno) as Hq.
  { unfold close_quietly. rewrite Hos.
    by rewrite (proj2 (Z.eqb_neq _ _) Hne). }
  assert (close os_close EBADF self
          = (OSError errno,
             SocketPipe.mk (pipe_r self) None false true
               (os_closed self ++ [w]) (handle_close_calls self))) as Hc.
  { unfold close. rewrite Hclosing, Hclosed. simpl. rewrite Hw, Hq. done. }
  subst self'. rewrite Hc. simpl. repeat split; try done.
  induction n as [|n IH]; [done|]. simpl. by rewrite IH.
Qed.

End SocketPipeFacts.

(** ** ExceptionsManager *)

Section ExceptionsManagerFacts.
Import ExceptionsManager.
Local Open Scope string_scope.
Implicit Types (self : ExceptionsManager.t).

Lemma prefix_refl (s : string) : String.prefix s s = true.
Proof.
  induction s as [|a s IH]; simpl; [done|]. by destruct (ascii_dec a a).
Qed.

Lemma contains_refl (s : string) : contains s s = true.
Proof. destruct s; cbn [contains]; by rewrite prefix_refl. Qed.

Lemma find_none_iff {A} (f : A -> bool) (l : list A) :
  List.find f l = None <-> forall x, x ∈ l -> f x = false.
Proof.
  induction l as [|y l IH]; simpl.
  - split; [|done]. intros _ x Hx. by apply elem_of_nil in Hx.
  - destruct (f y) eqn:Hy.
    + split; [done|]. intros Hall. rewrite (Hall y) in Hy; [done|by left].
    + rewrite IH. split.
      * intros Hall x [->|Hx]%elem_of_cons; [done|by apply Hall].
      * intros Hall x Hx. apply Hall. by right.
Qed.

Lemma find_some_elem {A} (f : A -> bool) (l : list A) x :
  List.find f l = Some x -> x ∈ l /\ f x = true.
Proof.
  induction l as [|y l IH]; simpl; [done|].
  destruct (f y) eqn:Hy.
  - intros [= ->]. split; [by left|done].
  - intros Hx. destruct (IH Hx). split; [by right|done].
Qed.

Lemma elem_of_keys self e :
  e ∈ (map_to_list (exceptions self)).*1 <-> is_Some (exceptions self !! e).
Proof.
  rewrite list_elem_of_fmap. split.
  - intros ([e' m] & -> & Hin%elem_of_map_to_list). by exists m.
  - intros [m Hm]. exists (e, m). split; [done|]. by apply elem_of_map_to_list.
Qed.

Lemma get_break_mode_registered (name mode : string) self :
  exceptions self !! name = Some mode -> get_break_mode name self = mode.
Proof.
  intros Hname. unfold get_break_mode, _find_exception.
  rewrite bool_decide_eq_true_2 by (by eexists). by rewrite Hname.
Qed.

(** X12.  The break mode of a name: the mode registered for the name itself if
    there is one; otherwise the mode of some registered name contained in
    it; otherwise, when no registered name is contained in it, the mode of
    [BaseException], or [unhandled] when that is not registered either. *)
Theorem get_break_mode_lookup (name : string) self :
  match exceptions self !! name with
  | Some mode => get_break_mode name self = mode
  | None =>
      (exists e mode,
         exceptions self !! e = Some mode /\ contains e name = true
         /\ get_break_mode name self = mode)
      \/ ((forall e, is_Some (exceptions self !! e) -> contains e name = false)
          /\ get_break_mode name self
             = default "unhandled" (exceptions self !! "BaseException"))
  end.
Proof.
  unfold get_break_mode, _find_exception.
  destruct (exceptions self !! name) as [mode|] eqn:Hname.
  - rewrite bool_decide_eq_true_2 by (by eexists). by rewrite Hname.
  - rewrite bool_decide_eq_false_2 by (by intros [? ?]).
    destruct (List.find _ _) as [e|] eqn:Hfind.
    + left. apply find_some_elem in Hfind as [Hin Hc].
      apply elem_of_keys in Hin as [mode Hmode].
      exists e, mode. by rewrite Hmode.
    + right. split.
      * intros e He. apply (proj1 (find_none_iff _ _) Hfind).
        by apply elem_of_keys.
      * by destruct (exceptions self !! "BaseException").
Qed.

(** X13.  [add_exception_break] sends one add command and registers the mode:
    [always] when breaking on raise, else [unhandled] when breaking on
    uncaught, else [never]; the name then has that break mode, and the
    other registrations are as before. *)
Theorem add_exception_break_then_get (exception : string) (r u : bool) self :
  let self' := (add_exception_break exception r u self).2 in
  (add_exception_break exception r u self).1 = Ok tt
  /\ get_break_mode exception self' = break_mode_of r u
  /\ notified self'
     = (notified self
        ++ [(CMD_ADD_EXCEPTION_BREAK,
             Str.join Str.TAB
               ["python-" +:+ exception; if r then "3" else "0";
                if u then "1" else "0"; "0"])])%list
  /\ forall e, e <> exception ->
       exceptions self' !! e = exceptions self !! e.
Proof.
  intros self'. split; [done|]. split; [|split].
  - apply get_break_mode_registered. apply lookup_insert_eq.
  - subst self'. unfold add_exception_break, bind, pydevd_notify, modify.
    cbn [snd notified]. do 3 f_equal.
    destruct r, u; reflexivity.
  - intros e Hne. subst self'. cbn. by rewrite lookup_insert_ne.
Qed.

Lemma for_each_notify_remove (l : list string) : forall self,
  for_each l (fun exception =>
                pydevd_notify CMD_REMOVE_EXCEPTION_BREAK ("python-" +:+ exception))
           self
  = (Ok tt,
     ExceptionsManager.mk (exceptions self)
       (notified self
        ++ map (fun e => (CMD_REMOVE_EXCEPTION_BREAK, "python-" +:+ e)) l)).
Proof.
  induction l as [|e l IH]; intros self.
  - simpl. unfold ret. rewrite app_nil_r. by destruct self.
  - cbn [for_each]. unfold bind at 1. unfold pydevd_notify at 1, modify.
    rewrite IH. cbn. by rewrite <- app_assoc.
Qed.

Lemma remove_all_exception_breaks_state self :
  remove_all_exception_breaks self
  = (Ok tt,
     ExceptionsManager.mk ∅
       (notified self
        ++ map (fun e => (CMD_REMOVE_EXCEPTION_BREAK, "python-" +:+ e))
               (map_to_list (exceptions self)).*1)).
Proof.
  unfold remove_all_exception_breaks.
  rewrite (bind_Ok _ _ self self self) by reflexivity.
  by rewrite (bind_Ok _ _ _ _ _ (for_each_notify_remove _ self)).
Qed.

(** With [BaseException] the only registered name, every name has its
    mode. *)
Lemma get_break_mode_only_BaseException (mode name : string) n :
  get_break_mode name
    (ExceptionsManager.mk {[ "BaseException" := mode ]} n) = mode.
Proof.
  unfold get_break_mode, _find_exception. cbn [exceptions].
  case_bool_decide as Hname.
  - destruct Hname as [m Hm].
    apply lookup_singleton_Some in Hm as [<- <-].
    by rewrite lookup_singleton_eq.
  - rewrite map_to_list_singleton. cbn [fmap list_fmap fst List.find].
    destruct (contains "BaseException" name);
      by rewrite lookup_singleton_eq.
Qed.

(** X14.  [remove_all_exception_breaks] sends one remove command for every
    registered exception and forgets all of them; afterwards every name has
    the break mode [unhandled]. *)
Theorem remove_all_exception_breaks_clears self (name : string) :
  let self' := (remove_all_exception_breaks self).2 in
  (remove_all_exception_breaks self).1 = Ok tt
  /\ exceptions self' = ∅
  /\ (exists removes,
        notified self' = (notified self ++ removes)%list
        /\ forall msg,
             msg ∈ removes <->
             exists e, is_Some (exceptions self !! e)
                       /\ msg = (CMD_REMOVE_EXCEPTION_BREAK, "python-" +:+ e))
  /\ length (notified self')
     = (length (notified self) + size (exceptions self))%nat
  /\ get_break_mode name self' = "unhandled".
Proof.
  intros self'.
  subst self'. rewrite remove_all_exception_breaks_state. cbn [fst snd exceptions notified].
  split; [done|]. split; [done|]. split; [|split].
  - eexists. split; [done|]. intros msg. rewrite list_elem_of_fmap. split.
    + intros (e & -> & He%elem_of_keys). by exists e.
    + intros (e & He%elem_of_keys & ->). by exists e.
  - rewrite length_app, length_map, length_fmap.
    by rewrite length_map_to_list.
  - unfold get_break_mode. cbn. by rewrite lookup_empty.
Qed.

Lemma add_exception_break_only_appends (e : string) (r u : bool) :
  only_appends (add_exception_break e r u).
Proof. intros ex n. reflexivity. Qed.

Lemma for_each_only_appends {A} (body : A -> M t unit) (l : list A) :
  (forall x, only_appends (body x)) -> only_appends (for_each l body).
Proof.
  intros Hbody. induction l as [|x l IH]; intros ex n.
  - simpl. unfold ret. simpl. by rewrite app_nil_r.
  - pose proof (Hbody x ex n) as Hn. pose proof (Hbody x ex nil) as H0.
    remember (body x (ExceptionsManager.mk ex nil)).2 as s1 eqn:E in *.
    clear E. cbn [for_each]. unfold bind. rewrite Hn, H0.
    rewrite (IH (exceptions s1) (n ++ notified s1)%list).
    rewrite (IH (exceptions s1) (nil ++ notified s1)%list).
    cbn [fst snd exceptions notified app].
    by rewrite <- !app_assoc.
Qed.

Lemma apply_one_option_only_appends (opt : exception_option) :
  only_appends (apply_one_option opt).
Proof.
  unfold apply_one_option. destruct (path opt) as [|first rest].
  - intros ex n. unfold ret. simpl. by rewrite app_nil_r.
  - destruct rest as [|second rest].
    + case_bool_decide.
      * apply add_exception_break_only_appends.
      * apply for_each_only_appends. intros x.
        apply add_exception_break_only_appends.
    + apply for_each_only_appends. intros x.
      apply add_exception_break_only_appends.
Qed.

Lemma for_each_add_names (l : list string) (r u : bool) : forall self e,
  is_Some (exceptions (for_each l (fun e => add_exception_break e r u) self).2
           !! e) ->
  is_Some (exceptions self !! e) \/ e ∈ l.
Proof.
  induction l as [|x l IH]; intros self e; [by left|].
  cbn [for_each]. unfold bind.
  change (add_exception_break x r u self)
    with (Ok tt, ExceptionsManager.mk
                   (<[x := break_mode_of r u]> (exceptions self))
                   (notified self
                    ++ [(CMD_ADD_EXCEPTION_BREAK,
                         "python-" +:+ x +:+ Str.TAB
                         +:+ Str.of_Z (if r then 3 else 0) +:+ Str.TAB
                         +:+ Str.of_Z (if u then 1 else 0) +:+ Str.TAB
                         +:+ Str.of_Z 0)])).
  intros [Hs|Hin]%IH; [|right; by right]. cbn in Hs.
  destruct (decide (e = x)) as [->|Hne]; [right; by left|].
  left. by rewrite lookup_insert_ne in Hs.
Qed.

Lemma apply_one_option_names (opt : exception_option) self e :
  is_Some (exceptions (apply_one_option opt self).2 !! e) ->
  is_Some (exceptions self !! e) \/ e = "BaseException"
  \/ exists seg, seg ∈ path opt /\ e ∈ names seg.
Proof.
  unfold apply_one_option. destruct (path opt) as [|first rest]; [by left|].
  assert (forall l : list path_segment,
            is_Some (exceptions
                       (for_each (concat (map names l))
                          (fun n => add_exception_break n
                             (String.eqb (breakMode opt) "always")
                             (String.eqb (breakMode opt) "unhandled"
                              || String.eqb (breakMode opt) "userUnhandled"))
                          self).2 !! e) ->
            is_Some (exceptions self !! e)
            \/ exists seg, seg ∈ l /\ e ∈ names seg) as Hloop.
  { intros l [Hs|Hin]%for_each_add_names; [by left|]. right.
    apply list_elem_of_In, in_concat in Hin as (ns & Hns & He).
    apply in_map_iff in Hns as (seg & <- & Hseg).
    exists seg. split; by apply list_elem_of_In. }
  destruct rest as [|second rest].
  - case_bool_decide.
    + cbn. intros Hs.
      destruct (decide (e = "BaseException")) as [->|Hne]; [right; by left|].
      left. by rewrite lookup_insert_ne in Hs.
    + intros [Hs|(seg & Hseg & He)]%Hloop; [by left|]. by apply elem_of_nil in Hseg.
  - intros [Hs|(seg & Hseg & He)]%Hloop; [by left|].
    right. right. exists seg. split; [by right|done].
Qed.

Lemma for_each_apply_names (opts : list exception_option) : forall self e,
  is_Some (exceptions (for_each opts apply_one_option self).2 !! e) ->
  is_Some (exceptions self !! e) \/ e = "BaseException"
  \/ exists opt seg, opt ∈ opts /\ seg ∈ path opt /\ e ∈ names seg.
Proof.
  induction opts as [|opt opts IH]; intros self e; [by left|].
  cbn [for_each]. unfold bind.
  pose proof (apply_one_option_only_appends opt (exceptions self) (notified self))
    as Hone.
  replace (ExceptionsManager.mk (exceptions self) (notified self)) with self
    in Hone by (by destruct self).
  rewrite Hone.
  intros [Hs|[->|(o & seg & Ho & Hseg & He)]]%IH.
  - cbn [exceptions] in Hs.
    assert (exceptions (apply_one_option opt
                          (ExceptionsManager.mk (exceptions self) [])).2
            = exceptions (apply_one_option opt self).2) as Heq.
    { by rewrite Hone. }
    rewrite Heq in Hs.
    apply apply_one_option_names in Hs as [?|[->|(seg & Hseg & He)]];
      [by left|right; by left|].
    right. right. exists opt, seg. split; [by left|done].
  - right. by left.
  - right. right. exists o, seg. split; [by right|done].
Qed.

(** X15.  [apply_exception_options] starts from nothing: whatever was registered
    before is removed, and the commands sent for that are exactly the
    [CMD_REMOVE_EXCEPTION_BREAK] messages [python-<name>] of the names that
    were registered, one each and no other; what is registered afterwards
    and the add commands sent depend on the options alone.  Every registered
    name is [BaseException] or one of the names of the options. *)
Theorem apply_exception_options_rebuilds (opts : list exception_option) self :
  let fresh := (apply_exception_options opts init).2 in
  let removes :=
    map (fun e => (CMD_REMOVE_EXCEPTION_BREAK, "python-" +:+ e))
        (map_to_list (exceptions self)).*1 in
  apply_exception_options opts self
  = (Ok tt,
     ExceptionsManager.mk (exceptions fresh)
       (notified self ++ removes ++ notified fresh))
  /\ length removes = size (exceptions self)
  /\ NoDup removes
  /\ (forall msg,
        msg ∈ removes
        <-> exists e, is_Some (exceptions self !! e)
                      /\ msg = (CMD_REMOVE_EXCEPTION_BREAK, "python-" +:+ e))
  /\ forall e,
       is_Some (exceptions fresh !! e) ->
       e = "BaseException"
       \/ exists opt seg, opt ∈ opts /\ seg ∈ path opt /\ e ∈ names seg.
Proof.
  intros fresh removes.
  pose proof (for_each_only_appends apply_one_option
                (List.filter _is_python_exception_category opts)
                apply_one_option_only_appends) as Hloop.
  set (loop := for_each (List.filter _is_python_exception_category opts)
                 apply_one_option) in *.
  assert (forall s0 : ExceptionsManager.t,
            apply_exception_options opts s0
            = loop (ExceptionsManager.mk ∅
                      (notified s0
                       ++ map (fun e => (CMD_REMOVE_EXCEPTION_BREAK,
                                         "python-" +:+ e))
                              (map_to_list (exceptions s0)).*1))) as Happly.
  { intros s0. unfold apply_exception_options.
    by rewrite (bind_Ok _ _ _ _ _ (remove_all_exception_breaks_state s0)). }
  assert (fresh = (loop (ExceptionsManager.mk ∅ [])).2) as Hfresh.
  { subst fresh. rewrite Happly. simpl. by rewrite map_to_list_empty. }
  split; [|split; [|split; [|split]]].
  - rewrite Happly, Hloop, <- Hfresh. subst removes. by rewrite <- app_assoc.
  - subst removes. by rewrite length_map, length_fmap, length_map_to_list.
  - subst removes. apply (NoDup_fmap_2 _).
    apply NoDup_fst_map_to_list.
  - intros msg. subst removes. split.
    + intros (e & -> & He)%list_elem_of_fmap.
      apply list_elem_of_fmap in He as ([e' m] & -> & Hm).
      apply elem_of_map_to_list in Hm. exists e'. split; [|done].
      by exists m.
    + intros (e & [m Hm] & ->).
      apply list_elem_of_fmap. exists e. split; [done|].
      apply list_elem_of_fmap. exists (e, m). split; [done|].
      by apply elem_of_map_to_list.
  - intros e He. rewrite Hfresh in He.
    apply for_each_apply_names in He as [Hs|[->|(o & seg & Ho & Hr)]].
    + cbn in Hs. rewrite lookup_empty in Hs. by destruct Hs.
    + by left.
    + right. exists o, seg. split; [|done].
      apply list_elem_of_In. apply list_elem_of_In in Ho.
      by apply List.filter_In in Ho as [? _].
Qed.

End ExceptionsManagerFacts.

(** ** Debug options *)

Section DebugOptionsFacts.
Import DebugOptions.
Local Open Scope string_scope.
Variable unquote : string -> string.
Variable is_windows : bool.

Lemma split_no_sep (sep : ascii) (x : string) :
  no_char sep x = true -> Str.split sep x = [x].
Proof.
  induction x as [|c x IH]; [done|]. cbn [no_char Str.split].
  intros [Hc Hx]%andb_prop. apply negb_true_iff in Hc. rewrite Hc.
  by rewrite (IH Hx).
Qed.

Lemma split_app_sep (sep : ascii) (x rest : string) :
  no_char sep x = true ->
  Str.split sep (x ++ String sep rest) = x :: Str.split sep rest.
Proof.
  induction x as [|c x IH].
  - intros _. change ("" ++ String sep rest) with (String sep rest).
    cbn [Str.split]. by rewrite Ascii.eqb_refl.
  - cbn [no_char]. intros [Hc Hx]%andb_prop. apply negb_true_iff in Hc.
    change (String c x ++ String sep rest)
      with (String c (x ++ String sep rest)).
    cbn [Str.split]. rewrite Hc. by rewrite (IH Hx).
Qed.

Lemma split_join (sep : ascii) (l : list string) :
  Forall (fun x => no_char sep x = true) l -> l <> [] ->
  Str.split sep (Str.join (String sep "") l) = l.
Proof.
  induction 1 as [|x l Hx Hl IH]; [done|]. intros _.
  destruct l as [|y l].
  - cbn [Str.join]. by apply split_no_sep.
  - change (Str.join (String sep "") (x :: y :: l))
      with (x ++ String sep (Str.join (String sep "") (y :: l))).
    rewrite (split_app_sep _ _ _ Hx). by rewrite IH.
Qed.

Lemma append_inj_l (a b s : string) : a ++ s = b ++ s -> a = b.
Proof.
  assert (forall a s, String.length (a ++ s)
                      = (String.length a + String.length s)%nat) as Hlen.
  { intros a'. induction a' as [|c a' IH]; intros s'; [done|].
    change (String c a' ++ s') with (String c (a' ++ s')).
    cbn [String.length]. by rewrite IH. }
  revert b. induction a as [|c a IH]; intros [|d b] Heq; [done| | |].
  - apply (f_equal String.length) in Heq. rewrite !Hlen in Heq.
    cbn [String.length] in Heq. lia.
  - apply (f_equal String.length) in Heq. rewrite !Hlen in Heq.
    cbn [String.length] in Heq. lia.
  - change (String c (a ++ s) = String d (b ++ s)) in Heq.
    injection Heq as -> Heq. by rewrite (IH _ Heq).
Qed.

Lemma mapping_values (name v : string) :
  literal_get debug_option_mapping name = Some v ->
  (name <> "DebugStdLib" /\ v ∈ known_values)
  \/ (name = "DebugStdLib" /\ v = "DEBUG_STD_LIB=True").
Proof.
  unfold debug_option_mapping. cbn [literal_get].
  repeat match goal with
         | |- context [String.eqb name ?s] =>
             destruct (String.eqb_spec name s) as [->|?];
             [intros [= <-];
              first [left; split; [done|unfold known_values; set_solver]
                    | by right]|]
         end.
  done.
Qed.

Lemma known_value_parses (v : string) :
  v ∈ known_values ->
  no_char ";" v = true
  /\ (forall key, v = key ++ "=True" -> key = key_of v)
  /\ forall options,
       parse_one unquote v options
       = (Ok tt, <[key_of v := Flag true]> options).
Proof.
  unfold known_values. intros Hv.
  repeat (apply elem_of_cons in Hv as [->|Hv];
          [split; [reflexivity|split;
             [intros key Hk; by apply (append_inj_l _ _ "=True")
             |intros options; reflexivity]]|]).
  by apply elem_of_nil in Hv.
Qed.

Lemma std_lib_value_fails options :
  parse_one unquote "DEBUG_STD_LIB=True" options = (Raise KeyError, options).
Proof. reflexivity. Qed.

Lemma omap_values (opts : list string) (v : string) :
  v ∈ omap (literal_get debug_option_mapping) opts <->
  exists name, name ∈ opts /\ literal_get debug_option_mapping name = Some v.
Proof. apply list_elem_of_omap. Qed.

Lemma parse_loop_known (l : list string) :
  Forall (fun v => v ∈ known_values) l ->
  forall options,
    for_each l (parse_one unquote) options
    = (Ok tt, foldl (fun o v => <[key_of v := Flag true]> o) options l).
Proof.
  induction 1 as [|v l Hv Hl IH]; intros options; [done|].
  cbn [for_each foldl]. unfold bind.
  destruct (known_value_parses v Hv) as (_ & _ & ->). apply IH.
Qed.

Lemma flags_lookup_in (l : list string) :
  forall (options : gmap string option_value) v,
  v ∈ l ->
  foldl (fun o v => <[key_of v := Flag true]> o) options l !! key_of v
  = Some (Flag true).
Proof.
  induction l as [|w l IH] using rev_ind; intros options v Hv.
  - by apply elem_of_nil in Hv.
  - rewrite foldl_app. cbn [foldl].
    destruct (decide (key_of v = key_of w)) as [->|Hne].
    + by rewrite lookup_insert_eq.
    + rewrite lookup_insert_ne by done.
      apply elem_of_app in Hv as [Hv|Hv]; [by apply IH|].
      apply list_elem_of_singleton in Hv. by subst.
Qed.

Lemma flags_lookup_out (l : list string) :
  forall (options : gmap string option_value) key,
  (forall v, v ∈ l -> key_of v <> key) ->
  foldl (fun o v => <[key_of v := Flag true]> o) options l !! key
  = options !! key.
Proof.
  induction l as [|w l IH]; intros options key Hout; [done|].
  cbn [foldl]. rewrite IH by (intros v Hv; apply Hout; by right).
  apply lookup_insert_ne. apply Hout. by left.
Qed.

(** X16.  Every launch option other than [DebugStdLib] survives the round trip
    through the option string: [_parse_debug_options] accepts what
    [build_debug_options] built, each recognised option name sets its flag,
    no other flag is set, and [WINDOWS_CLIENT] falls back to the platform
    when the option is not given. *)
Theorem parse_build_debug_options (opts : list string) :
  "DebugStdLib" ∉ opts ->
  exists options,
    _parse_debug_options unquote is_windows (build_debug_options opts)
    = Ok options
    /\ (forall name key,
          name ∈ opts ->
          literal_get debug_option_mapping name = Some (key ++ "=True") ->
          options !! key = Some (Flag true))
    /\ (forall key,
          is_Some (options !! key) ->
          key = "WINDOWS_CLIENT"
          \/ exists name,
               name ∈ opts
               /\ literal_get debug_option_mapping name
                  = Some (key ++ "=True"))
    /\ options !! "WINDOWS_CLIENT"
       = Some (Flag (if bool_decide ("WindowsClient" ∈ opts) then true
                     else is_windows)).
Proof.
  intros Hstd.
  set (vals := omap (literal_get debug_option_mapping) opts).
  assert (Forall (fun v => v ∈ known_values) vals) as Hknown.
  { apply Forall_forall. intros v (name & Hname & Hv)%omap_values.
    apply mapping_values in Hv as [[_ Hv]|[-> _]]; done. }
  set (flags := foldl (fun o v => <[key_of v := Flag true]> o)
                  (∅ : gmap string option_value) vals).
  assert (for_each (Str.split ";" (build_debug_options opts))
            (parse_one unquote) ∅ = (Ok tt, flags)) as Hloop.
  { unfold build_debug_options. fold vals.
    destruct (decide (vals = [])) as [Hnil|Hne].
    - subst flags. rewrite Hnil. reflexivity.
    - rewrite split_join; [by apply parse_loop_known| |done].
      eapply Forall_impl; [exact Hknown|].
      intros v Hv. by destruct (known_value_parses v Hv) as (? & _). }
  assert (forall name key,
            name ∈ opts ->
            literal_get debug_option_mapping name = Some (key ++ "=True") ->
            flags !! key = Some (Flag true)) as Hin.
  { intros name key Hname Hget.
    assert (key ++ "=True" ∈ vals) as Hv by (apply omap_values; eauto).
    pose proof (proj1 (Forall_forall _ _) Hknown _ Hv) as Hk.
    destruct (known_value_parses _ Hk) as (_ & Hkey & _).
    rewrite (Hkey key eq_refl). by apply flags_lookup_in. }
  assert (forall key,
            is_Some (flags !! key) ->
            exists name,
              name ∈ opts
              /\ literal_get debug_option_mapping name
                 = Some (key ++ "=True")) as Hout.
  { intros key Hsome.
    destruct (decide (key ∈ map key_of vals)) as [Hk|Hk].
    - apply list_elem_of_fmap in Hk as (v & -> & Hv).
      pose proof (proj1 (Forall_forall _ _) Hknown _ Hv) as Hkn.
      apply omap_values in Hv as (name & Hname & Hget).
      exists name. split; [done|]. rewrite Hget. f_equal.
      clear -Hkn. unfold known_values in Hkn.
      repeat (apply elem_of_cons in Hkn as [->|Hkn]; [reflexivity|]).
      by apply elem_of_nil in Hkn.
    - subst flags. rewrite flags_lookup_out in Hsome.
      + rewrite lookup_empty in Hsome. by destruct Hsome.
      + intros v Hv Heq. apply Hk. apply list_elem_of_fmap. by exists v. }
  unfold _parse_debug_options, bind. rewrite Hloop. unfold modify.
  case_bool_decide as Hwin.
  - exists flags. split; [done|]. split; [exact Hin|]. split.
    + intros key Hsome. right. by apply Hout.
    + destruct (Hout _ Hwin) as (name & Hname & Hget).
      apply (Hin name "WINDOWS_CLIENT" Hname) in Hget as Hflag.
      rewrite Hflag. do 2 f_equal.
      assert (name = "WindowsClient") as ->.
      { clear -Hget. revert Hget. unfold debug_option_mapping.
        cbn [literal_get].
        repeat match goal with
               | |- context [String.eqb name ?s] =>
                   destruct (String.eqb_spec name s) as [->|?];
                   [first [done | by (intros Hget; cbv in Hget)]|]
               end.
        done. }
      by rewrite bool_decide_eq_true_2.
  - eexists. split; [done|]. split; [|split].
    + intros name key Hname Hget.
      destruct (decide (key = "WINDOWS_CLIENT")) as [->|Hne].
      * exfalso. apply Hwin. rewrite (Hin _ _ Hname Hget). by eexists.
      * rewrite lookup_insert_ne by done. by eapply Hin.
    + intros key Hsome.
      destruct (decide (key = "WINDOWS_CLIENT")) as [->|Hne]; [by left|].
      right. rewrite lookup_insert_ne in Hsome by done. by apply Hout.
    + rewrite lookup_insert_eq. do 2 f_equal.
      rewrite bool_decide_eq_false_2; [done|].
      intros Hname. apply Hwin.
      rewrite (Hin "WindowsClient" "WINDOWS_CLIENT" Hname eq_refl).
      by eexists.
Qed.

Lemma parse_loop_std_lib (l : list string) :
  Forall (fun v => v ∈ known_values \/ v = "DEBUG_STD_LIB=True") l ->
  "DEBUG_STD_LIB=True" ∈ l ->
  forall options,
    (for_each l (parse_one unquote) options).1 = Raise KeyError.
Proof.
  induction 1 as [|v l Hv Hl IH]; intros Hin options.
  - by apply elem_of_nil in Hin.
  - cbn [for_each]. unfold bind. destruct Hv as [Hv| ->].
    + destruct (known_value_parses v Hv) as (_ & _ & ->).
      apply IH. apply elem_of_cons in Hin as [<-|Hin]; [|done].
      exfalso. clear -Hv. unfold known_values in Hv.
      repeat (apply elem_of_cons in Hv as [Hv|Hv]; [done|]).
      by apply elem_of_nil in Hv.
    + by rewrite std_lib_value_fails.
Qed.

(** X17.  The launch option [DebugStdLib] cannot be parsed back:
    [build_debug_options] turns it into [DEBUG_STD_LIB=True], a key
    [DEBUG_OPTIONS_PARSER] does not have, so [_parse_debug_options] raises
    KeyError on the string built, whatever the other options are. *)
Theorem parse_build_DebugStdLib_raises (opts : list string) :
  "DebugStdLib" ∈ opts ->
  _parse_debug_options unquote is_windows (build_debug_options opts)
  = Raise KeyError.
Proof.
  intros Hstd.
  set (vals := omap (literal_get debug_option_mapping) opts).
  assert (Forall (fun v => v ∈ known_values \/ v = "DEBUG_STD_LIB=True") vals)
    as Hvals.
  { apply Forall_forall. intros v (name & Hname & Hv)%omap_values.
    apply mapping_values in Hv as [[_ Hv]|[_ ->]]; [by left|by right]. }
  assert ("DEBUG_STD_LIB=True" ∈ vals) as Hin.
  { apply omap_values. by exists "DebugStdLib". }
  assert (no_char ";" "DEBUG_STD_LIB=True" = true) as Hno by reflexivity.
  unfold _parse_debug_options, bind, build_debug_options. fold vals.
  rewrite split_join.
  - pose proof (parse_loop_std_lib vals Hvals Hin ∅) as Hr.
    destruct (for_each vals (parse_one unquote) ∅) as [r s]. cbn in Hr.
    by subst r.
  - eapply Forall_impl; [exact Hvals|]. intros v [Hv| ->]; [|done].
    by destruct (known_value_parses v Hv) as (? & _).
  - intros Hnil. rewrite Hnil in Hin. by apply elem_of_nil in Hin.
Qed.

End DebugOptionsFacts.

(** ** Stepping, thread exit and scopes *)

Section ProcessorHandlersFacts.
Import VSCodeMessageProcessor ProcessorHandlers.
Local Open Scope string_scope.
Variable unquote : string -> string.
Variable parse_xml_response : string -> res xml.

Lemma with_thread_map_to_pydevd s v :
  with_thread_map (IDMap.to_pydevd v) s
  = match IDMap._vscode_to_pydevd (thread_map s) !! v with
    | Some tid => (Ok tid, s)
    | None => (Raise KeyError, s)
    end.
Proof.
  unfold with_thread_map, zoom.
  destruct (IDMap._vscode_to_pydevd (thread_map s) !! v) as [tid|] eqn:Hv.
  - rewrite (to_pydevd_Some _ _ _ Hv). by destruct s.
  - rewrite (to_pydevd_None _ _ Hv). by destruct s.
Qed.

(** X18.  The stepping requests (continue, next, stepIn, stepOut): for a known
    thread the handler sends its command for the pydevd thread and then the
    response; for an unknown thread ID it raises KeyError and has sent
    nothing, neither a command nor a response. *)
Theorem stepping_known_or_KeyError :
  Forall (fun '(handler, cmd) =>
            forall req threadId s,
              handler req threadId s
              = match IDMap._vscode_to_pydevd (thread_map s) !! threadId with
                | Some tid =>
                    (Ok tt,
                     set_sent (sent s ++ [PydevdNotify cmd tid;
                                          Response req true None []]) s)
                | None => (Raise KeyError, s)
                end)
         stepping_handlers.
Proof.
  unfold stepping_handlers.
  repeat (apply Forall_cons; split); [..|by apply Forall_nil];
    intros req threadId s;
    unfold on_continue, on_next, on_stepIn, on_stepOut, bind;
    rewrite with_thread_map_to_pydevd;
    (destruct (IDMap._vscode_to_pydevd (thread_map s) !! threadId);
     [|done]);
    unfold pydevd_notify, send_response, send, modify; cbn;
    by rewrite <- app_assoc.
Qed.

Lemma with_thread_map_to_vscode s k :
  with_thread_map (IDMap.to_vscode k false) s
  = match IDMap._pydevd_to_vscode (thread_map s) !! k with
    | Some v => (Ok v, s)
    | None => (Raise KeyError, s)
    end.
Proof.
  unfold with_thread_map, zoom.
  destruct (IDMap._pydevd_to_vscode (thread_map s) !! k) as [v|] eqn:Hk.
  - rewrite (to_vscode_hit _ _ _ _ Hk). by destruct s.
  - rewrite (to_vscode_miss _ _ Hk). by destruct s.
Qed.

Lemma thread_kill_unknown seq args s :
  IDMap._pydevd_to_vscode (thread_map s) !! Str.strip args = None ->
  on_pydevd_thread_kill seq args s = (Ok tt, s).
Proof.
  intros Hk. unfold on_pydevd_thread_kill, bind, try_except.
  rewrite with_thread_map_to_vscode, Hk. reflexivity.
Qed.

(** X19.  A thread-kill event for a known thread removes the thread from the
    thread map in both directions and sends one [thread] event with reason
    [exited]; the stack traces, the active exceptions and the frame and
    variable maps are left as they are.  For an unknown thread, and hence
    for a second event for the same thread, the handler does nothing; the
    thread ID no longer resolves. *)
Theorem thread_kill_forgets_thread seq args s :
  IDMap.mutual_inverse (thread_map s) ->
  let pyd_tid := Str.strip args in
  match IDMap._pydevd_to_vscode (thread_map s) !! pyd_tid with
  | Some vsc_tid =>
      let s' :=
        set_sent
          (sent s ++ [Event "thread" [("reason", VStr "exited");
                                      ("threadId", VInt vsc_tid)]])
          (set_thread_map
             (IDMap.unregister pyd_tid vsc_tid (thread_map s)) s) in
      on_pydevd_thread_kill seq args s = (Ok tt, s')
      /\ on_pydevd_thread_kill seq args s' = (Ok tt, s')
      /\ with_thread_map (IDMap.to_pydevd vsc_tid) s' = (Raise KeyError, s')
      /\ with_thread_map (IDMap.to_vscode pyd_tid false) s'
         = (Raise KeyError, s')
  | None => on_pydevd_thread_kill seq args s = (Ok tt, s)
  end.
Proof.
  intros Hinv pyd_tid.
  destruct (IDMap._pydevd_to_vscode (thread_map s) !! pyd_tid)
    as [vsc_tid|] eqn:Hk; [|by apply thread_kill_unknown].
  intros s'.
  assert (IDMap._pydevd_to_vscode (thread_map s') !! pyd_tid = None) as Hk'.
  { subst s'. destruct s. cbn. apply lookup_delete_eq. }
  assert (IDMap._vscode_to_pydevd (thread_map s') !! vsc_tid = None) as Hv'.
  { subst s'. destruct s. cbn. apply lookup_delete_eq. }
  split; [|split; [|split]].
  - unfold on_pydevd_thread_kill, bind, try_except.
    rewrite with_thread_map_to_vscode. fold pyd_tid. rewrite Hk.
    unfold ret. unfold with_thread_map, zoom.
    rewrite (remove_registered_pair _ vsc_tid pyd_tid Hinv)
      by (by apply Hinv).
    subst s'. destruct s. reflexivity.
  - by apply thread_kill_unknown.
  - rewrite with_thread_map_to_pydevd. by rewrite Hv'.
  - rewrite with_thread_map_to_vscode. by rewrite Hk'.
Qed.

Lemma with_frame_map_to_pydevd s v :
  with_frame_map (IDMap.to_pydevd v) s
  = match IDMap._vscode_to_pydevd (frame_map s) !! v with
    | Some k => (Ok k, s)
    | None => (Raise KeyError, s)
    end.
Proof.
  unfold with_frame_map, zoom.
  destruct (IDMap._vscode_to_pydevd (frame_map s) !! v) as [k|] eqn:Hv.
  - rewrite (to_pydevd_Some _ _ _ Hv). by destruct s.
  - rewrite (to_pydevd_None _ _ Hv). by destruct s.
Qed.

Lemma on_scopes_hit req frameId s tid fid ref :
  IDMap._vscode_to_pydevd (frame_map s) !! frameId = Some (tid, fid) ->
  IDMap._pydevd_to_vscode (var_map s) !! (tid, fid, [Some "FRAME"]) = Some ref ->
  on_scopes req frameId s
  = (Ok tt,
     set_sent (sent s ++ [Response req true None
                            [("scopes", VList [scope_value ref])]]) s).
Proof.
  intros Hf Hv. unfold on_scopes, bind.
  rewrite with_frame_map_to_pydevd, Hf. cbv beta iota zeta.
  unfold with_var_map, zoom. rewrite (to_vscode_hit _ _ _ _ Hv).
  by rewrite set_var_map_same.
Qed.

Lemma on_scopes_known req frameId s tid fid :
  IDMap._vscode_to_pydevd (frame_map s) !! frameId = Some (tid, fid) ->
  exists ref m',
    on_scopes req frameId s
    = (Ok tt,
       set_sent (sent s ++ [Response req true None
                              [("scopes", VList [scope_value ref])]])
         (set_var_map m' s))
    /\ IDMap._pydevd_to_vscode m' !! (tid, fid, [Some "FRAME"]) = Some ref
    /\ (IDMap.mutual_inverse (var_map s) ->
        IDMap._vscode_to_pydevd m' !! ref = Some (tid, fid, [Some "FRAME"])).
Proof.
  intros Hf.
  destruct (IDMap._pydevd_to_vscode (var_map s) !! (tid, fid, [Some "FRAME"]))
    as [ref|] eqn:Hv.
  - exists ref, (var_map s). rewrite set_var_map_same.
    split; [exact (on_scopes_hit _ _ _ tid fid ref Hf Hv)|].
    split; [done|]. intros Hinv. by apply Hinv.
  - exists (IDMap._next_id (var_map s)),
      (IDMap.add (IDMap.Key (tid, fid, [Some "FRAME"])) (var_map s)).2.
    split; [|split].
    + unfold on_scopes, bind.
      rewrite with_frame_map_to_pydevd, Hf. cbv beta iota zeta.
      unfold with_var_map, zoom. rewrite (to_vscode_miss_autogen _ _ Hv).
      reflexivity.
    + cbn. apply lookup_insert_eq.
    + intros _. cbn. apply lookup_insert_eq.
Qed.



Lemma prefix_empty (s : string) : String.prefix "" s = true.
Proof. by destruct s. Qed.

(** [expr.replace('\t', ' ')] turns every tab into a space and keeps the
    other characters. *)
Lemma replace_tab_chars (s : string) :
  list_ascii_of_string (Str.replace Str.TAB " " s)
  = map (fun c => if Ascii.eqb c Str.tab then " "%char else c)
        (list_ascii_of_string s).
Proof.
  unfold Str.replace. induction s as [|c r IH]; [done|].
  cbn [Str.replace_go list_ascii_of_string map].
  change (String.prefix Str.TAB (String c r))
    with (if ascii_dec Str.tab c then String.prefix "" r else false).
  destruct (ascii_dec Str.tab c) as [<-|Hne].
  - rewrite prefix_empty. rewrite Ascii.eqb_refl.
    change (String.length Str.TAB - 1)%nat with 0%nat.
    change (" " ++ Str.replace_go Str.TAB " " 0 r)
      with (String " " (Str.replace_go Str.TAB " " 0 r)).
    cbn [list_ascii_of_string]. by rewrite IH.
  - destruct (Ascii.eqb_spec c Str.tab) as [->|_]; [done|].
    cbn [list_ascii_of_string]. by rewrite IH.
Qed.

Lemma replace_tab_no_tab (s : string) :
  Str.has_tab (Str.replace Str.TAB " " s) = false.
Proof.
  unfold Str.has_tab. apply bool_decide_eq_false_2.
  rewrite replace_tab_chars. intros (c & Hc & _)%list_elem_of_fmap.
  destruct (Ascii.eqb_spec c Str.tab) as [Heq|Hne];
    [discriminate Hc|by apply Hne].
Qed.

(** X21.  A setExpression request for a known frame sends one exec command, in
    which every tab of the assignment has become a space, and answers with
    an empty value whatever pydevd replied; for an unknown frame ID it
    raises KeyError and sends nothing. *)
Theorem setExpression_sends_tab_free req args reply s :
  provider_locked s = false ->
  match IDMap._vscode_to_pydevd (frame_map s) !! se_frameId args with
  | Some (tid, fid) =>
      exists expr,
        Str.has_tab expr = false
        /\ list_ascii_of_string expr
           = map (fun c => if Ascii.eqb c Str.tab then " "%char else c)
               (list_ascii_of_string
                  (Str.of_option (se_expression args) +:+ " = ("
                   +:+ Str.of_option (se_value args) +:+ ")"))
        /\ run_handler (on_setExpression req args) [reply] s
           = Some (Ok tt,
                   set_sent
                     (sent s ++
                        [PydevdRequest CMD_EXEC_EXPRESSION
                           (Str.join Str.TAB
                              [tid; Str.of_Z fid; "LOCAL"; expr; "1"]);
                         Response req true None [("value", VNone)]]) s)
  | None =>
      run_handler (on_setExpression req args) [reply] s
      = Some (Raise KeyError, s)
  end.
Proof.
  intros Hlock.
  destruct (IDMap._vscode_to_pydevd (frame_map s) !! se_frameId args)
    as [[tid fid]|] eqn:Hf.
  - eexists. split; [apply replace_tab_no_tab|].
    split; [apply replace_tab_chars|].
    unfold on_setExpression.
    rewrite (run_handler_lift_bind _ _ _ s (tid, fid) s)
      by (by rewrite with_frame_map_to_pydevd, Hf).
    cbv beta iota zeta.
    rewrite run_handler_request by done.
    rewrite run_handler_lift.
    unfold send_response, send, modify.
    destruct s. cbn. by rewrite <- !app_assoc.
  - unfold on_setExpression.
    apply run_handler_lift_raise.
    by rewrite with_frame_map_to_pydevd, Hf.
Qed.


Lemma with_var_map_to_pydevd s v :
  with_var_map (IDMap.to_pydevd v) s
  = match IDMap._vscode_to_pydevd (var_map s) !! v with
    | Some k => (Ok k, s)
    | None => (Raise KeyError, s)
    end.
Proof.
  unfold with_var_map, zoom.
  destruct (IDMap._vscode_to_pydevd (var_map s) !! v) as [k|] eqn:Hv.
  - rewrite (to_pydevd_Some _ _ _ Hv). by destruct s.
  - rewrite (to_pydevd_None _ _ Hv). by destruct s.
Qed.

Lemma to_vscode_autogen_registers {K} `{Countable K} (m : IDMap.t K) k :
  exists v m',
    IDMap.to_vscode k true m = (Ok v, m')
    /\ IDMap._pydevd_to_vscode m' !! k = Some v.
Proof.
  destruct (IDMap._pydevd_to_vscode m !! k) as [v|] eqn:Hk.
  - exists v, m. by rewrite (to_vscode_hit _ _ _ _ Hk).
  - rewrite (to_vscode_miss_autogen _ _ Hk).
    eexists _, _. split; [reflexivity|]. cbn. apply lookup_insert_eq.
Qed.

(** X22.  A setVariable request for a known variables reference first builds
    the left-hand side of the assignment from the path of the reference and
    the name the editor gave.  If that raises (a name is missing on the
    path), the handler raises the same and has sent nothing.  Otherwise it
    registers the variable being set as a child of the reference, sends an
    exec command with the assignment, in which every tab has become a
    space, then an evaluate command with the left-hand side as it is, and
    answers with the type and value of the evaluate reply.  Building the
    left-hand side raises nothing when no name is missing on the path.  For
    a variable of a frame the left-hand side is the name the editor gave;
    for a variable [name] inside a variable [d] of a frame it is [d[i]] when
    [name] is an index or a key [i], and [d.name] otherwise. *)
Theorem setVariable_exec_then_evaluate req args r1 r2 xv s pyd_var :
  provider_locked s = false ->
  IDMap._vscode_to_pydevd (var_map s) !! sv_variablesReference args
    = Some pyd_var ->
  parse_xml_response r2.2 = Ok (mk_xml (OneVar xv)) ->
  let eval_name := _get_variable_evaluate_name pyd_var (Some (sv_name args)) in
  match eval_name with
  | Raise e =>
      run_handler (on_setVariable unquote parse_xml_response req args)
        [r1; r2] s
      = Some (Raise e, s)
  | Ok lhs_expr =>
      let lhs :=
        match lhs_expr with
        | None | Some "" => sv_name args
        | Some lhs => lhs
        end in
      let fields e := [pyd_var.1.1; Str.of_Z pyd_var.1.2; "LOCAL"; e; "1"] in
      exists expr child m',
        Str.has_tab expr = false
        /\ list_ascii_of_string expr
           = map (fun c => if Ascii.eqb c Str.tab then " "%char else c)
               (list_ascii_of_string (lhs +:+ " = " +:+ sv_value args))
        /\ IDMap._pydevd_to_vscode m'
             !! (pyd_var.1, (pyd_var.2 ++ [Some (sv_name args)])%list)
           = Some child
        /\ run_handler (on_setVariable unquote parse_xml_response req args)
             [r1; r2] s
           = Some (Ok tt,
                   set_sent
                     (sent s ++
                        [PydevdRequest CMD_EXEC_EXPRESSION
                           (Str.join Str.TAB (fields expr));
                         PydevdRequest CMD_EVALUATE_EXPRESSION
                           (Str.join Str.TAB (fields lhs));
                         Response req true None
                           ([("type",
                              str_or_None (unquote <$> xvar_type xv));
                             ("value",
                              str_or_None (unquote <$> xvar_value xv))]
                            ++ if truthy (xvar_isContainer xv)
                               then [("variablesReference", VInt child)]
                               else [])%list])
                     (set_var_map m' s))
  end
  /\ (Forall is_Some (tail pyd_var.2) -> exists r, eval_name = Ok r)
  /\ (pyd_var.2 = [Some "FRAME"] -> eval_name = Ok None)
  /\ (forall d,
        pyd_var.2 = [Some "FRAME"; Some d] ->
        eval_name
        = Ok (Some match _get_index_or_key (sv_name args) with
                   | Some i => d +:+ "[" +:+ i +:+ "]"
                   | None => d +:+ "." +:+ sv_name args
                   end)).
Proof.
  intros Hlock Hvar Hparse eval_name.
  split; [|split; [|split]].
  - destruct eval_name as [lhs_expr|e] eqn:Heval; subst eval_name.
    + intros lhs fields.
      destruct (to_vscode_autogen_registers (var_map s)
                  (pyd_var.1, (pyd_var.2 ++ [Some (sv_name args)])%list))
        as (child & m' & Hadd & Hchild).
      exists (Str.replace Str.TAB " " (lhs +:+ " = " +:+ sv_value args)),
        child, m'.
      split; [apply replace_tab_no_tab|]. split; [apply replace_tab_chars|].
      split; [exact Hchild|].
      unfold on_setVariable.
      rewrite (run_handler_lift_bind _ _ _ s pyd_var s)
        by (by rewrite with_var_map_to_pydevd, Hvar).
      cbv beta iota zeta.
      rewrite (run_handler_lift_bind _ _ _ s lhs_expr s)
        by (unfold of_res; by rewrite Heval).
      fold lhs.
      rewrite (run_handler_lift_bind _ _ _ s child (set_var_map m' s))
        by (unfold with_var_map, zoom; by rewrite Hadd).
      rewrite run_handler_request by (by destruct s).
      rewrite run_handler_request by (by destruct s).
      rewrite Hparse. cbn [var]. rewrite run_handler_lift.
      unfold send_response, send, modify.
      destruct s. cbn. by rewrite <- !app_assoc.
    + unfold on_setVariable.
      rewrite (run_handler_lift_bind _ _ _ s pyd_var s)
        by (by rewrite with_var_map_to_pydevd, Hvar).
      cbv beta iota zeta.
      apply run_handler_lift_raise. unfold of_res. by rewrite Heval.
  - intros Hpath. subst eval_name. by apply evaluate_name_Ok.
  - intros Hframe. subst eval_name. unfold _get_variable_evaluate_name.
    by rewrite Hframe.
  - intros d Hd. subst eval_name. unfold _get_variable_evaluate_name.
    by rewrite Hd.
Qed.

(** X23.  The reference a scopes request hands out is what a variables request
    needs: sent back as [variablesReference], it makes the handler ask
    pydevd for the frame ([CMD_GET_FRAME] with thread, frame and [FRAME]).
    What follows depends on the reply.  If it is not well-formed XML the
    handler answers with a failure; if parsing raises anything else the
    handler raises the same and answers nothing.  If it parses and every
    variable in it has a name, the handler answers with the variables; if
    it parses and a variable has no name, the handler raises AttributeError
    and answers nothing. *)
Theorem scopes_then_variables req req' frameId fmt reply s tid fid :
  provider_locked s = false ->
  IDMap.mutual_inverse (var_map s) ->
  IDMap._vscode_to_pydevd (frame_map s) !! frameId = Some (tid, fid) ->
  exists ref s1 r s2,
    on_scopes req frameId s = (Ok tt, s1)
    /\ last (sent s1)
       = Some (Response req true None [("scopes", VList [scope_value ref])])
    /\ run_handler
         (on_variables unquote parse_xml_response req'
            (mk_variables_args ref fmt)) [reply] s1
       = Some (r, s2)
    /\ let get_frame :=
         PydevdRequest CMD_GET_FRAME
           (Str.join Str.TAB [tid; Str.of_Z fid; "FRAME"]) in
       match parse_xml_response reply.2 with
       | Raise SAXParseException =>
           r = Ok tt
           /\ sent s2
              = (sent s1 ++ [get_frame; Response req' false None []])%list
       | Raise e =>
           r = Raise e /\ sent s2 = (sent s1 ++ [get_frame])%list
       | Ok x =>
           (Forall (fun xv => is_Some (xvar_name xv)) (xvars_of x) ->
            r = Ok tt
            /\ exists vars out,
                 sent s2
                 = (sent s1 ++
                      [get_frame;
                       Response req' true None
                         [("variables", VList (map variable_value out))]])%list
                 /\ map (fun v => Some (VariablesSorter.name v)) vars
                    = map (fun xv => unquote <$> xvar_name xv) (xvars_of x)
                 /\ VariablesSorter.four_groups vars out)
           /\ (~ Forall (fun xv => is_Some (xvar_name xv)) (xvars_of x) ->
               r = Raise AttributeError
               /\ sent s2 = (sent s1 ++ [get_frame])%list)
       end.
Proof.
  intros Hlock Hinv Hf.
  destruct (on_scopes_known req frameId s tid fid Hf)
    as (ref & m' & Hs & _ & Href0).
  set (s1 := set_sent
               (sent s ++ [Response req true None
                             [("scopes", VList [scope_value ref])]])
               (set_var_map m' s)) in *.
  assert (IDMap._vscode_to_pydevd (var_map s1) !! ref
          = Some (tid, fid, [Some "FRAME"])) as Href.
  { assert (var_map s1 = m') as -> by (subst s1; by destruct s).
    by apply Href0. }
  assert (provider_locked s1 = false) as Hlock1.
  { subst s1. by destruct s. }
  assert (last (sent s1)
          = Some (Response req true None
                    [("scopes", VList [scope_value ref])])) as Hlast.
  { subst s1. destruct s. cbn. by rewrite last_snoc. }
  set (get_frame := PydevdRequest CMD_GET_FRAME
                      (Str.join Str.TAB [tid; Str.of_Z fid; "FRAME"])).
  set (s1' := set_sent (sent s1 ++ [get_frame]) s1).
  assert (run_handler
              (on_variables unquote parse_xml_response req'
                 (mk_variables_args ref fmt)) [reply] s1
            = match parse_xml_response reply.2 with
              | Raise SAXParseException =>
                  Some (send_error_response req' None s1')
              | Raise e => Some (Raise e, s1')
              | Ok x =>
                  run_handler
                    (variables <- lift (collect_variables unquote
                                          (tid, fid, [Some "FRAME"])
                                          (xvars_of x) VariablesSorter.init) ;;
                     lift (send_response req' true None
                             [("variables",
                               VList (map variable_value
                                        (VariablesSorter.get_sorted_variables
                                           variables).1))]))%co [] s1'
              end) as Hrun.
  { unfold on_variables. cbn [variablesReference variables_format].
    rewrite (run_handler_lift_bind _ _ _ s1 (tid, fid, [Some "FRAME"]) s1)
      by (by rewrite with_var_map_to_pydevd, Href).
    cbv beta iota zeta. cbn [fst snd length Nat.add Nat.eqb map].
    rewrite run_handler_request by done.
    cbv beta iota zeta.
    destruct (parse_xml_response reply.2) as [x|[]];
      try reflexivity; by rewrite run_handler_lift. }
  assert (sent s1' = (sent s1 ++ [get_frame])%list) as Hsent1
    by (subst s1'; by destruct s1).
  destruct (parse_xml_response reply.2) as [x|e] eqn:Hparse.
  - destruct (decide (Forall (fun xv => is_Some (xvar_name xv)) (xvars_of x)))
      as [Hnamed|Hnot].
    + destruct (collect_variables_spec unquote (tid, fid, [Some "FRAME"])
                  (xvars_of x) VariablesSorter.init s1')
        as (vars & m2 & Hc & Hnames); [by constructor|done|].
      rewrite (run_handler_lift_bind _ _ _ _ _ _ Hc) in Hrun.
      rewrite run_handler_lift in Hrun.
      eexists ref, s1, _, _. split; [exact Hs|]. split; [exact Hlast|].
      split; [exact Hrun|]. cbv zeta. split; [|done].
      intros _. split; [reflexivity|].
      eexists vars, _. split; [|split; [exact Hnames|]].
      * unfold send_response, send, modify. fold get_frame.
        destruct s1. cbn. rewrite <- !app_assoc. reflexivity.
      * apply get_sorted_variables_four_groups.
    + destruct (collect_variables_unnamed unquote (tid, fid, [Some "FRAME"])
                  (xvars_of x) VariablesSorter.init s1')
        as (m2 & Hc); [cbn; lia|done|].
      rewrite (run_handler_lift_raise _ _ _ _ _ _ Hc) in Hrun.
      eexists ref, s1, _, _. split; [exact Hs|]. split; [exact Hlast|].
      split; [exact Hrun|]. cbv zeta. split; [done|].
      intros _. split; [reflexivity|].
      fold get_frame. destruct s1. reflexivity.
  - unfold send_error_response, send_response, send, modify in Hrun.
    destruct e;
      (eexists ref, s1, _, _; split; [exact Hs|]; split; [exact Hlast|];
       split; [exact Hrun|]; cbv zeta; fold get_frame;
       split; [reflexivity|]; destruct s1; cbn; by rewrite <- ?app_assoc).
Qed.


Lemma for_each_pydevd_notify cmd (l : list string) : forall s,
  for_each l (fun x => pydevd_notify cmd x) s
  = (Ok tt, set_sent (sent s ++ map (PydevdNotify cmd) l) s).
Proof.
  induction l as [|x l IH]; intros s.
  - cbn. unfold ret. rewrite app_nil_r. by destruct s.
  - cbn [for_each]. unfold bind. unfold pydevd_notify at 1, send, modify.
    rewrite IH. destruct s. cbn. by rewrite <- app_assoc.
Qed.

(** X30.  A pause request once the process is created.  With thread ID 0 it
    sends one suspend command for every thread of the thread map, none
    twice, and then the response; with the ID of a known thread it sends
    the suspend command for that thread and the response; with an unknown
    ID it raises KeyError and has sent nothing. *)
Theorem pause_suspends_threads req threadId s :
  is_process_created s = true ->
  on_pause req threadId s
  = (if (threadId =? 0)%Z then
       (Ok tt,
        set_sent
          (sent s
           ++ map (PydevdNotify CMD_THREAD_SUSPEND)
                (IDMap.pydevd_ids (thread_map s))
           ++ [Response req true None []]) s)
     else
       match IDMap._vscode_to_pydevd (thread_map s) !! threadId with
       | Some tid =>
           (Ok tt,
            set_sent (sent s ++ [PydevdNotify CMD_THREAD_SUSPEND tid;
                                 Response req true None []]) s)
       | None => (Raise KeyError, s)
       end)
  /\ NoDup (IDMap.pydevd_ids (thread_map s))
  /\ forall tid,
       tid ∈ IDMap.pydevd_ids (thread_map s)
       <-> is_Some (IDMap._pydevd_to_vscode (thread_map s) !! tid).
Proof.
  intros Hcreated. split; [|split].
  - unfold on_pause. unfold bind at 1. unfold get at 1.
    rewrite Hcreated. cbn [negb].
    destruct (threadId =? 0)%Z.
    + unfold bind. rewrite for_each_pydevd_notify.
      unfold send_response, send, modify.
      destruct s. cbn. by rewrite <- app_assoc.
    + unfold bind. rewrite with_thread_map_to_pydevd.
      destruct (IDMap._vscode_to_pydevd (thread_map s) !! threadId);
        [|done].
      unfold pydevd_notify, send_response, send, modify.
      destruct s. cbn. by rewrite <- app_assoc.
  - apply NoDup_fst_map_to_list.
  - intros tid. unfold IDMap.pydevd_ids. rewrite list_elem_of_fmap. split.
    + intros ([k v] & -> & Hin%elem_of_map_to_list). by exists v.
    + intros [v Hv]. exists (tid, v). split; [done|].
      by apply elem_of_map_to_list.
Qed.


End ProcessorHandlersFacts.

(** ** Exception breakpoints, exception info and thread events *)

Section SessionFacts.
Import VSCodeMessageProcessor ProcessorHandlers Session.
Local Open Scope string_scope.
Variable unquote : string -> string.
Variable parse_xml_response : string -> res xml_thread.
Variable argv0 : string.
Variable pid : Z.

Lemma setExceptionBreakpoints_filters_state req fs s :
  let r := bool_decide ("raised" ∈ fs) in
  let u := bool_decide ("uncaught" ∈ fs) in
  let removed :=
    (ExceptionsManager.notified (exceptions_mgr s)
     ++ map (fun e => (ExceptionsManager.CMD_REMOVE_EXCEPTION_BREAK,
                       "python-" +:+ e))
            (map_to_list (ExceptionsManager.exceptions (exceptions_mgr s))).*1
    )%list in
  let mgr' :=
    if r || u then
      ExceptionsManager.mk
        {[ "BaseException" := ExceptionsManager.break_mode_of r u ]}
        (removed ++ [(ExceptionsManager.CMD_ADD_EXCEPTION_BREAK,
                      "python-BaseException" +:+ Str.TAB
                      +:+ Str.of_Z (if r then 3 else 0) +:+ Str.TAB
                      +:+ Str.of_Z (if u then 1 else 0) +:+ Str.TAB
                      +:+ Str.of_Z 0)])
    else ExceptionsManager.mk ∅ removed in
  on_setExceptionBreakpoints req (mk_setExceptionBreakpoints_args fs []) s
  = (Ok tt,
     Session.mk
       (set_sent (sent (proc s) ++ [Response req true None []]) (proc s))
       mgr' (start_reason s)).
Proof.
  intros r u removed mgr'.
  unfold on_setExceptionBreakpoints. cbn [filters exceptionOptions].
  fold r u. unfold bind at 1. unfold bind at 1.
  unfold with_exceptions_mgr at 1, zoom.
  rewrite remove_all_exception_breaks_state. fold removed.
  subst mgr'. destruct (r || u) eqn:Hru.
  - unfold with_exceptions_mgr, with_proc, zoom. cbn.
    unfold ExceptionsManager.add_exception_break, bind,
      ExceptionsManager.pydevd_notify, modify. cbn.
    by rewrite insert_empty.
  - reflexivity.
Qed.

(** X24.  A setExceptionBreakpoints request without exception options rebuilds
    the configuration from the filters: the handler answers once; at most
    [BaseException] is registered, and it is exactly when [raised] or
    [uncaught] is among the filters; afterwards the break mode of every
    exception name is [always] when [raised] is among the filters and
    [unhandled] otherwise, also when there is no filter at all. *)
Theorem setExceptionBreakpoints_filters req fs s (name : string) :
  exists mgr',
    on_setExceptionBreakpoints req (mk_setExceptionBreakpoints_args fs []) s
    = (Ok tt,
       Session.mk
         (set_sent (sent (proc s) ++ [Response req true None []]) (proc s))
         mgr' (start_reason s))
    /\ ExceptionsManager.get_break_mode name mgr'
       = (if bool_decide ("raised" ∈ fs) then "always" else "unhandled")
    /\ (forall e,
          is_Some (ExceptionsManager.exceptions mgr' !! e) ->
          e = "BaseException")
    /\ (is_Some (ExceptionsManager.exceptions mgr' !! "BaseException")
        <-> "raised" ∈ fs \/ "uncaught" ∈ fs).
Proof.
  eexists. split; [apply setExceptionBreakpoints_filters_state|].
  destruct (bool_decide ("raised" ∈ fs)) eqn:Hr,
           (bool_decide ("uncaught" ∈ fs)) eqn:Hu; cbn [orb];
    try apply bool_decide_eq_true_1 in Hr;
    try apply bool_decide_eq_true_1 in Hu;
    try apply bool_decide_eq_false_1 in Hr;
    try apply bool_decide_eq_false_1 in Hu.
  1-3: split; [apply get_break_mode_only_BaseException|];
       split; [intros e [m Hm]; cbn [ExceptionsManager.exceptions] in Hm;
               by apply lookup_singleton_Some in Hm as [<- _]|];
       cbn; rewrite lookup_singleton_eq; split; [intros _; tauto|by eexists].
  split; [|split].
  - unfold ExceptionsManager.get_break_mode. cbn. by rewrite lookup_empty.
  - intros e [m Hm]. cbn in Hm. by rewrite lookup_empty in Hm.
  - cbn. rewrite lookup_empty. split; [by intros [? ?]|tauto].
Qed.





Local Ltac session_done :=
  unfold set_proc, set_sent, set_thread_map, set_is_process_created; cbn;
  rewrite ?app_nil_r, <- ?app_assoc; reflexivity.

Lemma set_is_process_created_same p :
  is_process_created p = true -> set_is_process_created true p = p.
Proof. destruct p. cbn. by intros ->. Qed.

Lemma to_vscode_autogen_keeps {K} `{Countable K} (m : IDMap.t K) k :
  exists v m',
    IDMap.to_vscode k true m = (Ok v, m')
    /\ IDMap._pydevd_to_vscode m' !! k = Some v
    /\ (forall k0 v0,
          IDMap._pydevd_to_vscode m !! k0 = Some v0 ->
          IDMap._pydevd_to_vscode m' !! k0 = Some v0).
Proof.
  destruct (IDMap._pydevd_to_vscode m !! k) as [v|] eqn:Hk.
  - exists v, m. by rewrite (to_vscode_hit _ _ _ _ Hk).
  - rewrite (to_vscode_miss_autogen _ _ Hk).
    eexists _, _. split; [reflexivity|]. split.
    + cbn. apply lookup_insert_eq.
    + intros k0 v0 Hk0. cbn. rewrite lookup_insert_ne; [done|congruence].
Qed.

(** X27.  What the handler of a thread-create event does for a message with one
    [thread] element.  The process event goes out first if it has not been
    sent.  A thread whose name starts with [pydevd.] or [ptvsd.] is
    ignored: it gets no ID and no event.  Any other thread has an ID
    afterwards, the one it had if it was known, and a [thread] event with
    reason [started] is sent for it; the IDs of the other threads stay. *)
Theorem thread_create_registers_user_threads seq args x s :
  parse_xml_response args = Ok (OneThread x) ->
  let name := unquote <$> xthread_name x in
  let process_part :=
    if is_process_created (proc s) then []
    else [Event "process"
            [("name", VStr argv0); ("systemProcessId", VInt pid);
             ("isLocalProcess", VBool true);
             ("startMethod", value_of_option (start_reason s))]] in
  exists m' thread_part,
    on_pydevd_thread_create unquote parse_xml_response argv0 pid seq args s
    = (Ok tt,
       set_proc
         (set_sent (sent (proc s) ++ process_part ++ thread_part)
            (set_thread_map m' (set_is_process_created true (proc s)))) s)
    /\ if is_debugger_internal_thread name then
         m' = thread_map (proc s) /\ thread_part = []
       else
         exists tid,
           IDMap._pydevd_to_vscode m' !! xthread_id x = Some tid
           /\ thread_part
              = [Event "thread"
                   [("reason", VStr "started"); ("threadId", VInt tid)]]
           /\ forall k v,
                IDMap._pydevd_to_vscode (thread_map (proc s)) !! k = Some v ->
                IDMap._pydevd_to_vscode m' !! k = Some v.
Proof.
  intros Hparse name process_part.
  destruct (to_vscode_autogen_keeps (thread_map (proc s)) (xthread_id x))
    as (tid & m1 & Hadd & Hreg & Hkeep).
  exists (if is_debugger_internal_thread name then thread_map (proc s)
          else m1),
    (if is_debugger_internal_thread name then []
     else [Event "thread"
             [("reason", VStr "started"); ("threadId", VInt tid)]]).
  split.
  - unfold on_pydevd_thread_create. rewrite Hparse. fold name.
    unfold bind at 1. unfold get at 1. unfold bind at 1.
    subst process_part.
    destruct s as [p mgr reason]. cbn [proc start_reason exceptions_mgr] in *.
    destruct (is_process_created p) eqn:Hc; cbn [negb].
    + unfold ret at 1.
      rewrite (set_is_process_created_same _ Hc).
      destruct (is_debugger_internal_thread name); cbn [negb].
      * unfold ret. destruct p. session_done.
      * unfold bind, with_proc, with_thread_map, zoom.
        cbn [proc]. rewrite Hadd. unfold send_event, send, modify.
        destruct p. session_done.
    + unfold bind at 1. unfold with_proc at 1 2, zoom, modify,
        send_process_event, send_event, send, modify.
      cbn [proc fst snd set_proc exceptions_mgr start_reason].
      destruct (is_debugger_internal_thread name); cbn [negb].
      * unfold ret. destruct p. session_done.
      * unfold bind, with_proc, with_thread_map, zoom.
        cbn [proc]. destruct p. cbn in Hadd.
        unfold set_sent, set_is_process_created. cbn. rewrite Hadd.
        unfold send_event, send, modify. session_done.
  - destruct (is_debugger_internal_thread name); [done|]. by exists tid.
Qed.

Lemma thread_create_step seq args s :
  let s' :=
    (on_pydevd_thread_create unquote parse_xml_response argv0 pid seq args
       s).2 in
  is_process_created (proc s') = true
  /\ start_reason s' = start_reason s
  /\ List.filter is_process_event (sent (proc s'))
     = (List.filter is_process_event (sent (proc s))
        ++ if is_process_created (proc s) then []
           else [Event "process"
                   [("name", VStr argv0); ("systemProcessId", VInt pid);
                    ("isLocalProcess", VBool true);
                    ("startMethod", value_of_option (start_reason s))]])%list.
Proof.
  intros s'. subst s'.
  destruct s as [p mgr reason]. cbn [proc start_reason exceptions_mgr].
  set (s1 := if is_process_created p
             then Session.mk p mgr reason
             else Session.mk
                    (set_sent
                       (sent p ++
                          [Event "process"
                             [("name", VStr argv0);
                              ("systemProcessId", VInt pid);
                              ("isLocalProcess", VBool true);
                              ("startMethod", value_of_option reason)]])
                       (set_is_process_created true p)) mgr reason).
  assert (on_pydevd_thread_create unquote parse_xml_response argv0 pid seq
            args (Session.mk p mgr reason)
          = match parse_xml_response args with
            | Raise e => raise e
            | Ok NoThread => raise AttributeError
            | Ok (ManyThreads _) => raise TypeError
            | Ok (OneThread xthread) =>
                if negb (is_debugger_internal_thread
                           (unquote <$> xthread_name xthread))
                then
                  (tid <- with_proc
                            (with_thread_map
                               (IDMap.to_vscode (xthread_id xthread) true)) ;;
                   with_proc
                     (send_event "thread"
                        [("reason", VStr "started");
                         ("threadId", VInt tid)]))%py
                else ret tt
            end s1) as ->.
  { unfold on_pydevd_thread_create. unfold bind at 1. unfold get at 1.
    unfold bind at 1. cbn [proc start_reason].
    subst s1. destruct (is_process_created p); [done|].
    cbn [negb]. unfold bind, with_proc, zoom, modify, send_process_event,
      send_event, send, modify. reflexivity. }
  assert (is_process_created (proc s1) = true
          /\ start_reason s1 = reason
          /\ List.filter is_process_event (sent (proc s1))
             = (List.filter is_process_event (sent p)
                ++ if is_process_created p then []
                   else [Event "process"
                           [("name", VStr argv0);
                            ("systemProcessId", VInt pid);
                            ("isLocalProcess", VBool true);
                            ("startMethod", value_of_option reason)]])%list)
    as (Hc1 & Hr1 & Hf1).
  { subst s1. destruct (is_process_created p) eqn:Hc.
    - cbn. by rewrite app_nil_r.
    - destruct p. cbn. by rewrite List.filter_app. }
  rewrite <- Hf1. clear Hf1. revert Hc1 Hr1. generalize s1. clear s1.
  intros s1 Hc1 Hr1.
  destruct (parse_xml_response args) as [[|xt|l]|];
    [by unfold raise|..|by unfold raise]; [|by unfold raise].
  destruct (negb (is_debugger_internal_thread (unquote <$> xthread_name xt)));
    [|by unfold ret].
  unfold bind, with_proc, with_thread_map, zoom.
  destruct (to_vscode_autogen_keeps (thread_map (proc s1)) (xthread_id xt))
    as (tid & m1 & -> & _ & _).
  unfold send_event, send, modify. destruct s1 as [p1 mgr1 r1].
  destruct p1. cbn in *. split; [done|]. split; [done|].
  rewrite List.filter_app. cbn. by rewrite app_nil_r.
Qed.

(** X28.  The process event is sent once: over any number of thread-create
    events, whatever they carry and whether or not their handler raises,
    exactly one process event goes out, with the first of them, unless the
    process was already marked as created; then none does. *)
Theorem process_event_sent_once events s :
  let s' :=
    thread_create_events unquote parse_xml_response argv0 pid events s in
  List.filter is_process_event (sent (proc s'))
  = (List.filter is_process_event (sent (proc s))
     ++ match events with
        | [] => []
        | _ :: _ =>
            if is_process_created (proc s) then []
            else [Event "process"
                    [("name", VStr argv0); ("systemProcessId", VInt pid);
                     ("isLocalProcess", VBool true);
                     ("startMethod", value_of_option (start_reason s))]]
        end)%list.
Proof.
  intros s'. subst s'. unfold thread_create_events.
  destruct events as [|args events]; [cbn; by rewrite app_nil_r|].
  cbn [foldl].
  destruct (thread_create_step 0 args s) as (Hc & _ & Hf).
  rewrite <- Hf. clear Hf. revert Hc.
  generalize ((on_pydevd_thread_create unquote parse_xml_response argv0 pid 0
                 args s).2).
  induction events as [|a events IH]; intros s1 Hc; [done|].
  cbn [foldl].
  destruct (thread_create_step 0 a s1) as (Hc' & _ & Hf').
  rewrite Hc, app_nil_r in Hf'. rewrite <- Hf'. by apply IH.
Qed.


(** One round trip of a plain [pydevd_request]. *)
Lemma run_handler_plain_request {B} cmd_id msg (f : Z * Z * string -> C B)
    reply replies s :
  run_handler (cbind (pydevd_request cmd_id msg) f) (reply :: replies) s
  = run_handler (f reply) replies
      (set_sent (sent s ++ [PydevdRequest cmd_id msg]) s).
Proof.
  unfold run_handler, cbind, pydevd_request. cbn [step_bind drive].
  reflexivity.
Qed.




(** A parse error in the reply to the threads request is answered with an
    error response, and the thread map is left alone. *)
Lemma threads_parse_error req reply s :
  parse_xml_response reply.2 = Raise SAXParseException ->
  run_handler (on_threads unquote parse_xml_response req) [reply] s
  = Some (Ok tt,
          set_sent
            (sent s ++ [PydevdRequest CMD_LIST_THREADS "";
                        Response req false None []]) s).
Proof.
  intros Hparse. unfold on_threads. rewrite run_handler_plain_request.
  rewrite Hparse, run_handler_lift.
  unfold send_error_response, send_response, send, modify.
  destruct s. cbn. by rewrite <- !app_assoc.
Qed.


End SessionFacts.

(** ** The theorems above at concrete inputs *)

Section MoreWitnesses.
Import VSCodeMessageProcessor Examples MoreExamples.
Local Open Scope string_scope.

Lemma suspended_frames_below_next : IDMap.ids_below_next suspended_frames.
Proof.
  apply (run_invariant
           [IDMap.OpToVscode ("pid1_tid1", 2) true;
            IDMap.OpToVscode ("pid1_tid7", 9) true] IDMap.init);
    [apply init_mutual_inverse | apply init_ids_below_next |].
  vm_compute. reflexivity.
Defined.

Lemma suspended_threads_inverse :
  IDMap.mutual_inverse (thread_map suspended_state).
Proof.
  apply (run_invariant [IDMap.OpToVscode "pid1_tid1" true] IDMap.init);
    [apply init_mutual_inverse | apply init_ids_below_next |].
  vm_compute. reflexivity.
Defined.

Lemma remove_by_either_argument_witness :
  IDMap.remove (Some ("pid1_tid1", 2)) None suspended_frames
  = IDMap.remove None (Some 1) suspended_frames
  /\ IDMap.remove None (Some 1) suspended_frames
     = (Ok tt, IDMap.unregister ("pid1_tid1", 2) 1 suspended_frames).
Proof.
  destruct (remove_by_either_argument suspended_frames ("pid1_tid1", 2) 1
              suspended_frames_inverse)
    as (Hkey & Hid & _); [vm_compute; reflexivity|].
  split; [by rewrite Hkey, Hid|exact Hid].
Defined.

Lemma remove_unregistered_unchanged_witness :
  IDMap.remove (Some ("pid1_tid9", 1)) (Some 7) suspended_frames
  = (Raise KeyError, suspended_frames).
Proof.
  destruct (remove_unregistered_unchanged suspended_frames ("pid1_tid9", 1) 7)
    as (_ & _ & Hboth & _); [vm_compute; reflexivity..|exact Hboth].
Defined.

Lemma remove_mismatch_half_deleted_witness :
  (IDMap.remove (Some ("pid1_tid9", 1)) (Some 1) suspended_frames).1
  = Raise KeyError
  /\ ~ IDMap.mutual_inverse
         (IDMap.remove (Some ("pid1_tid9", 1)) (Some 1) suspended_frames).2.
Proof.
  destruct (remove_mismatch_half_deleted suspended_frames ("pid1_tid9", 1)
              ("pid1_tid1", 2) 1 suspended_frames_inverse)
    as (Hr & _ & _ & Hbroken); [vm_compute; reflexivity..|].
  rewrite Hr. split; [reflexivity|exact Hbroken].
Defined.

Lemma to_vscode_autogen_stable_witness :
  exists v,
    (IDMap.to_vscode ("pid1_tid1", 3) true suspended_frames).1 = Ok v
    /\ IDMap.to_vscode ("pid1_tid1", 3) false
         (IDMap.to_vscode ("pid1_tid1", 3) true suspended_frames).2
       = (Ok v, (IDMap.to_vscode ("pid1_tid1", 3) true suspended_frames).2).
Proof.
  destruct (to_vscode_autogen_stable suspended_frames ("pid1_tid1", 3)
              suspended_frames_inverse suspended_frames_below_next)
    as (v & Hv & _ & Hagain & _).
  exists v. split; [exact Hv|exact Hagain].
Defined.

Lemma listings_agree_witness :
  NoDup (IDMap.vscode_ids suspended_frames)
  /\ IDMap.vscode_ids suspended_frames ≡ₚ (IDMap.pairs suspended_frames).*2.
Proof.
  destruct (listings_agree suspended_frames suspended_frames_inverse)
    as (_ & Hperm & _ & Hnd & _).
  split; [exact Hnd|exact Hperm].
Defined.

Lemma request_then_reply_resolves_future_witness :
  PydevdSocket.send id reply_frame
    (PydevdSocket.pydevd_request 0%nat 42%nat 113 "" PydevdSocket.init).2
  = (Ok (Z.of_nat (String.length reply_frame)),
     PydevdSocket.mk 1000000001 ∅
       [PydevdSocket.PipeWrite (SocketSession.packet 113 1000000000 "");
        PydevdSocket.CallSoonThreadsafe 0%nat 42%nat
          (113, 1000000000, "<xml/>")]).
Proof.
  apply (request_then_reply_resolves_future id PydevdSocket.init 0%nat 42%nat
           113 "" reply_frame "113" "1000000000" "<xml/>" 113).
  - intros n x. simpl. by rewrite lookup_empty.
  - vm_compute. reflexivity.
  - vm_compute. reflexivity.
  - vm_compute. reflexivity.
Defined.

Lemma close_is_idempotent_witness :
  SocketPipe.close_times os_close_ok EBADF 2
    (SocketPipe.close os_close_ok EBADF (SocketPipe.init 3 4)).2
  = (replicate 2 SocketPipe.Returned,
     SocketPipe.mk None None true false [4; 3] 1).
Proof.
  destruct (close_is_idempotent os_close_ok EBADF os_read_data
              (SocketPipe.init 3 4) 2 10)
    as (_ & _ & _ & _ & _ & _ & _ & Hagain & _);
    [intros fd errno; discriminate | reflexivity | discriminate |].
  exact Hagain.
Defined.

Lemma close_error_blocks_later_close_witness :
  (SocketPipe.close os_close_eio EBADF (SocketPipe.init 3 4)).1
  = SocketPipe.OSError 5
  /\ SocketPipe.close_times os_close_eio EBADF 2
       (SocketPipe.close os_close_eio EBADF (SocketPipe.init 3 4)).2
     = (replicate 2 SocketPipe.Returned,
        SocketPipe.mk (Some 3) None false true [4] 0).
Proof.
  destruct (close_error_blocks_later_close os_close_eio EBADF
              (SocketPipe.init 3 4) 4 5 2)
    as (Hfirst & Hagain & _);
    [reflexivity | reflexivity | reflexivity | reflexivity
    | intros Heq; discriminate Heq |].
  split; [exact Hfirst|exact Hagain].
Defined.

Lemma parse_build_debug_options_witness :
  exists options,
    DebugOptions._parse_debug_options id false
      (DebugOptions.build_debug_options ["RedirectOutput"; "Django"; "Other"])
    = Ok options
    /\ options !! "DJANGO_DEBUG" = Some (DebugOptions.Flag true)
    /\ options !! "WINDOWS_CLIENT" = Some (DebugOptions.Flag false).
Proof.
  destruct (parse_build_debug_options id false
              ["RedirectOutput"; "Django"; "Other"])
    as (options & Hparse & Hset & _ & Hwin).
  { intros Hin.
    repeat (apply elem_of_cons in Hin as [Hin|Hin]; [discriminate Hin|]).
    by apply elem_of_nil in Hin. }
  exists options. split; [exact Hparse|]. split; [|exact Hwin].
  apply (Hset "Django" "DJANGO_DEBUG"); [|reflexivity].
  right. left.
Defined.

Lemma parse_build_DebugStdLib_raises_witness :
  DebugOptions._parse_debug_options id false
    (DebugOptions.build_debug_options ["RedirectOutput"; "DebugStdLib"])
  = Raise KeyError.
Proof.
  apply (parse_build_DebugStdLib_raises id false
           ["RedirectOutput"; "DebugStdLib"]).
  right. left.
Defined.

Lemma thread_kill_forgets_thread_witness :
  sent (ProcessorHandlers.on_pydevd_thread_kill 0 "pid1_tid1"
          suspended_state).2
  = [Event "thread" [("reason", VStr "exited"); ("threadId", VInt 1)]]
  /\ with_thread_map (IDMap.to_pydevd 1)
       (ProcessorHandlers.on_pydevd_thread_kill 0 "pid1_tid1"
          suspended_state).2
     = (Raise KeyError,
        (ProcessorHandlers.on_pydevd_thread_kill 0 "pid1_tid1"
           suspended_state).2).
Proof.
  pose proof (thread_kill_forgets_thread 0 "pid1_tid1" suspended_state
                suspended_threads_inverse) as Hkill.
  cbv zeta in Hkill.
  assert (IDMap._pydevd_to_vscode (thread_map suspended_state)
            !! Str.strip "pid1_tid1" = Some 1) as Hknown
    by (vm_compute; reflexivity).
  rewrite Hknown in Hkill. destruct Hkill as (Hrun & _ & Hgone & _).
  rewrite Hrun. split; [reflexivity|exact Hgone].
Defined.

Lemma setExpression_sends_tab_free_witness :
  exists expr,
    Str.has_tab expr = false
    /\ run_handler
         (ProcessorHandlers.on_setExpression setExpression_request
            (ProcessorHandlers.mk_setExpression_args 1 plain_format
               (Some tabbed_expression) (Some "3")))
         [(116, 1000000000, "")] suspended_state
       = Some (Ok tt,
               set_sent
                 [PydevdRequest CMD_EXEC_EXPRESSION
                    (Str.join Str.TAB ["pid1_tid1"; "2"; "LOCAL"; expr; "1"]);
                  Response setExpression_request true None
                    [("value", VNone)]]
                 suspended_state).
Proof.
  pose proof (setExpression_sends_tab_free setExpression_request
                (ProcessorHandlers.mk_setExpression_args 1 plain_format
                   (Some tabbed_expression) (Some "3"))
                (116, 1000000000, "") suspended_state eq_refl) as Hset.
  assert (IDMap._vscode_to_pydevd (frame_map suspended_state) !! 1
          = Some ("pid1_tid1", 2)) as Hframe by (vm_compute; reflexivity).
  cbn [ProcessorHandlers.se_frameId] in Hset. rewrite Hframe in Hset.
  destruct Hset as (expr & Htab & _ & Hrun).
  exists expr. split; [exact Htab|exact Hrun].
Defined.

Lemma setVariable_exec_then_evaluate_witness :
  exists expr child m',
    Str.has_tab expr = false
    /\ run_handler
         (ProcessorHandlers.on_setVariable id example_parse
            setVariable_request
            (ProcessorHandlers.mk_setVariable_args 1 tabbed_expression "3"
               plain_format))
         [(116, 1000000000, ""); (113, 1000000001, exec_reply)]
         suspended_state
       = Some (Ok tt,
               set_sent
                 [PydevdRequest CMD_EXEC_EXPRESSION
                    (Str.join Str.TAB ["pid1_tid1"; "2"; "LOCAL"; expr; "1"]);
                  PydevdRequest CMD_EVALUATE_EXPRESSION
                    (Str.join Str.TAB
                       ["pid1_tid1"; "2"; "LOCAL"; tabbed_expression; "1"]);
                  Response setVariable_request true None
                    [("type", VStr "int"); ("value", VStr "3")]]
                 (set_var_map m' suspended_state))
    /\ IDMap._pydevd_to_vscode m'
         !! ("pid1_tid1", 2, [Some "FRAME"; Some tabbed_expression])
       = Some child.
Proof.
  destruct (setVariable_exec_then_evaluate id example_parse
              setVariable_request
              (ProcessorHandlers.mk_setVariable_args 1 tabbed_expression "3"
                 plain_format)
              (116, 1000000000, "") (113, 1000000001, exec_reply)
              (mk_xvar (Some "") (Some "int") (Some "3") None None)
              suspended_state
              ("pid1_tid1", 2, [Some "FRAME"]))
    as [Hrun _]; [vm_compute; reflexivity..|].
  destruct Hrun as (expr & child & m' & Htab & _ & Hchild & Hrun).
  exists expr, child, m'. split; [exact Htab|]. split; [exact Hrun|exact Hchild].
Defined.

Lemma scopes_then_variables_witness :
  exists ref s1 s2 vars out,
    ProcessorHandlers.on_scopes scopes_request 1 suspended_state = (Ok tt, s1)
    /\ last (sent s1)
       = Some (Response scopes_request true None
                 [("scopes", VList [ProcessorHandlers.scope_value ref])])
    /\ run_handler
         (on_variables id example_parse variables_request
            (mk_variables_args ref plain_format))
         [(114, 1000000002, frame_reply)] s1
       = Some (Ok tt, s2)
    /\ sent s2
       = (sent s1 ++
            [PydevdRequest CMD_GET_FRAME
               (Str.join Str.TAB ["pid1_tid1"; Str.of_Z 2; "FRAME"]);
             Response variables_request true None
               [("variables", VList (map variable_value out))]])%list
    /\ map (fun v => Some (VariablesSorter.name v)) vars
       = [Some "b"; Some "__init__"; Some "_x"; Some "a"; Some "__private";
          Some "__"]
    /\ VariablesSorter.four_groups vars out.
Proof.
  destruct (scopes_then_variables id example_parse scopes_request
              variables_request 1 plain_format (114, 1000000002, frame_reply)
              suspended_state "pid1_tid1" 2)
    as (ref & s1 & r & s2 & Hs & Hlast & Hrun & Hcase);
    [reflexivity|exact suspended_vars_inverse|vm_compute; reflexivity|].
  destruct Hcase as [Hnamed _].
  destruct Hnamed as (-> & vars & out & Hsent & Hnames & Hgroups);
    [repeat constructor; by eexists|].
  exists ref, s1, s2, vars, out.
  split; [exact Hs|]. split; [exact Hlast|]. split; [exact Hrun|].
  split; [exact Hsent|]. split; [exact Hnames|exact Hgroups].
Defined.



Lemma thread_create_registers_user_threads_witness :
  exists m',
    Session.on_pydevd_thread_create id example_parse_threads "main.py" 4711 0
      thread_create_message Session.init
    = (Ok tt,
       Session.set_proc
         (set_sent
            [Event "process"
               [("name", VStr "main.py"); ("systemProcessId", VInt 4711);
                ("isLocalProcess", VBool true); ("startMethod", VNone)];
             Event "thread"
               [("reason", VStr "started"); ("threadId", VInt 1)]]
            (set_thread_map m'
               (Session.set_is_process_created true init)))
         Session.init)
    /\ IDMap._pydevd_to_vscode m' !! "pid1_tid2" = Some 1.
Proof.
  destruct (thread_create_registers_user_threads id example_parse_threads
              "main.py" 4711 0 thread_create_message
              (Session.mk_xthread "pid1_tid2" (Some "MainThread"))
              Session.init eq_refl)
    as (m' & part & Hrun & Hpart).
  change (Session.is_debugger_internal_thread
            (id <$> Session.xthread_name
                      (Session.mk_xthread "pid1_tid2" (Some "MainThread"))))
    with false in Hpart.
  destruct Hpart as (tid & Hreg & -> & _).
  assert (tid = 1) as ->.
  { assert (Hm : thread_map
                   (Session.proc
                      (Session.on_pydevd_thread_create id
                         example_parse_threads "main.py" 4711 0
                         thread_create_message Session.init).2) = m').
    { rewrite Hrun. reflexivity. }
    rewrite <- Hm in Hreg. vm_compute in Hreg. by injection Hreg as <-. }
  exists m'. split; [exact Hrun|exact Hreg].
Defined.



Lemma pause_suspends_threads_witness :
  on_pause pause_request 0 running_state
  = (Ok tt,
     set_sent
       [PydevdNotify CMD_THREAD_SUSPEND "pid1_tid1";
        Response pause_request true None []] running_state).
Proof.
  destruct (pause_suspends_threads pause_request 0 running_state eq_refl)
    as (Hrun & _ & _).
  rewrite Hrun. vm_compute. reflexivity.
Defined.


End MoreWitnesses.
